(** * Benchmark report pipeline: [scripts/parse_bench.py] and [scripts/parse-bench.py]

    A shallow embedding of the two report scripts and the properties their
    specification states about them.

    Modelling conventions.
    - A Python [str] is a Rocq [string] holding the UTF-8 bytes of the text.
      The tree glyphs and the micro sign are therefore multi-byte literals.
      The classes [\w], [\d] and [\s] are given on the ASCII range; bytes of
      multi-byte characters belong to none of them.
    - A Python [float] is held as the rational it denotes ([Q]).  What
      [float(...)] reads from a [[\d.]+] literal and what the unit
      multiplication gives are rounded to binary64, to nearest with ties to
      even ([Num.Float64.round]); a value that overflows is [+inf], held as
      [2^1024], which lies above every finite binary64 value, so that
      comparisons are those of Python.  The quotients the renderer takes of
      stored durations are exact.  Equality of floats is [Qeq_bool].
    - A Python [dict] is an association list in insertion order; assigning
      to an existing key keeps its position.
    - Exceptions are values of [exn]; code that can raise lives in [res].
    - The static markup of the report is kept symbolic: a document is a list
      of nodes, each holding what the source interpolates into its
      template. *)

From Stdlib Require Import String Ascii List Bool Arith ZArith NArith QArith Lia.
From Stdlib Require Import Qabs Qpower.
From Stdlib Require Import Permutation Sorted DecimalString DecimalN.
Import ListNotations.
Close Scope Q_scope.
Open Scope nat_scope.
Open Scope string_scope.

Set Implicit Arguments.

(** ** Exceptions *)

Inductive exn : Type :=
| ValueError
| KeyError
| TypeError
| ZeroDivisionError
| NameError
| OSError (path : string)
| UnicodeDecodeError.

Inductive res (A : Type) : Type :=
| Ok (a : A)
| Raise (e : exn).

Arguments Ok {A} a.
Arguments Raise {A} e.

Definition bind {A B} (m : res A) (f : A -> res B) : res B :=
  match m with
  | Ok a => f a
  | Raise e => Raise e
  end.

Notation "x <- m ;; k" := (bind m (fun x => k))
  (at level 61, m at next level, right associativity).

(** ** Python string operations *)

Module Str.

(** [text.split(sep)] for a one-character separator. *)
Fixpoint split (sep : ascii) (s : string) : list string :=
  match s with
  | EmptyString => [EmptyString]
  | String a s' =>
      if Ascii.eqb a sep then EmptyString :: split sep s'
      else match split sep s' with
           | hd :: tl => String a hd :: tl
           | [] => [String a EmptyString]
           end
  end.

(** [sub in s]. *)
Fixpoint contains (sub s : string) : bool :=
  if prefix sub s then true
  else match s with
       | EmptyString => false
       | String _ s' => contains sub s'
       end.

(** [s.replace(old, '')] for a non-empty [old]: occurrences are removed left
    to right without overlap.  [skip] counts the characters of an occurrence
    still to be dropped. *)
Fixpoint remove_from (old : string) (skip : nat) (s : string) : string :=
  match s with
  | EmptyString => EmptyString
  | String a s' =>
      match skip with
      | S k => remove_from old k s'
      | O => if prefix old s then remove_from old (String.length old - 1) s'
             else String a (remove_from old 0 s')
      end
  end.

Definition remove (old s : string) : string := remove_from old 0 s.

(** [s.split(sep)[0]]. *)
Definition before (sep : ascii) (s : string) : string :=
  hd EmptyString (split sep s).

Definition is_space (a : ascii) : bool :=
  let n := nat_of_ascii a in
  (((9 <=? n) && (n <=? 13)) || ((28 <=? n) && (n <=? 32)))%nat.

Definition is_digit (a : ascii) : bool :=
  let n := nat_of_ascii a in ((48 <=? n) && (n <=? 57))%nat.

Definition is_word (a : ascii) : bool :=
  let n := nat_of_ascii a in
  (is_digit a || ((65 <=? n) && (n <=? 90)) || ((97 <=? n) && (n <=? 122))
   || (n =? 95))%nat.

Fixpoint lstrip (s : string) : string :=
  match s with
  | String a s' => if is_space a then lstrip s' else s
  | EmptyString => EmptyString
  end.

Fixpoint rstrip (s : string) : string :=
  match s with
  | EmptyString => EmptyString
  | String a s' =>
      match rstrip s' with
      | EmptyString => if is_space a then EmptyString else String a EmptyString
      | t => String a t
      end
  end.

(** [s.strip()]. *)
Definition strip (s : string) : string := rstrip (lstrip s).

Fixpoint all (p : ascii -> bool) (s : string) : bool :=
  match s with
  | EmptyString => true
  | String a s' => p a && all p s'
  end.

(** The first [n] characters of [s]. *)
Fixpoint take (n : nat) (s : string) : string :=
  match n, s with
  | S n', String a s' => String a (take n' s')
  | _, _ => EmptyString
  end.

(** [s] without the first occurrence of the prefix [p], when it starts with it. *)
Fixpoint strip_prefix (p s : string) : option string :=
  match p, s with
  | EmptyString, _ => Some s
  | String a p', String b s' =>
      if Ascii.eqb a b then strip_prefix p' s' else None
  | String _ _, EmptyString => None
  end.

(** [s.replace('_', ' ')]. *)
Fixpoint underscores_to_spaces (s : string) : string :=
  match s with
  | EmptyString => EmptyString
  | String a s' =>
      String (if Ascii.eqb a "_"%char then " "%char else a)
             (underscores_to_spaces s')
  end.

End Str.

(** ** Dictionaries in insertion order *)

Module Dict.
Section Dict.
Variable V : Type.

Definition t := list (string * V).

Definition empty : t := [].

Fixpoint get (k : string) (d : t) : option V :=
  match d with
  | [] => None
  | (k', v) :: d' => if String.eqb k' k then Some v else get k d'
  end.

(** [d[k] = v]: an existing key keeps its place. *)
Fixpoint set (k : string) (v : V) (d : t) : t :=
  match d with
  | [] => [(k, v)]
  | (k', v') :: d' =>
      if String.eqb k' k then (k, v) :: d' else (k', v') :: set k v d'
  end.

Definition mem (k : string) (d : t) : bool :=
  match get k d with Some _ => true | None => false end.

Definition keys (d : t) : list string := map fst d.
Definition values (d : t) : list V := map snd d.
Definition items (d : t) : list (string * V) := d.

(** Truthiness of a dict. *)
Definition nonempty (d : t) : bool :=
  match d with [] => false | _ :: _ => true end.

End Dict.
Arguments empty {V}.
End Dict.

(** ** Regular expressions: [re.match]

    The patterns of the scripts use character classes, literals, sequence,
    ordered alternation, greedy repetition and capture groups.  [run] is a
    backtracking matcher in continuation style, trying alternatives in the
    order of Python's engine: for [Alt] the left branch first, for [Star]
    one more iteration before stopping. *)

Module Re.

Inductive regex : Type :=
| Eps
| Cls (p : ascii -> bool)
| Lit (l : string)
| Seq (r1 r2 : regex)
| Alt (r1 r2 : regex)
| Star (r : regex)
| Grp (i : nat) (r : regex).

Definition Plus (r : regex) : regex := Seq r (Star r).
Definition Opt (r : regex) : regex := Alt r Eps.

(** Capture groups, the most recent binding first. *)
Definition caps := list (nat * string).

Fixpoint group (i : nat) (c : caps) : option string :=
  match c with
  | [] => None
  | (j, w) :: c' => if Nat.eqb j i then Some w else group i c'
  end.

(** What was read between the input [s] and the rest [s']. *)
Definition consumed (s s' : string) : string :=
  Str.take (String.length s - String.length s') s.

Section Run.
Variable A : Type.

Fixpoint run (r : regex) (s : string) (c : caps)
         (k : string -> caps -> option A) {struct r} : option A :=
  match r with
  | Eps => k s c
  | Cls p =>
      match s with
      | String a s' => if p a then k s' c else None
      | EmptyString => None
      end
  | Lit l =>
      match Str.strip_prefix l s with
      | Some s' => k s' c
      | None => None
      end
  | Seq r1 r2 => run r1 s c (fun s' c' => run r2 s' c' k)
  | Alt r1 r2 =>
      match run r1 s c k with
      | Some x => Some x
      | None => run r2 s c k
      end
  | Star r1 =>
      (fix loop (n : nat) (s : string) (c : caps) {struct n} : option A :=
         match n with
         | O => k s c
         | S n' =>
             match run r1 s c
                     (fun s' c' =>
                        if Nat.ltb (String.length s') (String.length s)
                        then loop n' s' c' else None) with
             | Some x => Some x
             | None => k s c
             end
         end) (S (String.length s)) s c
  | Grp i r1 =>
      run r1 s c (fun s' c' => k s' ((i, consumed s s') :: c'))
  end.
End Run.

(** A pattern without capture groups. *)
Fixpoint groupless (r : regex) : bool :=
  match r with
  | Eps | Cls _ | Lit _ => true
  | Seq r1 r2 | Alt r1 r2 => groupless r1 && groupless r2
  | Star r1 => groupless r1
  | Grp _ _ => false
  end.

(** The loop of [Star] on its own, for a given matcher of the body. *)
Definition star_loop {A : Type}
           (body : string -> caps -> (string -> caps -> option A) -> option A)
           (k : string -> caps -> option A) : nat -> string -> caps -> option A :=
  fix loop (n : nat) (s : string) (c : caps) {struct n} : option A :=
    match n with
    | O => k s c
    | S n' =>
        match body s c
                (fun s' c' =>
                   if Nat.ltb (String.length s') (String.length s)
                   then loop n' s' c' else None) with
        | Some x => Some x
        | None => k s c
        end
    end.

(** [re.match(r, s)]: anchored at the start, free at the end. *)
Definition re_match (r : regex) (s : string) : option caps :=
  run r s [] (fun _ c => Some c).

(** The matches a pattern allows, without the order of the search. *)
Inductive matches : regex -> string -> caps -> string -> caps -> Prop :=
| M_Eps s c : matches Eps s c s c
| M_Cls p a s c : p a = true -> matches (Cls p) (String a s) c s c
| M_Lit l s s' c : Str.strip_prefix l s = Some s' -> matches (Lit l) s c s' c
| M_Seq r1 r2 s c s1 c1 s2 c2 :
    matches r1 s c s1 c1 -> matches r2 s1 c1 s2 c2 ->
    matches (Seq r1 r2) s c s2 c2
| M_AltL r1 r2 s c s' c' : matches r1 s c s' c' -> matches (Alt r1 r2) s c s' c'
| M_AltR r1 r2 s c s' c' : matches r2 s c s' c' -> matches (Alt r1 r2) s c s' c'
| M_Star0 r s c : matches (Star r) s c s c
| M_StarS r s c s1 c1 s2 c2 :
    matches r s c s1 c1 -> matches (Star r) s1 c1 s2 c2 ->
    matches (Star r) s c s2 c2
| M_Grp i r s c s' c' :
    matches r s c s' c' -> matches (Grp i r) s c s' ((i, consumed s s') :: c').

End Re.

(** ** Numbers: [int], [float], [min], division and formatting *)

Module Num.

Definition digit_val (a : ascii) : N := N.of_nat (nat_of_ascii a - 48).

Fixpoint digits_val (acc : N) (s : string) : N :=
  match s with
  | EmptyString => acc
  | String a s' => digits_val (10 * acc + digit_val a)%N s'
  end.

Definition digit_string (s : string) : bool :=
  Str.all Str.is_digit s && negb (String.eqb s EmptyString).

(** [int(s)].  The call sites pass what is left of a [[\d,]+] match once the
    commas are gone: a string of digits, possibly empty. *)
Definition py_int (s : string) : res N :=
  if digit_string s then Ok (digits_val 0 s) else Raise ValueError.

(** The integer nearest to [q], halves to the even neighbour. *)
Definition round_half_even (q : Q) : Z :=
  let n := Qnum q in
  let d := Z.pos (Qden q) in
  let fl := (n / d)%Z in
  match (2 * (n mod d) ?= d)%Z with
  | Lt => fl
  | Gt => (fl + 1)%Z
  | Eq => if Z.even fl then fl else (fl + 1)%Z
  end.

(** Binary64, the format of a Python [float]. *)
Module Float64.

(** [2^k]. *)
Definition pow2 (k : Z) : Q :=
  if (0 <=? k)%Z then (2 ^ k # 1)%Q else (1 # Z.to_pos (2 ^ (- k)))%Q.

(** [+inf]: the least value that binary64 cannot hold. *)
Definition infinity : Q := pow2 1024.

(** The exponent of the binade of [q], for [0 < q]: [2^k <= q < 2^(k+1)]. *)
Definition floor_log2 (q : Q) : Z :=
  let k := (Z.log2 (Qnum q) - Z.log2 (Z.pos (Qden q)))%Z in
  if Qle_bool (pow2 k) q then k else (k - 1)%Z.

(** The unit in the last place of the numbers around [q]: 53 significant
    bits, and no exponent below that of the subnormal numbers. *)
Definition ulp_exponent (q : Q) : Z := Z.max (floor_log2 q - 52) (-1074).

(** The nearest binary64 number to [q], for [0 < q]: the nearest multiple
    of the unit in the last place, the even one of two that are as near;
    [+inf] when that is beyond the largest finite number. *)
Definition round_positive (q : Q) : Q :=
  let e := ulp_exponent q in
  let m := round_half_even (q / pow2 e)%Q in
  let r := Qred ((m # 1) * pow2 e)%Q in
  if Qle_bool infinity r then infinity else r.

Definition round (q : Q) : Q :=
  match Qnum q with
  | Z0 => 0%Q
  | Zpos _ => round_positive q
  | Zneg _ => (- round_positive (- q))%Q
  end.

(** [x * y] on floats: the product, rounded.  With [+inf] held as [2^1024]
    this is also right for [+inf] times a factor of at least 1, which is
    [+inf] again. *)
Definition mul (x y : Q) : Q := round (x * y)%Q.

End Float64.

(** The decimal value of the digits [ip], a point and the digits [fp]. *)
Definition decimal (ip fp : string) : Q :=
  (Z.of_N (digits_val 0 (ip ++ fp))
   # Z.to_pos (10 ^ Z.of_nat (String.length fp)))%Q.

(** [float(s)].  The call sites pass a [[\d.]+] match: digits with at most
    one point and at least one digit are a literal, anything else raises.
    The value is the binary64 number nearest to the decimal. *)
Definition py_float (s : string) : res Q :=
  match Str.split "."%char s with
  | [ip] =>
      if digit_string ip then Ok (Float64.round (decimal ip EmptyString))
      else Raise ValueError
  | [ip; fp] =>
      if Str.all Str.is_digit ip && Str.all Str.is_digit fp
         && negb (String.eqb (ip ++ fp) EmptyString)
      then Ok (Float64.round (decimal ip fp))
      else Raise ValueError
  | _ => Raise ValueError
  end.

(** [x / y]. *)
Definition py_div (x y : Q) : res Q :=
  if Qeq_bool y 0%Q then Raise ZeroDivisionError else Ok (x / y)%Q.

Definition Qltb (x y : Q) : bool := negb (Qle_bool y x).

(** [min(xs)]: the first of the smallest values. *)
Fixpoint min_from (m : Q) (xs : list Q) : Q :=
  match xs with
  | [] => m
  | x :: xs' => min_from (if Qltb x m then x else m) xs'
  end.

Definition py_min (xs : list Q) : res Q :=
  match xs with
  | [] => Raise ValueError
  | x :: xs' => Ok (min_from x xs')
  end.

(** [sorted(items, key=lambda x: x[1])]: a stable sort on the value. *)
Fixpoint insert_by_value (x : string * Q) (l : list (string * Q))
  : list (string * Q) :=
  match l with
  | [] => [x]
  | y :: l' =>
      if Qle_bool (snd x) (snd y) then x :: l else y :: insert_by_value x l'
  end.

Definition sorted_by_value (l : list (string * Q)) : list (string * Q) :=
  fold_right insert_by_value [] l.

(** [str(n)] for a natural number. *)
Definition format_int (n : N) : string :=
  DecimalString.NilZero.string_of_uint (N.to_uint n).

(** [f"{n:,}"]: a comma before every group of three digits. *)
Fixpoint commas (s : string) : string :=
  match s with
  | EmptyString => EmptyString
  | String a s' =>
      let rest := String.length s' in
      if (Nat.eqb (rest mod 3) 0) && negb (Nat.eqb rest 0)
      then String a (String ","%char (commas s'))
      else String a (commas s')
  end.

Definition format_thousands (n : N) : string := commas (format_int n).

Fixpoint pad_zeros (width : nat) (s : string) : string :=
  match width - String.length s with
  | O => s
  | S _ => match width with
           | O => s
           | S w => String "0"%char (pad_zeros w s)
           end
  end.

(** [f"{q:.<d>f}"] for [0 <= q]. *)
Definition format_fixed (d : nat) (q : Q) : string :=
  let scale := (10 ^ Z.of_nat d)%Z in
  let r := round_half_even (q * (scale # 1))%Q in
  let ip := format_int (Z.to_N (r / scale)) in
  match d with
  | O => ip
  | S _ => ip ++ "." ++ pad_zeros d (format_int (Z.to_N (r mod scale)))
  end.

End Num.

(** ** The report document

    The markup around the interpolated values is fixed text; a node keeps
    the values. *)

Module Html.

Record table_row : Type := {
  row_class : string;
  data_target : string;
  row_emoji : string;
  row_label : string;
  median_time : string;
  instructions_str : string;
  vs_serde_class : string;
  vs_serde_str : string
}.

Record chart : Type := {
  chart_labels : list string;
  chart_data : list string;
  backgroundColor : list string;
  borderColor : list string
}.

Record legend_item : Type := {
  legend_color : string;
  legend_emoji : string;
  legend_label : string;
  legend_note : string
}.

Inductive node : Type :=
| ReportHead (generated commit branch : string) (legend : list legend_item)
| SectionHeader (category_name : string)
| BenchmarkItem (bench_id title : string) (rows : list table_row) (c : chart)
| InteractiveJs
| Footer.

Definition html := list node.

End Html.

(** ** The process around [main]

    The inputs are whole-file reads, the output one whole-file write; the
    clock and [git] are taken as given. *)

Module Proc.

(** What a path stands for.
    - [Missing]: nothing is there, and a file can be created.
    - [Unreadable]: something is there that cannot be opened, for reading
      or for writing (a directory, a file without permissions).
    - [Regular]: a text file, which can be read and written over.
    - [Undecodable]: a file whose bytes are not text in the encoding in
      use; it can be written over.
    - [ReadOnly]: a text file that can be read and not written.
    - [NoParent]: nothing is there, and no file can be created (the
      directory is missing or cannot be written). *)
Inductive file : Type :=
| Missing
| Unreadable
| Regular (content : string)
| Undecodable
| ReadOnly (content : string)
| NoParent.

Definition filesystem := string -> file.

(** [Path.exists] *)
Definition path_exists (fs : filesystem) (p : string) : bool :=
  match fs p with Missing | NoParent => false | _ => true end.

(** [Path.read_text] *)
Definition read_text (fs : filesystem) (p : string) : res string :=
  match fs p with
  | Regular content | ReadOnly content => Ok content
  | Undecodable => Raise UnicodeDecodeError
  | Missing | Unreadable | NoParent => Raise (OSError p)
  end.

(** [Path.write_text]: whether the file can be opened for writing. *)
Definition write_text (fs : filesystem) (p : string) : res unit :=
  match fs p with
  | Missing | Regular _ | Undecodable => Ok tt
  | Unreadable | ReadOnly _ | NoParent => Raise (OSError p)
  end.

(** What a run leaves behind: [traceback] is the uncaught exception the
    interpreter reports on standard error, [written] the files written. *)
Record outcome (doc : Type) : Type := {
  exit_code : Z;
  stdout : list string;
  traceback : option exn;
  written : list (string * doc)
}.

(** [sys.exit(1)] after the usage line. *)
Definition usage_exit {doc} (usage : string) : outcome doc :=
  {| exit_code := 1; stdout := [usage]; traceback := None; written := [] |}.

(** An exception that reaches the top level. *)
Definition crash {doc} (e : exn) : outcome doc :=
  {| exit_code := 1; stdout := []; traceback := Some e; written := [] |}.

(** The file system with [f] at path [p]. *)
Definition with_file (p : string) (f : file) (fs : filesystem) : filesystem :=
  fun q => if String.eqb q p then f else fs q.

Definition no_files : filesystem := fun _ => Missing.

(** [sys.argv[i]] *)
Definition arg (i : nat) (argv : list string) : string :=
  nth i argv EmptyString.

Definition output_path (argv : list string) : string :=
  if Nat.ltb 3 (List.length argv) then arg 3 argv else "bench-report.html".

End Proc.

(** ** [scripts/parse_bench.py] *)

Module ParseBench.
Import Re Html.

Record target_config : Type := {
  emoji : string;
  name : string;
  label : string;
  color : string
}.

Definition TARGETS : Dict.t target_config :=
  [ ("facet_format_jit",
     {| emoji := "⚡"; name := "facet_format_jit";
        label := "Format JIT"; color := "#FFD700" |});
    ("facet_format_json",
     {| emoji := "📦"; name := "facet_format_json";
        label := "Format Interp"; color := "#FF6B6B" |});
    ("facet_json",
     {| emoji := "🔧"; name := "facet_json";
        label := "JSON Interp"; color := "#4ECDC4" |});
    ("facet_json_cranelift",
     {| emoji := "🚀"; name := "facet_json_cranelift";
        label := "JSON JIT"; color := "#95E1D3" |});
    ("serde_json",
     {| emoji := "🎯"; name := "serde_json";
        label := "serde_json"; color := "#9B59B6" |}) ].

Inductive operation : Type := Deserialize | Serialize.

(** The value of a benchmark key: [{'deserialize': {}, 'serialize': {}}]. *)
Record entry : Type := {
  deserialize : Dict.t Q;
  serialize : Dict.t Q
}.

Definition empty_entry : entry :=
  {| deserialize := Dict.empty; serialize := Dict.empty |}.

Definition entry_get (op : operation) (e : entry) : Dict.t Q :=
  match op with Deserialize => deserialize e | Serialize => serialize e end.

(** [e[op][target] = value]. *)
Definition entry_set (op : operation) (target : string) (value : Q) (e : entry)
  : entry :=
  match op with
  | Deserialize =>
      {| deserialize := Dict.set target value (deserialize e);
         serialize := serialize e |}
  | Serialize =>
      {| deserialize := deserialize e;
         serialize := Dict.set target value (serialize e) |}
  end.

Definition divan_results := Dict.t entry.

(** [[├╰]]. *)
Definition branch_glyph : regex := Alt (Lit "├") (Lit "╰").

Definition digit_or_dot (a : ascii) : bool :=
  Str.is_digit a || Ascii.eqb a "."%char.

Definition digit_or_comma (a : ascii) : bool :=
  Str.is_digit a || Ascii.eqb a ","%char.

Definition word_or_space (a : ascii) : bool :=
  Str.is_word a || Str.is_space a.

(** [r'[├╰]─ (\w+)\s'] *)
Definition module_re : regex :=
  Seq branch_glyph
      (Seq (Lit "─ ") (Seq (Grp 1 (Plus (Cls Str.is_word))) (Cls Str.is_space))).

(** [(ns|µs|ms)] *)
Definition unit_re : regex := Alt (Lit "ns") (Alt (Lit "µs") (Lit "ms")).

Definition name_value_unit_re (name_re : regex) : regex :=
  Seq (Opt (Lit "│"))
  (Seq (Star (Cls Str.is_space))
  (Seq branch_glyph
  (Seq (Lit "─")
  (Seq (Plus (Cls Str.is_space))
  (Seq (Grp 1 name_re)
  (Seq (Plus (Cls Str.is_space))
  (Seq (Grp 2 (Plus (Cls digit_or_dot)))
  (Seq (Plus (Cls Str.is_space))
       (Grp 3 unit_re))))))))).

(** [r'│?\s*[├╰]─\s+([\w_]+)\s+([\d.]+)\s+(ns|µs|ms)'] *)
Definition result_re : regex := name_value_unit_re (Plus (Cls Str.is_word)).

(** [m.group(i)]; a group that took no part in the match is [None], on which
    the string operations that follow raise. *)
Definition m_group (i : nat) (m : caps) : res string :=
  match group i m with
  | Some w => Ok w
  | None => Raise TypeError
  end.

(** [d[k]]. *)
Definition subscript {V} (k : string) (d : Dict.t V) : res V :=
  match Dict.get k d with
  | Some v => Ok v
  | None => Raise KeyError
  end.

(** Truthiness of [current_benchmark]. *)
Definition active (current : option string) : option string :=
  match current with
  | Some b => if String.eqb b EmptyString then None else Some b
  | None => None
  end.

(** [value *= 1000] and [value *= 1_000_000]: products of floats. *)
Definition to_ns (unit : string) (value : Q) : Q :=
  if String.eqb unit "µs" then Num.Float64.mul value 1000
  else if String.eqb unit "ms" then Num.Float64.mul value 1000000
  else value.

Definition operation_of (target_full : string) : operation :=
  if Str.contains "deserialize" target_full then Deserialize else Serialize.

Definition target_base_of (target_full : string) : string :=
  Str.remove "_serialize" (Str.remove "_deserialize" target_full).

Definition divan_state : Type := divan_results * option string.

(** One turn of the loop of [parse_divan_output]. *)
Definition divan_line (st : divan_state) (line : string) : res divan_state :=
  let '(results, current_benchmark) := st in
  match re_match module_re line with
  | Some module_match =>
      b <- m_group 1 module_match ;;
      Ok (Dict.set b empty_entry results, Some b)
  | None =>
      match active current_benchmark with
      | Some cur =>
          match re_match result_re line with
          | Some result_match =>
              target_full <- m_group 1 result_match ;;
              literal <- m_group 2 result_match ;;
              value <- Num.py_float literal ;;
              unit <- m_group 3 result_match ;;
              let value := to_ns unit value in
              let op := operation_of target_full in
              let target_base := target_base_of target_full in
              e <- subscript cur results ;;
              Ok (Dict.set cur (entry_set op target_base value e) results,
                  current_benchmark)
          | None => Ok st
          end
      | None => Ok st
      end
  end.

Fixpoint for_lines {S : Type} (body : S -> string -> res S) (st : S)
         (lines : list string) : res S :=
  match lines with
  | [] => Ok st
  | line :: rest => st' <- body st line ;; for_lines body st' rest
  end.

Definition parse_divan_lines (lines : list string) : res divan_results :=
  st <- for_lines divan_line (Dict.empty, None) lines ;; Ok (fst st).

Definition newline : ascii := ascii_of_nat 10.

Definition parse_divan_output (text : string) : res divan_results :=
  parse_divan_lines (Str.split newline text).

Definition gungraun_results := Dict.t (Dict.t N).
Definition gungraun_state : Type := gungraun_results * option string.

(** [r'gungraun_jit::[\w_]+::([\w_]+)'] *)
Definition name_re : regex :=
  Seq (Lit "gungraun_jit::")
      (Seq (Plus (Cls Str.is_word))
           (Seq (Lit "::") (Grp 1 (Plus (Cls Str.is_word))))).

Definition label_value_re (label_re : regex) : regex :=
  Seq (Plus (Cls Str.is_space))
  (Seq (Grp 1 label_re)
  (Seq (Lit ":")
  (Seq (Plus (Cls Str.is_space))
       (Grp 2 (Plus (Cls digit_or_comma)))))).

(** [r'\s+([\w\s]+):\s+([\d,]+)'] *)
Definition metric_re : regex := label_value_re (Plus (Cls word_or_space)).

Definition current_component (value_str : string) : string :=
  if Str.contains "|" value_str then Str.before "|"%char value_str
  else value_str.

(** One turn of the loop of [parse_gungraun_output]. *)
Definition gungraun_line (st : gungraun_state) (line : string)
  : res gungraun_state :=
  let '(results, current_bench) := st in
  match re_match name_re line with
  | Some name_match =>
      b <- m_group 1 name_match ;;
      Ok (Dict.set b Dict.empty results, Some b)
  | None =>
      match active current_bench with
      | Some cur =>
          match re_match metric_re line with
          | Some metric_match =>
              g1 <- m_group 1 metric_match ;;
              let metric := Str.strip g1 in
              g2 <- m_group 2 metric_match ;;
              let value_str := current_component (Str.remove "," g2) in
              match Num.py_int value_str with
              | Ok value =>
                  metrics <- subscript cur results ;;
                  Ok (Dict.set cur (Dict.set metric value metrics) results,
                      current_bench)
              | Raise ValueError => Ok st
              | Raise e => Raise e
              end
          | None => Ok st
          end
      | None => Ok st
      end
  end.

Definition parse_gungraun_lines (lines : list string) : res gungraun_results :=
  st <- for_lines gungraun_line (Dict.empty, None) lines ;; Ok (fst st).

Definition parse_gungraun_output (text : string) : res gungraun_results :=
  parse_gungraun_lines (Str.split newline text).

(** [format_time] *)
Definition format_time (ns : Q) : string :=
  if Num.Qltb ns 1000 then Num.format_fixed 1 ns ++ " ns"
  else if Num.Qltb ns 1000000 then Num.format_fixed 2 (ns / 1000)%Q ++ " µs"
  else Num.format_fixed 2 (ns / 1000000)%Q ++ " ms".

(** [f"{instructions:,}" if instructions else "-"] *)
Definition instructions_cell (instructions : option N) : string :=
  match instructions with
  | Some n => if N.eqb n 0 then "-" else Num.format_thousands n
  | None => "-"
  end.

(** [gungraun_data.get(gungraun_key, {}).get('Instructions')] *)
Definition lookup_instructions (gungraun_data : gungraun_results)
           (gungraun_key : string) : option N :=
  Dict.get "Instructions"
           (match Dict.get gungraun_key gungraun_data with
            | Some metrics => metrics
            | None => Dict.empty
            end).

(** [time_ns / serde_time if serde_time and serde_time > 0 else 0] *)
Definition vs_serde_of (time_ns : Q) (serde_time : option Q) : res Q :=
  match serde_time with
  | Some s =>
      if negb (Qeq_bool s 0) && Num.Qltb 0 s then Num.py_div time_ns s
      else Ok 0%Q
  | None => Ok 0%Q
  end.

Definition row_class_of (target : string) (time_ns fastest_time : Q) : string :=
  if Qeq_bool time_ns fastest_time then "fastest"
  else if String.eqb target "serde_json" then "baseline"
  else if String.eqb target "facet_format_jit" then "jit-highlight"
  else "".

Definition vs_serde_cell (vs_serde : Q) : string :=
  if Num.Qltb 0 vs_serde then Num.format_fixed 2 vs_serde ++ "x" else "-".

Definition vs_serde_class_of (vs_serde : Q) : string :=
  if Qle_bool vs_serde 1 then "speedup"
  else if Qle_bool vs_serde 2 then "neutral" else "slowdown".

(** The body of the table loop of [generate_benchmark_section]; [None] is
    the [continue] for a target outside [TARGETS]. *)
Definition table_row_of (bench_name : string)
           (gungraun_data : gungraun_results)
           (serde_time : option Q) (fastest_time : Q)
           (item : string * Q) : res (option table_row) :=
  let '(target, time_ns) := item in
  if negb (Dict.mem target TARGETS) then Ok None
  else
    config <- subscript target TARGETS ;;
    let gungraun_key := bench_name ++ "_" ++ target in
    let instructions := lookup_instructions gungraun_data gungraun_key in
    vs_serde <- vs_serde_of time_ns serde_time ;;
    Ok (Some {| row_class := row_class_of target time_ns fastest_time;
                data_target := target;
                row_emoji := emoji config;
                row_label := label config;
                median_time := format_time time_ns;
                instructions_str := instructions_cell instructions;
                vs_serde_class := vs_serde_class_of vs_serde;
                vs_serde_str := vs_serde_cell vs_serde |}).

Fixpoint table_rows (bench_name : string) (gungraun_data : gungraun_results)
         (serde_time : option Q) (fastest_time : Q)
         (sorted_targets : list (string * Q)) : res (list table_row) :=
  match sorted_targets with
  | [] => Ok []
  | item :: rest =>
      r <- table_row_of bench_name gungraun_data serde_time fastest_time item ;;
      rs <- table_rows bench_name gungraun_data serde_time fastest_time rest ;;
      Ok (match r with Some row => row :: rs | None => rs end)
  end.

(** The four chart loops: each walks [sorted_targets] and keeps the targets
    of [TARGETS]. *)
Fixpoint chart_column {A : Type} (f : target_config -> Q -> A)
         (sorted_targets : list (string * Q)) : res (list A) :=
  match sorted_targets with
  | [] => Ok []
  | (target, time_ns) :: rest =>
      if Dict.mem target TARGETS then
        config <- subscript target TARGETS ;;
        xs <- chart_column f rest ;;
        Ok (f config time_ns :: xs)
      else chart_column f rest
  end.

Definition chart_of (sorted_targets : list (string * Q)) : res chart :=
  labels <- chart_column (fun c _ => emoji c ++ " " ++ label c) sorted_targets ;;
  data <- chart_column (fun _ t => Num.format_fixed 3 (t / 1000)%Q)
                       sorted_targets ;;
  bg <- chart_column (fun c _ => color c ++ "CC") sorted_targets ;;
  border <- chart_column (fun c _ => color c) sorted_targets ;;
  Ok {| chart_labels := labels; chart_data := data;
        backgroundColor := bg; borderColor := border |}.

Definition is_upper (a : ascii) : bool :=
  let n := nat_of_ascii a in Nat.leb 65 n && Nat.leb n 90.
Definition is_lower (a : ascii) : bool :=
  let n := nat_of_ascii a in Nat.leb 97 n && Nat.leb n 122.
Definition to_upper (a : ascii) : ascii :=
  if is_lower a then ascii_of_nat (nat_of_ascii a - 32) else a.
Definition to_lower (a : ascii) : ascii :=
  if is_upper a then ascii_of_nat (nat_of_ascii a + 32) else a.

(** [s.title()] *)
Fixpoint title_from (prev_cased : bool) (s : string) : string :=
  match s with
  | EmptyString => EmptyString
  | String a s' =>
      if is_upper a || is_lower a
      then String (if prev_cased then to_lower a else to_upper a)
                  (title_from true s')
      else String a (title_from false s')
  end.

Definition title (s : string) : string := title_from false s.

(** [generate_benchmark_section] *)
Definition generate_benchmark_section (bench_name operation : string)
           (divan_data : Dict.t Q) (gungraun_data : gungraun_results)
           (bench_id : string) : res html :=
  if negb (Dict.nonempty divan_data) then Ok []
  else
    let serde_time := Dict.get "serde_json" divan_data in
    fastest_time <- (if Dict.nonempty divan_data
                     then Num.py_min (Dict.values divan_data)
                     else Ok 0%Q) ;;
    let sorted_targets := Num.sorted_by_value (Dict.items divan_data) in
    rows <- table_rows bench_name gungraun_data serde_time fastest_time
                       sorted_targets ;;
    c <- chart_of sorted_targets ;;
    Ok [BenchmarkItem bench_id
          (title (Str.underscores_to_spaces bench_name) ++ " - "
             ++ title operation)
          rows c].

Definition legend_order : list string :=
  ["facet_format_jit"; "facet_json_cranelift"; "facet_format_json";
   "facet_json"; "serde_json"].

Fixpoint legend_items (keys : list string) : res (list legend_item) :=
  match keys with
  | [] => Ok []
  | target_key :: rest =>
      config <- subscript target_key TARGETS ;;
      items <- legend_items rest ;;
      Ok ({| legend_color := color config;
             legend_emoji := emoji config;
             legend_label := label config;
             legend_note :=
               if String.eqb target_key "facet_format_jit"
               then " - Format-agnostic JIT (our work!)"
               else if String.eqb target_key "serde_json"
               then " - The baseline to beat" else "" |} :: items)
  end.

Definition get_default (k default : string) (d : Dict.t string) : string :=
  match Dict.get k d with Some v => v | None => default end.

(** [generate_html_report]; [now] is the formatted [datetime.now()]. *)
Definition generate_html_report (now : string) (git_info : Dict.t string)
  : res html :=
  legend <- legend_items legend_order ;;
  Ok [ReportHead now (get_default "commit" "unknown" git_info)
                 (get_default "branch" "unknown" git_info) legend].

Definition in_list (b : string) (l : list string) : bool :=
  existsb (String.eqb b) l.

(** The two [if bench_data.get(...)] blocks for one benchmark. *)
Definition benchmark_sections (gungraun_data : gungraun_results)
           (bench_name : string) (bench_data : entry) : res html :=
  d <- (if Dict.nonempty (deserialize bench_data)
        then generate_benchmark_section bench_name "deserialize"
               (deserialize bench_data) gungraun_data (bench_name ++ "_deser")
        else Ok []) ;;
  s <- (if Dict.nonempty (serialize bench_data)
        then generate_benchmark_section bench_name "serialize"
               (serialize bench_data) gungraun_data (bench_name ++ "_ser")
        else Ok []) ;;
  Ok (d ++ s)%list.

Fixpoint category_benchmarks (divan_data : divan_results)
         (gungraun_data : gungraun_results) (benchmarks : list string)
  : res html :=
  match benchmarks with
  | [] => Ok []
  | bench_name :: rest =>
      bench_data <- subscript bench_name divan_data ;;
      h <- benchmark_sections gungraun_data bench_name bench_data ;;
      t <- category_benchmarks divan_data gungraun_data rest ;;
      Ok (h ++ t)%list
  end.

Fixpoint categories_html (divan_data : divan_results)
         (gungraun_data : gungraun_results)
         (categories : list (string * list string)) : res html :=
  match categories with
  | [] => Ok []
  | (category_name, benchmarks) :: rest =>
      h <- match benchmarks with
           | [] => Ok []
           | _ :: _ =>
               b <- category_benchmarks divan_data gungraun_data benchmarks ;;
               Ok (SectionHeader category_name :: b)
           end ;;
      t <- categories_html divan_data gungraun_data rest ;;
      Ok (h ++ t)%list
  end.

Definition micro_names : list string :=
  ["simple_struct"; "single_nested_struct"; "simple_with_options";
   "nested_struct"].
Definition realistic_names : list string :=
  ["twitter"; "canada"; "hashmaps"; "nested_structs"].
Definition array_names : list string :=
  ["floats"; "integers"; "booleans"; "short_strings"; "long_strings";
   "escaped_strings"].

Definition categories_of (divan_data : divan_results)
  : list (string * list string) :=
  let keys := Dict.keys divan_data in
  let micro_benches := filter (fun b => in_list b micro_names) keys in
  let realistic_benches := filter (fun b => in_list b realistic_names) keys in
  let array_benches := filter (fun b => in_list b array_names) keys in
  let other_benches :=
    filter (fun b => negb (in_list b (micro_benches ++ realistic_benches
                                        ++ array_benches)%list)) keys in
  [ ("🔬 Micro Benchmarks (JIT Testing)", micro_benches);
    ("🌍 Realistic Benchmarks (Real-World Data)", realistic_benches);
    ("📊 Array Benchmarks (Vec&lt;T&gt;)", array_benches);
    ("📦 Other Benchmarks", other_benches) ].

(** [generate_sections_html] *)
Definition generate_sections_html (divan_data : divan_results)
           (gungraun_data : gungraun_results) : res html :=
  categories_html divan_data gungraun_data (categories_of divan_data).

Definition count_if {A} (p : A -> bool) (l : list A) : nat :=
  List.length (filter p l).

Definition git_info_of (git : option (string * string)) : Dict.t string :=
  match git with
  | Some (commit, branch) => [("commit", commit); ("branch", branch)]
  | None => [("commit", "unknown"); ("branch", "unknown")]
  end.

(** [main] up to the write: the document and the parsed wall-clock data.
    [git] is [None] when a [git] call fails. *)
Definition build_report (fs : Proc.filesystem) (now : string)
           (git : option (string * string)) (divan_file gungraun_file : string)
  : res (html * divan_results) :=
  divan_text <- (if Proc.path_exists fs divan_file
                 then Proc.read_text fs divan_file else Ok EmptyString) ;;
  divan_data <- parse_divan_output divan_text ;;
  gungraun_text <- (if Proc.path_exists fs gungraun_file
                    then Proc.read_text fs gungraun_file else Ok EmptyString) ;;
  gungraun_data <- parse_gungraun_output gungraun_text ;;
  head <- generate_html_report now (git_info_of git) ;;
  sections <- generate_sections_html divan_data gungraun_data ;;
  Ok ((head ++ sections ++ [InteractiveJs; Footer])%list, divan_data).

(** [main] *)
Definition main (argv : list string) (fs : Proc.filesystem) (now : string)
           (git : option (string * string)) : Proc.outcome html :=
  if Nat.ltb (List.length argv) 3
  then Proc.usage_exit
         "Usage: parse_bench.py <divan_output.txt> <gungraun_output.txt> [output.html]"
  else
    let output_file := Proc.output_path argv in
    match build_report fs now git (Proc.arg 1 argv) (Proc.arg 2 argv) with
    | Raise e => Proc.crash e
    | Ok (html, divan_data) =>
        match Proc.write_text fs output_file with
        | Raise e => Proc.crash e
        | Ok _ =>
            let deser_count :=
              count_if (fun b => Dict.nonempty (deserialize b))
                       (Dict.values divan_data) in
            let ser_count :=
              count_if (fun b => Dict.nonempty (serialize b))
                       (Dict.values divan_data) in
            {| Proc.exit_code := 0;
               Proc.stdout :=
                 [ "✅ Report generated: " ++ output_file;
                   "   Benchmarks: " ++ Num.format_int (N.of_nat deser_count)
                     ++ " deserialize, "
                     ++ Num.format_int (N.of_nat ser_count)
                     ++ " serialize" ];
               Proc.traceback := None;
               Proc.written := [(output_file, html)] |}
        end
    end.

End ParseBench.

(** ** [scripts/parse-bench.py], the earlier script *)

Module ParseBenchLegacy.
Import Re.

Definition divan_results := Dict.t (Dict.t Q).
Definition divan_state : Type := divan_results * option string.

(** [r'│?\s*[├╰]─\s+(\w+)\s+([\d.]+)\s+(ns|µs|ms)'] *)
Definition result_re : regex :=
  ParseBench.name_value_unit_re (Plus (Cls Str.is_word)).

(** One turn of the loop of [parse_divan_output]. *)
Definition divan_line (st : divan_state) (line : string) : res divan_state :=
  let '(results, current_benchmark) := st in
  match re_match ParseBench.module_re line with
  | Some module_match =>
      b <- ParseBench.m_group 1 module_match ;;
      Ok (Dict.set b Dict.empty results, Some b)
  | None =>
      match ParseBench.active current_benchmark with
      | Some cur =>
          match re_match result_re line with
          | Some result_match =>
              target <- ParseBench.m_group 1 result_match ;;
              literal <- ParseBench.m_group 2 result_match ;;
              value <- Num.py_float literal ;;
              unit <- ParseBench.m_group 3 result_match ;;
              let value := ParseBench.to_ns unit value in
              targets <- ParseBench.subscript cur results ;;
              Ok (Dict.set cur (Dict.set target value targets) results,
                  current_benchmark)
          | None => Ok st
          end
      | None => Ok st
      end
  end.

Definition parse_divan_lines (lines : list string) : res divan_results :=
  st <- ParseBench.for_lines divan_line (Dict.empty, None) lines ;; Ok (fst st).

Definition parse_divan_output (text : string) : res divan_results :=
  parse_divan_lines (Str.split ParseBench.newline text).

(** The metric pattern: blanks, a label made of [\w+] followed by any number
    of [\s+\w+], a colon, blanks and [[\d,]+]. *)
Definition metric_re : regex :=
  ParseBench.label_value_re
    (Seq (Plus (Cls Str.is_word))
         (Star (Seq (Plus (Cls Str.is_space)) (Plus (Cls Str.is_word))))).

(** One turn of the loop of [parse_gungraun_output]; [int] is not guarded
    here. *)
Definition gungraun_line (st : ParseBench.gungraun_state) (line : string)
  : res ParseBench.gungraun_state :=
  let '(results, current_bench) := st in
  match re_match ParseBench.name_re line with
  | Some name_match =>
      b <- ParseBench.m_group 1 name_match ;;
      Ok (Dict.set b Dict.empty results, Some b)
  | None =>
      match ParseBench.active current_bench with
      | Some cur =>
          match re_match metric_re line with
          | Some metric_match =>
              g1 <- ParseBench.m_group 1 metric_match ;;
              let metric := Str.strip g1 in
              g2 <- ParseBench.m_group 2 metric_match ;;
              value <- Num.py_int (Str.remove "," g2) ;;
              metrics <- ParseBench.subscript cur results ;;
              Ok (Dict.set cur (Dict.set metric value metrics) results,
                  current_bench)
          | None => Ok st
          end
      | None => Ok st
      end
  end.

Definition parse_gungraun_lines (lines : list string)
  : res ParseBench.gungraun_results :=
  st <- ParseBench.for_lines gungraun_line (Dict.empty, None) lines ;;
  Ok (fst st).

Definition parse_gungraun_output (text : string)
  : res ParseBench.gungraun_results :=
  parse_gungraun_lines (Str.split ParseBench.newline text).

Record table_row : Type := {
  row_class : string;
  target_cell : string;
  median_time : string;
  speedup_class : string;
  vs_fastest : string;
  vs_serde : string
}.

(** [time_ns / fastest] under its guard [fastest > 0]. *)
Definition ratio_to_fastest (time_ns fastest : Q) : res (option Q) :=
  if Num.Qltb 0 fastest
  then r <- Num.py_div time_ns fastest ;; Ok (Some r)
  else Ok None.

(** [time_ns / serde_time] under [serde_time and serde_time > 0]. *)
Definition ratio_to_baseline (time_ns : Q) (serde_time : option Q)
  : res (option Q) :=
  match serde_time with
  | Some s =>
      if negb (Qeq_bool s 0) && Num.Qltb 0 s
      then r <- Num.py_div time_ns s ;; Ok (Some r)
      else Ok None
  | None => Ok None
  end.

Definition ratio_cell (r : option Q) : string :=
  match r with
  | Some q => Num.format_fixed 2 q ++ "x"
  | None => "-"
  end.

Definition row_class_of (target : string) (time_ns fastest : Q) : string :=
  if Qeq_bool time_ns fastest then "fastest"
  else if Str.contains "format_jit" target then "jit-highlight"
  else if Str.contains "serde" target then "baseline"
  else "".

Definition speedup_class_of (time_ns fastest : Q) : string :=
  if Qle_bool time_ns (fastest * (11 # 10))%Q then "speedup"
  else if Num.Qltb (fastest * 2)%Q time_ns then "slowdown" else "".

(** The body of the row loop. *)
Definition table_row_of (fastest : Q) (serde_time : option Q)
           (item : string * Q) : res table_row :=
  let '(target, time_ns) := item in
  vf <- ratio_to_fastest time_ns fastest ;;
  vs <- ratio_to_baseline time_ns serde_time ;;
  Ok {| row_class := row_class_of target time_ns fastest;
        target_cell := Str.underscores_to_spaces target;
        median_time := ParseBench.format_time time_ns;
        speedup_class := speedup_class_of time_ns fastest;
        vs_fastest := ratio_cell vf;
        vs_serde := ratio_cell vs |}.

Fixpoint table_rows (fastest : Q) (serde_time : option Q)
         (sorted_targets : list (string * Q)) : res (list table_row) :=
  match sorted_targets with
  | [] => Ok []
  | item :: rest =>
      r <- table_row_of fastest serde_time item ;;
      rs <- table_rows fastest serde_time rest ;;
      Ok (r :: rs)
  end.

(** [data.get('serde_json_deserialize', data.get('serde_json_serialize', None))] *)
Definition serde_time_of (data : Dict.t Q) : option Q :=
  match Dict.get "serde_json_deserialize" data with
  | Some t => Some t
  | None => Dict.get "serde_json_serialize" data
  end.

(** The table of one non-empty benchmark. *)
Definition benchmark_table (data : Dict.t Q) : res (list table_row) :=
  fastest <- Num.py_min (Dict.values data) ;;
  table_rows fastest (serde_time_of data)
             (Num.sorted_by_value (Dict.items data)).

Inductive node : Type :=
| Head (generated commit branch : string)
| CategoryHeading (category : string)
| BenchTable (title : string) (rows : list table_row)
| InstructionCounts (title : string) (instructions cycles : option string).

Definition html := list node.

Definition micro_benchmarks : list string :=
  ["simple_struct"; "single_nested_struct"; "simple_with_options"].
Definition realistic_benchmarks : list string :=
  ["twitter"; "canada"; "hashmaps"; "nested_structs"].

Fixpoint category_tables (divan_data : divan_results)
         (benchmarks : list string) : res html :=
  match benchmarks with
  | [] => Ok []
  | bench :: rest =>
      h <- match Dict.get bench divan_data with
           | None => Ok []
           | Some data =>
               if negb (Dict.nonempty data) then Ok []
               else
                 rows <- benchmark_table data ;;
                 Ok [BenchTable
                       (ParseBench.title (Str.underscores_to_spaces bench))
                       rows]
           end ;;
      t <- category_tables divan_data rest ;;
      Ok (h ++ t)%list
  end.

(** The wall-clock part of [generate_html_report]. *)
Definition wall_clock_tables (divan_data : divan_results) : res html :=
  m <- category_tables divan_data micro_benchmarks ;;
  r <- category_tables divan_data realistic_benchmarks ;;
  Ok ((CategoryHeading "Micro Benchmarks" :: m)
        ++ (CategoryHeading "Realistic Benchmarks" :: r))%list.

(** The instruction-count part. *)
Fixpoint instruction_counts (gungraun_items : list (string * Dict.t N)) : html :=
  match gungraun_items with
  | [] => []
  | (bench_name, metrics) :: rest =>
      if negb (Dict.nonempty metrics) then instruction_counts rest
      else
        InstructionCounts
          (ParseBench.title (Str.underscores_to_spaces bench_name))
          (option_map Num.format_thousands (Dict.get "Instructions" metrics))
          (option_map Num.format_thousands
                      (Dict.get "Estimated Cycles" metrics))
        :: instruction_counts rest
  end.

(** [generate_html_report].  The loop that builds the chart datasets reads
    the Python name [chartColors], which the script binds nowhere (it is a
    constant of the embedded JavaScript only): its first turn raises. *)
Definition generate_html_report (now : string)
           (divan_data : divan_results)
           (gungraun_data : ParseBench.gungraun_results)
           (git_info : string * string) : res html :=
  tables <- wall_clock_tables divan_data ;;
  let counts := instruction_counts (Dict.items gungraun_data) in
  let so_far :=
    (Head now (fst git_info) (snd git_info) :: tables ++ counts)%list in
  _ <- (Raise NameError : res html) ;;
  Ok so_far.

(** [main]; [git] is [None] when the [git] program cannot be started. *)
Definition main (argv : list string) (fs : Proc.filesystem) (now : string)
           (git : option (string * string)) : Proc.outcome html :=
  if Nat.ltb (List.length argv) 3
  then Proc.usage_exit
         "Usage: parse-bench.py <divan_output.txt> <gungraun_output.txt> [output.html]"
  else
    let divan_file := Proc.arg 1 argv in
    let gungraun_file := Proc.arg 2 argv in
    let output_file := Proc.output_path argv in
    match
      (divan_text <- (if Proc.path_exists fs divan_file
                      then Proc.read_text fs divan_file else Ok EmptyString) ;;
       gungraun_text <- (if Proc.path_exists fs gungraun_file
                         then Proc.read_text fs gungraun_file
                         else Ok EmptyString) ;;
       divan_data <- parse_divan_output divan_text ;;
       gungraun_data <- parse_gungraun_output gungraun_text ;;
       git_info <- match git with
                   | Some g => Ok g
                   | None => Raise (OSError "git")
                   end ;;
       html <- generate_html_report now divan_data gungraun_data git_info ;;
       Ok (html, List.length divan_data, List.length gungraun_data))
    with
    | Raise e => Proc.crash e
    | Ok (html, n_divan, n_gungraun) =>
        match Proc.write_text fs output_file with
        | Raise e => Proc.crash e
        | Ok _ =>
            {| Proc.exit_code := 0;
               Proc.stdout :=
                 [ "✅ Report generated: " ++ output_file;
                   "   Benchmarks parsed: "
                     ++ Num.format_int (N.of_nat n_divan)
                     ++ " from divan, "
                     ++ Num.format_int (N.of_nat n_gungraun)
                     ++ " from gungraun" ];
               Proc.traceback := None;
               Proc.written := [(output_file, html)] |}
        end
    end.

End ParseBenchLegacy.

(** ** Sample inputs *)

Module Sample.

Definition nl : string := String ParseBench.newline EmptyString.

(** A parser state inside the section of [simple_struct]. *)
Definition in_simple_struct : ParseBench.divan_state :=
  ([("simple_struct", ParseBench.empty_entry)], Some "simple_struct").

Definition jit_line : string :=
  "│  ├─ facet_format_jit_deserialize  1.046 µs".

Definition jit_match : Re.caps :=
  [(3, "µs"); (2, "1.046"); (1, "facet_format_jit_deserialize")].

(** Two measurements of one benchmark. *)
Definition scenario_text : string :=
  "├─ simple_struct " ++ nl
  ++ "│  ├─ facet_format_jit_deserialize  1.046 µs" ++ nl
  ++ "│  ├─ serde_json_deserialize  2.500 µs".

(** A benchmark that is opened twice. *)
Definition section_line : string := "├─ simple_struct ".
Definition serde_line : string := "│  ╰─ serde_json_deserialize  2.500 µs".
Definition before_reopening : list string := [section_line; jit_line].
Definition after_reopening : list string := [serde_line].

(** A benchmark without measurements, followed by one that has some. *)
Definition empty_section_line : string := "├─ booleans ".
Definition decoration_line : string := "│  (no samples)".
Definition after_empty_section : list string := [section_line; jit_line].

(** An instruction dataset whose entry for serde_json counts nothing. *)
Definition zero_instructions : ParseBench.gungraun_results :=
  [("simple_struct_serde_json", [("Instructions", 0%N)])].

(** A measurement line whose number has two points. *)
Definition malformed_line : string := "│  ├─ facet_json_deserialize  1.2.3 µs".

Definition malformed_text : string :=
  section_line ++ nl ++ malformed_line ++ nl ++ serde_line.

Definition malformed_files : Proc.filesystem :=
  Proc.with_file "divan.txt" (Proc.Regular malformed_text) Proc.no_files.

Definition argv_divan_gungraun : list string :=
  ["parse_bench.py"; "divan.txt"; "gungraun.txt"].

(** Two targets with the same duration. *)
Definition tie_text : string :=
  section_line ++ nl
  ++ "│  ├─ facet_json_deserialize  5 ns" ++ nl
  ++ "│  ╰─ serde_json_deserialize  5 ns".

(** An instruction-harness section with one metric line. *)
Definition boundary_text : string :=
  "gungraun_jit::jit_benchmarks::simple_struct_facet_format_jit" ++ nl
  ++ "  Instructions: 6,549|0".

Definition in_gungraun_section : ParseBench.gungraun_state :=
  ([("simple_struct_facet_format_jit", Dict.empty)],
   Some "simple_struct_facet_format_jit").

Definition boundary_line : string := "  Instructions: 6,549|0".

End Sample.

(** ** Predicates used in the statements *)

Module Spec.

(** The active benchmark has an entry. *)
Definition known_current {V} (st : Dict.t V * option string) : Prop :=
  forall cur, snd st = Some cur -> Dict.mem cur (fst st) = true.

(** Two parser states with the same active benchmark and the same entry
    for [b]. *)
Definition agree_on {V} (b : string) (st1 st2 : Dict.t V * option string)
  : Prop :=
  snd st1 = snd st2
  /\ Dict.get b (fst st1) = Dict.get b (fst st2)
  /\ known_current st1 /\ known_current st2.

(** [line] is a section line that names [b]. *)
Definition names_section (line b : string) : Prop :=
  exists m, Re.re_match ParseBench.module_re line = Some m
            /\ Re.group 1 m = Some b.

Definition section_line (line : string) : Prop :=
  Re.re_match ParseBench.module_re line <> None.

(** [line] is neither a section line nor a measurement line. *)
Definition unrecognized (line : string) : Prop :=
  Re.re_match ParseBench.module_re line = None
  /\ Re.re_match ParseBench.result_re line = None.

(** The lines that follow the lines under a section: none, or a new
    section first. *)
Definition starts_section (lines : list string) : Prop :=
  match lines with
  | [] => True
  | line :: _ => section_line line
  end.

(** [id] is the id of the table and chart of an operation of a benchmark of
    [divan_data] that has rows. *)
Definition rendered_from (divan_data : ParseBench.divan_results) (id : string)
  : Prop :=
  exists b e,
    Dict.get b divan_data = Some e
    /\ ((id = b ++ "_deser" /\ ParseBench.deserialize e <> [])
        \/ (id = b ++ "_ser" /\ ParseBench.serialize e <> [])).

(** Order and equality of rows by duration. *)
Definition value_le (x y : string * Q) : Prop := (snd x <= snd y)%Q.

Definition has_value (v : Q) (x : string * Q) : bool := Qeq_bool (snd x) v.

(** The rows of a group whose ratio to [fastest] is 1. *)
Definition ratio_one_rows (data : Dict.t Q) (fastest : Q)
  : list (string * Q) :=
  filter (fun x => Qeq_bool (snd x / fastest) 1)
         (Num.sorted_by_value (Dict.items data)).

(** What a line is to the statistical parser when [current] is active. *)
Inductive line_kind (current : option string) (line : string) : Prop :=
| IsSection b :
    Re.re_match ParseBench.module_re line = Some [(1, b)] ->
    line_kind current line
| IsMeasurement cur name literal unit :
    Re.re_match ParseBench.module_re line = None ->
    current = Some cur ->
    ParseBench.active current = Some cur ->
    Re.re_match ParseBench.result_re line
    = Some [(3, unit); (2, literal); (1, name)] ->
    line_kind current line
| IsOther :
    Re.re_match ParseBench.module_re line = None ->
    ParseBench.active current = None
    \/ Re.re_match ParseBench.result_re line = None ->
    line_kind current line.

End Spec.

(** ** Texts built from data

    The shape the statistical harness prints: a section line per benchmark
    and, under it, a line per measurement. *)

Module Gen.

(** A measurement: name, decimal literal, unit. *)
Definition row : Type := (string * string * string)%type.

Definition section_line (b : string) : string := "├─ " ++ b ++ " ".

Definition measurement_line (r : row) : string :=
  let '(name, literal, unit) := r in
  "│  ├─ " ++ name ++ "  " ++ literal ++ " " ++ unit.

Definition benchmark_lines (bench : string * list row) : list string :=
  section_line (fst bench) :: map measurement_line (snd bench).

Definition text_lines (benches : list (string * list row)) : list string :=
  flat_map benchmark_lines benches.

(** [sep.join(lines)] *)
Fixpoint join (sep : string) (lines : list string) : string :=
  match lines with
  | [] => EmptyString
  | [l] => l
  | l :: rest => l ++ sep ++ join sep rest
  end.

Definition text (benches : list (string * list row)) : string :=
  join (String ParseBench.newline EmptyString) (text_lines benches).

(** A non-empty run of word characters. *)
Definition word (s : string) : Prop :=
  Str.all Str.is_word s = true /\ s <> EmptyString.

Definition unit_token (u : string) : Prop :=
  u = "ns" \/ u = "µs" \/ u = "ms".

(** A non-empty run of blanks. *)
Definition blanks (s : string) : Prop :=
  Str.all Str.is_space s = true /\ s <> EmptyString.

Definition valid_row (r : row) : Prop :=
  let '(name, literal, unit) := r in
  word name
  /\ Str.all ParseBench.digit_or_dot literal = true
  /\ (exists v, Num.py_float literal = Ok v)
  /\ unit_token unit.

Definition valid_bench (bench : string * list row) : Prop :=
  word (fst bench) /\ Forall valid_row (snd bench).

(** The duration a row stands for, in nanoseconds. *)
Definition value_of (r : row) : Q :=
  let '(_, literal, unit) := r in
  match Num.py_float literal with
  | Ok v => ParseBench.to_ns unit v
  | Raise _ => 0%Q
  end.

(** The entry that filing the rows one after the other gives. *)
Definition add_row (e : ParseBench.entry) (r : row) : ParseBench.entry :=
  let '(name, _, _) := r in
  ParseBench.entry_set (ParseBench.operation_of name)
                       (ParseBench.target_base_of name) (value_of r) e.

Definition entry_of (rows : list row) : ParseBench.entry :=
  fold_left add_row rows ParseBench.empty_entry.

Definition model_of (benches : list (string * list row))
  : ParseBench.divan_results :=
  map (fun bench => (fst bench, entry_of (snd bench))) benches.

(** The rows of one operation whose targets are all different. *)
Definition deserialize_rows (rows : list row) : Prop :=
  Forall (fun r => ParseBench.operation_of (fst (fst r))
                   = ParseBench.Deserialize) rows
  /\ NoDup (map (fun r => ParseBench.target_base_of (fst (fst r))) rows).

(** The first character of [s], if any, is outside the class [p]. *)
Definition stops (p : ascii -> bool) (s : string) : Prop :=
  match s with
  | EmptyString => True
  | String a _ => p a = false
  end.

Definition is_comma (a : ascii) : bool := Ascii.eqb a ",".

Definition no_newline (s : string) : Prop :=
  Str.all (fun a => negb (Ascii.eqb a ParseBench.newline)) s = true.

(** A metric label: words and blanks, starting with a word character. *)
Definition label (l : string) : Prop :=
  Str.all ParseBench.word_or_space l = true
  /\ l <> EmptyString
  /\ stops Str.is_space l.

(** A metric line as the instruction harness prints it, the count written
    with thousands separators. *)
Definition metric_line (ws1 label ws2 : string) (n : N) (rest : string)
  : string :=
  ws1 ++ label ++ ":" ++ ws2 ++ Num.format_thousands n ++ rest.

(** The line that opens the section of [key] in module [m]. *)
Definition name_line (m key rest : string) : string :=
  "gungraun_jit::" ++ m ++ "::" ++ key ++ rest.

End Gen.

(** ** More sample inputs *)

Module Inputs.

(** Two benchmarks as the harness would print them. *)
Definition two_benchmarks : list (string * list Gen.row) :=
  [ ("simple_struct",
     [ ("facet_format_jit_deserialize", "1.046", "µs");
       ("serde_json_deserialize", "2.500", "µs") ]);
    ("twitter", [ ("serde_json_serialize", "3", "ms") ]) ].

(** Lines that stand before any section, one with a number of two points;
    then a section. *)
Definition stray_lines : list string :=
  [ "Timer precision: 41 ns";
    "│  ├─ facet_json_deserialize  1.2.3 µs";
    "  Instructions: 1,,2" ].

Definition after_stray_lines : list string :=
  [ "├─ twitter "; "│  ╰─ serde_json_deserialize  7 ms" ].

(** A metric line whose value holds no digit. *)
Definition commas_line : string := "  Instructions: ,".

(** A group without the baseline target. *)
Definition no_baseline : Dict.t Q :=
  [ ("facet_json", 3000%Q); ("facet_format_jit", 1046%Q) ].

(** Two targets of one operation measured at the same duration. *)
Definition tie : Dict.t Q := [ ("facet_json", 5%Q); ("serde_json", 5%Q) ].

(** A run whose report goes to a directory that is not there. *)
Definition argv_unwritable : list string :=
  ["parse_bench.py"; "divan.txt"; "gungraun.txt"; "nodir/out.html"].

Definition unwritable_files : Proc.filesystem :=
  Proc.with_file "nodir/out.html" Proc.NoParent Proc.no_files.

(** A measurement whose decimal value is not a binary64 number, and whose
    product with 1000 is not one either. *)
Definition rounded_line : string := "│  ├─ facet_json_deserialize  1.001 µs".

(** A group in which a target outside the registry is the fastest. *)
Definition group : Dict.t Q :=
  [ ("serde_json", 2500%Q); ("experimental", 900%Q);
    ("facet_format_jit", 1046%Q) ].

End Inputs.

(** ** Reading a rendered section *)

Module Report.

(** A measurement whose target is in the registry [TARGETS]. *)
Definition known (item : string * Q) : bool :=
  Dict.mem (fst item) ParseBench.TARGETS.

(** The measurements of a group that get a row: fastest first, registry
    targets only. *)
Definition shown (divan_data : Dict.t Q) : list (string * Q) :=
  filter known (Num.sorted_by_value (Dict.items divan_data)).

(** The label of the bar of a row. *)
Definition bar_label (row : Html.table_row) : string :=
  Html.row_emoji row ++ " " ++ Html.row_label row.

Definition is_item (n : Html.node) : bool :=
  match n with Html.BenchmarkItem _ _ _ _ => true | _ => false end.

(** The number of tables in a document. *)
Definition tables (h : Html.html) : nat := List.length (filter is_item h).

(** The number of operations of a benchmark that have a measurement. *)
Definition operations_with_rows (e : ParseBench.entry) : nat :=
  (if Dict.nonempty (ParseBench.deserialize e) then 1 else 0)
  + (if Dict.nonempty (ParseBench.serialize e) then 1 else 0).

(** The same for the benchmark [b] of a model. *)
Definition operations_of (divan_data : ParseBench.divan_results) (b : string)
  : nat :=
  match Dict.get b divan_data with
  | Some e => operations_with_rows e
  | None => 0
  end.

End Report.

(** ** The two scripts side by side *)

Module Versions.

(** The entry [e] that [parse_bench.py] keeps for a benchmark against the
    targets that [parse-bench.py] keeps for it: every name of the earlier
    script has its cell in [e], and every duration in [e] is the duration of
    a name that belongs to that cell. *)
Definition entries_agree (e : ParseBench.entry) (targets : Dict.t Q) : Prop :=
  (forall name v,
      Dict.get name targets = Some v ->
      Dict.mem (ParseBench.target_base_of name)
               (ParseBench.entry_get (ParseBench.operation_of name) e) = true)
  /\ (forall op base v,
         Dict.get base (ParseBench.entry_get op e) = Some v ->
         exists name,
           Dict.get name targets = Some v
           /\ ParseBench.operation_of name = op
           /\ ParseBench.target_base_of name = base).

Definition models_agree (d : ParseBench.divan_results)
           (d' : ParseBenchLegacy.divan_results) : Prop :=
  Dict.keys d = Dict.keys d'
  /\ forall b e targets,
       Dict.get b d = Some e -> Dict.get b d' = Some targets ->
       entries_agree e targets.

(** Two runs that end alike. *)
Definition same_outcome (r : res ParseBench.divan_results)
           (r' : res ParseBenchLegacy.divan_results) : Prop :=
  match r, r' with
  | Ok d, Ok d' => models_agree d d'
  | Raise e, Raise e' => e = e'
  | _, _ => False
  end.

End Versions.

(** * Properties *)

(** ** Strings *)

Lemma append_nil_r (s : string) : s ++ "" = s.
Proof. induction s; simpl; congruence. Qed.

Lemma append_assoc (a b c : string) : (a ++ b) ++ c = a ++ b ++ c.
Proof. induction a; simpl; congruence. Qed.

Lemma length_append (a b : string) :
  String.length (a ++ b) = String.length a + String.length b.
Proof. induction a; simpl; congruence. Qed.

Lemma take_append (w s : string) :
  Str.take (String.length (w ++ s) - String.length s) (w ++ s) = w.
Proof.
  rewrite length_append.
  replace (String.length w + String.length s - String.length s)
    with (String.length w) by lia.
  induction w; simpl.
  - destruct s; reflexivity.
  - now rewrite IHw.
Qed.

Lemma strip_prefix_append (p s s' : string) :
  Str.strip_prefix p s = Some s' -> s = p ++ s'.
Proof.
  revert s; induction p as [|a p IH]; simpl; intros s H.
  - congruence.
  - destruct s as [|b s]; [discriminate|].
    destruct (Ascii.eqb_spec a b); [|discriminate].
    subst. f_equal. now apply IH.
Qed.

Lemma all_append (p : ascii -> bool) (a b : string) :
  Str.all p (a ++ b) = Str.all p a && Str.all p b.
Proof. induction a; simpl; [reflexivity|]. now rewrite IHa, andb_assoc. Qed.

Lemma prefix_append (p s : string) :
  prefix p s = true -> exists r, s = p ++ r.
Proof.
  revert s; induction p as [|a p IH]; intros s H.
  - exists s. reflexivity.
  - destruct s as [|b s]; simpl in H; [discriminate|].
    destruct (ascii_dec a b); [|discriminate]. subst.
    destruct (IH _ H) as [r ->]. now exists r.
Qed.

Lemma prefix_of_append (p r : string) : prefix p (p ++ r) = true.
Proof.
  induction p as [|a p IH]; simpl.
  - destruct r; reflexivity.
  - destruct (ascii_dec a a); [assumption|congruence].
Qed.

Lemma contains_prefix (sub s : string) :
  prefix sub s = true -> Str.contains sub s = true.
Proof. intros H. destruct s; cbn [Str.contains]; now rewrite H. Qed.

(** [sub in s] holds exactly when [s] has [sub] somewhere inside. *)
Lemma contains_spec (sub s : string) :
  Str.contains sub s = true <-> exists l r, s = l ++ sub ++ r.
Proof.
  split.
  - induction s as [|a s IH]; intros H.
    + destruct sub; [now exists "", ""|discriminate].
    + change (Str.contains sub (String a s))
        with (if prefix sub (String a s) then true else Str.contains sub s) in H.
      destruct (prefix sub (String a s)) eqn:E.
      * destruct (prefix_append _ _ E) as [r Hr]. now exists "", r.
      * destruct (IH H) as (l & r & ->). now exists (String a l), r.
  - intros (l & r & ->). induction l as [|a l IH].
    + change ("" ++ sub ++ r) with (sub ++ r).
      apply contains_prefix, prefix_of_append.
    + change (Str.contains sub (String a l ++ sub ++ r))
        with (if prefix sub (String a (l ++ sub ++ r)) then true
              else Str.contains sub (l ++ sub ++ r)).
      destruct (prefix sub (String a (l ++ sub ++ r))); [reflexivity|exact IH].
Qed.

(** ** Dictionaries *)

Lemma get_set_same {V} (k : string) (v : V) (d : Dict.t V) :
  Dict.get k (Dict.set k v d) = Some v.
Proof.
  induction d as [|[k' v'] d IH]; simpl.
  - now rewrite String.eqb_refl.
  - destruct (String.eqb_spec k' k); simpl.
    + now rewrite String.eqb_refl.
    + destruct (String.eqb_spec k' k); [contradiction|assumption].
Qed.

Lemma get_set_other {V} (k k' : string) (v : V) (d : Dict.t V) :
  k <> k' -> Dict.get k' (Dict.set k v d) = Dict.get k' d.
Proof.
  intros Hne. induction d as [|[k0 v0] d IH]; simpl.
  - destruct (String.eqb_spec k k'); [contradiction|reflexivity].
  - destruct (String.eqb_spec k0 k); simpl.
    + subst. destruct (String.eqb_spec k k'); [contradiction|reflexivity].
    + destruct (String.eqb_spec k0 k'); [reflexivity|assumption].
Qed.

Lemma mem_set {V} (k k' : string) (v : V) (d : Dict.t V) :
  Dict.mem k' d = true -> Dict.mem k' (Dict.set k v d) = true.
Proof.
  unfold Dict.mem. intros H.
  destruct (string_dec k k') as [->|Hne].
  - now rewrite get_set_same.
  - now rewrite get_set_other.
Qed.

Lemma mem_set_same {V} (k : string) (v : V) (d : Dict.t V) :
  Dict.mem k (Dict.set k v d) = true.
Proof. unfold Dict.mem. now rewrite get_set_same. Qed.

Lemma get_in_keys {V} (k : string) (d : Dict.t V) :
  In k (Dict.keys d) -> exists v, Dict.get k d = Some v.
Proof.
  induction d as [|[k' v'] d IH]; simpl; [contradiction|].
  intros [->|H].
  - rewrite String.eqb_refl. now exists v'.
  - destruct (String.eqb k' k); [now exists v'|auto].
Qed.

(** ** The matcher finds only matches *)

Lemma run_star {A} r s c (k : string -> Re.caps -> option A) :
  Re.run (Re.Star r) s c k
  = Re.star_loop (Re.run r) k (S (String.length s)) s c.
Proof. reflexivity. Qed.

Lemma run_sound {A} (r : Re.regex) :
  forall s c (k : string -> Re.caps -> option A) x,
    Re.run r s c k = Some x ->
    exists s' c', Re.matches r s c s' c' /\ k s' c' = Some x.
Proof.
  induction r as [|p|l|r1 IH1 r2 IH2|r1 IH1 r2 IH2|r IH|i r IH];
    intros s c k x H; [simpl in H..|rewrite run_star in H|simpl in H].
  - exists s, c. split; [constructor|assumption].
  - destruct s as [|a s]; [discriminate|].
    destruct (p a) eqn:E; [|discriminate].
    exists s, c. split; [now constructor|assumption].
  - destruct (Str.strip_prefix l s) as [s'|] eqn:E; [|discriminate].
    exists s', c. split; [now constructor|assumption].
  - apply IH1 in H. destruct H as (s1 & c1 & M1 & H).
    apply IH2 in H. destruct H as (s2 & c2 & M2 & H).
    exists s2, c2. split; [econstructor; eassumption|assumption].
  - destruct (Re.run r1 s c k) as [y|] eqn:E.
    + apply IH1 in E. destruct E as (s' & c' & M & E).
      exists s', c'. split; [now apply Re.M_AltL|congruence].
    + apply IH2 in H. destruct H as (s' & c' & M & H).
      exists s', c'. split; [now apply Re.M_AltR|assumption].
  - revert H. generalize (S (String.length s)) as n. intros n. revert s c.
    induction n as [|n IHn]; intros s c H.
    + exists s, c. split; [constructor|assumption].
    + cbn [Re.star_loop] in H.
      match type of H with
      | match ?e with _ => _ end = _ => destruct e as [y|] eqn:E
      end.
      * apply IH in E. destruct E as (s1 & c1 & M1 & E).
        destruct (Nat.ltb (String.length s1) (String.length s));
          [|discriminate].
        injection H as ->.
        apply IHn in E. destruct E as (s2 & c2 & M2 & E).
        exists s2, c2. split; [econstructor; eassumption|assumption].
      * exists s, c. split; [constructor|assumption].
  - apply IH in H. destruct H as (s' & c' & M & H).
    exists s', ((i, Re.consumed s s') :: c'). split; [now constructor|assumption].
Qed.

Lemma re_match_sound (r : Re.regex) (s : string) (m : Re.caps) :
  Re.re_match r s = Some m -> exists s', Re.matches r s [] s' m.
Proof.
  unfold Re.re_match. intros H. apply run_sound in H.
  destruct H as (s' & c' & M & H). injection H as ->. now exists s'.
Qed.

(** A match reads a prefix of the input. *)
Lemma matches_suffix r s c s' c' :
  Re.matches r s c s' c' -> exists w, s = w ++ s'.
Proof.
  induction 1.
  - now exists "".
  - now exists (String a "").
  - exists l. now apply strip_prefix_append.
  - destruct IHmatches1 as [w1 ->], IHmatches2 as [w2 ->].
    exists (w1 ++ w2). now rewrite append_assoc.
  - assumption.
  - assumption.
  - now exists "".
  - destruct IHmatches1 as [w1 ->], IHmatches2 as [w2 ->].
    exists (w1 ++ w2). now rewrite append_assoc.
  - assumption.
Qed.

Lemma matches_groupless r s c s' c' :
  Re.matches r s c s' c' -> Re.groupless r = true -> c' = c.
Proof.
  induction 1; simpl; intros G; try reflexivity;
    try (apply andb_prop in G; destruct G as [G1 G2]); auto.
  - rewrite IHmatches2, IHmatches1; auto.
  - rewrite IHmatches2, IHmatches1; auto.
  - discriminate.
Qed.

(** What a group keeps is what its pattern read. *)
Lemma matches_group i r s c s' c' :
  Re.matches (Re.Grp i r) s c s' c' ->
  exists w c1, s = w ++ s' /\ c' = (i, w) :: c1 /\ Re.matches r (w ++ s') c s' c1.
Proof.
  inversion 1 as [| | | | | | | |? ? ? ? ? c1 M]; subst.
  destruct (matches_suffix M) as [w ->].
  exists w, c1. unfold Re.consumed. now rewrite take_append.
Qed.

Lemma matches_star_cls p s c s' c' :
  Re.matches (Re.Star (Re.Cls p)) s c s' c' ->
  exists w, s = w ++ s' /\ Str.all p w = true.
Proof.
  remember (Re.Star (Re.Cls p)) as r eqn:Er.
  induction 1; try discriminate; injection Er as ->.
  - now exists "".
  - inversion H; subst.
    destruct (IHmatches2 eq_refl) as (w & -> & Hw).
    exists (String a w). simpl. rewrite Hw.
    match goal with E : p _ = true |- _ => now rewrite E end.
Qed.

Lemma matches_plus_cls p s c s' c' :
  Re.matches (Re.Plus (Re.Cls p)) s c s' c' ->
  exists w, s = w ++ s' /\ Str.all p w = true /\ w <> "".
Proof.
  unfold Re.Plus. inversion 1 as [| | |? ? ? ? ? ? ? ? M1 M2| | | | |]; subst.
  inversion M1 as [|? ? ? ? E| | | | | | |]; subst.
  destruct (matches_star_cls M2) as (w & -> & Hw).
  exists (String a w). simpl. rewrite E, Hw. repeat split. discriminate.
Qed.

Lemma append_cancel_r (a b s : string) : a ++ s = b ++ s -> a = b.
Proof.
  revert b; induction a as [|x a IH]; intros [|y b] H; simpl in H.
  - reflexivity.
  - apply (f_equal String.length) in H. simpl in H.
    rewrite length_append in H. lia.
  - apply (f_equal String.length) in H. simpl in H.
    rewrite length_append in H. lia.
  - injection H as -> H. f_equal. now apply IH.
Qed.

Lemma matches_seq r1 r2 s c s2 c2 :
  Re.matches (Re.Seq r1 r2) s c s2 c2 ->
  exists s1 c1, Re.matches r1 s c s1 c1 /\ Re.matches r2 s1 c1 s2 c2.
Proof. inversion 1; subst; eauto. Qed.

(** A pattern that opens with a part without groups. *)
Lemma matches_skip r1 r2 s c s2 c2 :
  Re.groupless r1 = true ->
  Re.matches (Re.Seq r1 r2) s c s2 c2 ->
  exists w s1, s = w ++ s1 /\ Re.matches r2 s1 c s2 c2.
Proof.
  intros G M. apply matches_seq in M. destruct M as (s1 & c1 & M1 & M2).
  rewrite (matches_groupless M1 G) in M2.
  destruct (matches_suffix M1) as [w ->]. eauto.
Qed.

(** A pattern that opens with a group. *)
Lemma matches_group_then i r1 r2 s c s2 c2 :
  Re.groupless r1 = true ->
  Re.matches (Re.Seq (Re.Grp i r1) r2) s c s2 c2 ->
  exists w s1, s = w ++ s1 /\ Re.matches r1 (w ++ s1) c s1 c
               /\ Re.matches r2 s1 ((i, w) :: c) s2 c2.
Proof.
  intros G M. apply matches_seq in M. destruct M as (s1 & c1 & M1 & M2).
  apply matches_group in M1. destruct M1 as (w & c0 & -> & -> & M1).
  pose proof (matches_groupless M1 G) as ->. eauto.
Qed.

Lemma matches_group_last i r1 s c s2 c2 :
  Re.groupless r1 = true ->
  Re.matches (Re.Grp i r1) s c s2 c2 ->
  exists w, s = w ++ s2 /\ Re.matches r1 (w ++ s2) c s2 c /\ c2 = (i, w) :: c.
Proof.
  intros G M.
  apply matches_group in M. destruct M as (w & c0 & -> & -> & M1).
  pose proof (matches_groupless M1 G) as ->. eauto.
Qed.

Lemma matches_lit l s c s' c' :
  Re.matches (Re.Lit l) s c s' c' -> s = l ++ s'.
Proof. inversion 1; subst. now apply strip_prefix_append. Qed.

Lemma matches_unit w s c c' :
  Re.matches ParseBench.unit_re (w ++ s) c s c' ->
  w = "ns" \/ w = "µs" \/ w = "ms".
Proof.
  unfold ParseBench.unit_re.
  inversion 1 as [| | | |? ? ? ? ? ? M|? ? ? ? ? ? M| | |]; subst.
  - apply matches_lit in M. apply append_cancel_r in M. auto.
  - inversion M as [| | | |? ? ? ? ? ? M'|? ? ? ? ? ? M'| | |]; subst;
      apply matches_lit in M'; apply append_cancel_r in M'; auto.
Qed.

(** The groups of a section line. *)
Lemma module_re_groups line m :
  Re.re_match ParseBench.module_re line = Some m ->
  exists b, m = [(1, b)] /\ Str.all Str.is_word b = true /\ b <> "".
Proof.
  intros H. apply re_match_sound in H. destruct H as [s' M].
  unfold ParseBench.module_re in M.
  apply matches_skip in M; [|reflexivity]. destruct M as (w0 & s0 & -> & M).
  apply matches_skip in M; [|reflexivity]. destruct M as (w1 & s1 & -> & M).
  apply matches_group_then in M; [|reflexivity].
  destruct M as (b & s2 & -> & Mb & M).
  apply matches_plus_cls in Mb. destruct Mb as (b' & E & Hb & Hne).
  apply append_cancel_r in E. subst b'.
  pose proof (matches_groupless M eq_refl) as ->.
  now exists b.
Qed.

(** The groups of a measurement line, and where its fields sit. *)
Lemma result_re_groups line m :
  Re.re_match ParseBench.result_re line = Some m ->
  exists name literal unit,
    m = [(3, unit); (2, literal); (1, name)]
    /\ Str.all Str.is_word name = true /\ name <> ""
    /\ Str.all ParseBench.digit_or_dot literal = true /\ literal <> ""
    /\ (unit = "ns" \/ unit = "µs" \/ unit = "ms").
Proof.
  intros H. apply re_match_sound in H. destruct H as [s' M].
  unfold ParseBench.result_re, ParseBench.name_value_unit_re in M.
  do 5 (apply matches_skip in M; [|reflexivity];
        destruct M as (? & ? & -> & M)).
  apply matches_group_then in M; [|reflexivity].
  destruct M as (name & s1 & -> & Mn & M).
  apply matches_plus_cls in Mn. destruct Mn as (n' & E & Hn & Hnne).
  apply append_cancel_r in E. subst n'.
  apply matches_skip in M; [|reflexivity]. destruct M as (? & ? & -> & M).
  apply matches_group_then in M; [|reflexivity].
  destruct M as (literal & s2 & -> & Ml & M).
  apply matches_plus_cls in Ml. destruct Ml as (l' & E & Hl & Hlne).
  apply append_cancel_r in E. subst l'.
  apply matches_skip in M; [|reflexivity]. destruct M as (? & ? & -> & M).
  apply matches_group_last in M; [|reflexivity].
  destruct M as (unit & -> & Mu & ->).
  apply matches_unit in Mu.
  exists name, literal, unit. repeat split; assumption.
Qed.

(** The groups of an instruction-harness section line. *)
Lemma name_re_groups line m :
  Re.re_match ParseBench.name_re line = Some m ->
  exists b, m = [(1, b)] /\ b <> "".
Proof.
  intros H. apply re_match_sound in H. destruct H as [s' M].
  unfold ParseBench.name_re in M.
  do 3 (apply matches_skip in M; [|reflexivity];
        destruct M as (? & ? & -> & M)).
  apply matches_group_last in M; [|reflexivity].
  destruct M as (b & -> & Mb & ->).
  apply matches_plus_cls in Mb. destruct Mb as (b' & E & Hb & Hne).
  apply append_cancel_r in E. subst b'. now exists b.
Qed.

(** The groups of a metric line: the value is a run of digits and commas,
    and nothing that follows it on the line is kept. *)
Lemma label_value_re_groups label_re line m :
  Re.groupless label_re = true ->
  Re.re_match (ParseBench.label_value_re label_re) line = Some m ->
  exists label digits before rest,
    m = [(2, digits); (1, label)]
    /\ line = before ++ digits ++ rest
    /\ Str.all ParseBench.digit_or_comma digits = true /\ digits <> "".
Proof.
  intros G H. apply re_match_sound in H. destruct H as [rest M].
  unfold ParseBench.label_value_re in M.
  apply matches_skip in M; [|reflexivity]. destruct M as (w0 & s0 & -> & M).
  apply matches_group_then in M; [|assumption].
  destruct M as (label & s1 & -> & _ & M).
  apply matches_skip in M; [|reflexivity]. destruct M as (w1 & s2 & -> & M).
  apply matches_skip in M; [|reflexivity]. destruct M as (w2 & s3 & -> & M).
  apply matches_group_last in M; [|reflexivity].
  destruct M as (digits & -> & Md & ->).
  apply matches_plus_cls in Md. destruct Md as (d' & E & Hd & Hne).
  apply append_cancel_r in E. subst d'.
  exists label, digits, (w0 ++ label ++ w1 ++ w2), rest.
  repeat split; try assumption.
  now rewrite !append_assoc.
Qed.

(** ** The statistical parser, line by line *)

Lemma entry_get_set (op : ParseBench.operation) target value e :
  Dict.get target
           (ParseBench.entry_get op (ParseBench.entry_set op target value e))
  = Some value.
Proof. destruct op; simpl; apply get_set_same. Qed.

(** What a recognized measurement line does to the state. *)
Lemma divan_line_measurement results current cur e line name literal unit v :
  Re.re_match ParseBench.module_re line = None ->
  ParseBench.active current = Some cur ->
  Dict.get cur results = Some e ->
  Re.re_match ParseBench.result_re line
  = Some [(3, unit); (2, literal); (1, name)] ->
  Num.py_float literal = Ok v ->
  ParseBench.divan_line (results, current) line
  = Ok (Dict.set cur
          (ParseBench.entry_set (ParseBench.operation_of name)
             (ParseBench.target_base_of name) (ParseBench.to_ns unit v) e)
          results, current).
Proof.
  intros Hmod Hact Hget Hres Hfloat.
  unfold ParseBench.divan_line.
  rewrite Hmod, Hact, Hres. simpl. rewrite Hfloat. simpl.
  unfold ParseBench.subscript. rewrite Hget. reflexivity.
Qed.

Lemma to_ns_cases unit v :
  (unit = "ns" -> ParseBench.to_ns unit v = v)
  /\ (unit = "µs" -> ParseBench.to_ns unit v = Num.Float64.mul v 1000)
  /\ (unit = "ms" -> ParseBench.to_ns unit v = Num.Float64.mul v 1000000).
Proof. repeat split; intros ->; reflexivity. Qed.

Lemma digit_not_point a : Str.is_digit a = true -> Ascii.eqb a "." = false.
Proof.
  destruct a as [[] [] [] [] [] [] [] []]; vm_compute; congruence.
Qed.

Lemma split_digits s :
  Str.all Str.is_digit s = true -> Str.split "." s = [s].
Proof.
  induction s as [|a s IH]; [reflexivity|].
  cbn [Str.all]. intros H. apply andb_prop in H. destruct H as [Ha Hs].
  cbn [Str.split]. now rewrite (@digit_not_point a Ha), (IH Hs).
Qed.

Lemma split_digits_point ip s :
  Str.all Str.is_digit ip = true ->
  Str.split "." (ip ++ String "." s) = ip :: Str.split "." s.
Proof.
  induction ip as [|a ip IH]; [reflexivity|].
  cbn [Str.all]. intros H. apply andb_prop in H. destruct H as [Ha Hs].
  change (String a ip ++ String "." s) with (String a (ip ++ String "." s)).
  cbn [Str.split]. now rewrite (@digit_not_point a Ha), (IH Hs).
Qed.

(** [float] reads a literal as the binary64 number nearest to its decimal
    value. *)
Lemma py_float_decimal ip fp :
  Str.all Str.is_digit ip = true -> Str.all Str.is_digit fp = true ->
  ip ++ fp <> "" ->
  Num.py_float (ip ++ "." ++ fp)
  = Ok (Num.Float64.round (Num.decimal ip fp)).
Proof.
  intros Hi Hf Hne. unfold Num.py_float.
  change (ip ++ "." ++ fp) with (ip ++ String "." fp).
  rewrite (@split_digits_point ip fp Hi), (@split_digits fp Hf), Hi, Hf.
  destruct (String.eqb_spec (ip ++ fp) ""); [contradiction|reflexivity].
Qed.

Lemma py_float_digits ip :
  Str.all Str.is_digit ip = true -> ip <> "" ->
  Num.py_float ip = Ok (Num.Float64.round (Num.decimal ip "")).
Proof.
  intros Hi Hne. unfold Num.py_float, Num.digit_string.
  rewrite (@split_digits ip Hi), Hi.
  destruct (String.eqb_spec ip ""); [contradiction|reflexivity].
Qed.

(** ** Rounding to binary64 *)

Lemma pow2_power k : (Num.Float64.pow2 k == 2 ^ k)%Q.
Proof.
  unfold Num.Float64.pow2. destruct (Z.leb_spec 0 k) as [H|H].
  - change (2 ^ k # 1)%Q with (inject_Z (2 ^ k)).
    rewrite Zpower_Qpower by assumption. reflexivity.
  - assert (E : (k = - (- k))%Z) by lia. rewrite E at 2.
    rewrite Qpower_opp.
    rewrite <- (Zpower_Qpower 2 (- k)) by lia.
    assert (P : (0 < 2 ^ (- k))%Z) by (apply Z.pow_pos_nonneg; lia).
    unfold Qeq, Qinv, inject_Z. simpl.
    destruct (2 ^ (- k))%Z eqn:V; try lia. simpl. lia.
Qed.

Lemma pow2_pos k : (0 < Num.Float64.pow2 k)%Q.
Proof.
  rewrite pow2_power. apply Qpower_0_lt. reflexivity.
Qed.

Lemma pow2_plus a b :
  (Num.Float64.pow2 (a + b) == Num.Float64.pow2 a * Num.Float64.pow2 b)%Q.
Proof.
  rewrite !pow2_power. apply Qpower_plus. discriminate.
Qed.

Lemma round_half_even_near x :
  (Qabs (inject_Z (Num.round_half_even x) - x) <= 1 # 2)%Q.
Proof.
  destruct x as [n d]. unfold Num.round_half_even. cbn [Qnum Qden].
  pose proof (Z.div_mod n (Z.pos d) ltac:(lia)) as E.
  pose proof (Z.mod_pos_bound n (Z.pos d) ltac:(lia)) as B.
  set (fl := (n / Z.pos d)%Z) in *. set (r := (n mod Z.pos d)%Z) in *.
  assert (G : forall z, (2 * Z.abs (z * Z.pos d - n) <= Z.pos d)%Z ->
                        (Qabs (inject_Z z - (n # d)) <= 1 # 2)%Q).
  { intros z H. unfold Qle, Qabs, Qminus, Qplus, Qopp, inject_Z. simpl.
    rewrite Z.mul_1_r. lia. }
  destruct (Z.compare_spec (2 * r) (Z.pos d)) as [C|C|C].
  - destruct (Z.even fl); apply G; lia.
  - apply G; lia.
  - apply G; lia.
Qed.

Lemma floor_log2_le q :
  (0 < q)%Q -> (Num.Float64.pow2 (Num.Float64.floor_log2 q) <= q)%Q.
Proof.
  intros Hq. unfold Num.Float64.floor_log2.
  destruct (Qle_bool
              (Num.Float64.pow2
                 (Z.log2 (Qnum q) - Z.log2 (Z.pos (Qden q)))) q) eqn:T;
    [now apply Qle_bool_iff|].
  destruct q as [n d]. cbn [Qnum Qden] in *.
  assert (Hn : (0 < n)%Z) by (unfold Qlt in Hq; simpl in Hq; lia).
  destruct (Z.log2_spec n Hn) as [Ha _].
  destruct (Z.log2_spec (Z.pos d) ltac:(lia)) as [_ Hb].
  pose proof (Z.log2_nonneg n) as Na.
  pose proof (Z.log2_nonneg (Z.pos d)) as Nb.
  set (a := Z.log2 n) in *. set (b := Z.log2 (Z.pos d)) in *.
  assert (E : (a - b - 1 = a + - (b + 1))%Z) by lia.
  rewrite E, pow2_plus.
  assert (Pb : (0 < 2 ^ (b + 1))%Z) by (apply Z.pow_pos_nonneg; lia).
  assert (Pa : (0 < 2 ^ a)%Z) by (apply Z.pow_pos_nonneg; lia).
  unfold Num.Float64.pow2.
  destruct (Z.leb_spec 0 a) as [_|?]; [|lia].
  destruct (Z.leb_spec 0 (- (b + 1))) as [?|_]; [lia|].
  rewrite Z.opp_involutive.
  unfold Qle, Qmult. simpl.
  rewrite Z.mul_1_r, Z2Pos.id by assumption.
  replace (Z.succ b) with (b + 1)%Z in Hb by lia. nia.
Qed.

Lemma positive_num q : (0 < q)%Q -> exists p, Qnum q = Z.pos p.
Proof.
  destruct q as [[|p|p] d]; unfold Qlt; simpl; intros H; try lia.
  now exists p.
Qed.

Lemma round_positive_near q :
  (0 < q)%Q ->
  (Num.Float64.round_positive q < Num.Float64.infinity)%Q ->
  (Qabs (Num.Float64.round_positive q - q)
   <= Num.Float64.pow2 (Num.Float64.ulp_exponent q) * (1 # 2))%Q.
Proof.
  intros Hq. unfold Num.Float64.round_positive.
  set (e := Num.Float64.ulp_exponent q).
  set (m := Num.round_half_even (q / Num.Float64.pow2 e)).
  destruct (Qle_bool Num.Float64.infinity
              (Qred ((m # 1) * Num.Float64.pow2 e))) eqn:O.
  - intros H. now apply Qlt_irrefl in H.
  - intros _. rewrite Qred_correct.
    pose proof (pow2_pos e) as Hp.
    assert (Hnz : ~ (Num.Float64.pow2 e == 0)%Q).
    { intros E. rewrite E in Hp. now apply Qlt_irrefl in Hp. }
    assert (E : ((m # 1) * Num.Float64.pow2 e - q
                 == (inject_Z m - q / Num.Float64.pow2 e)
                    * Num.Float64.pow2 e)%Q).
    { change (m # 1)%Q with (inject_Z m). field. exact Hnz. }
    rewrite E, Qabs_Qmult, (Qabs_pos (Num.Float64.pow2 e))
      by now apply Qlt_le_weak.
    rewrite (Qmult_comm (Num.Float64.pow2 e)).
    apply Qmult_le_compat_r; [|now apply Qlt_le_weak].
    apply round_half_even_near.
Qed.

(** Rounding a number of the normal range, one whose binade is not below
    [2^-1022], moves it by at most [2^-53] of its value. *)
Lemma round_accuracy q :
  (0 < q)%Q -> (-1022 <= Num.Float64.floor_log2 q)%Z ->
  (Num.Float64.round q < Num.Float64.infinity)%Q ->
  (Qabs (Num.Float64.round q - q) <= q * Num.Float64.pow2 (-53))%Q.
Proof.
  intros Hq Hn. unfold Num.Float64.round.
  destruct (@positive_num q Hq) as [p ->]. intros Hfin.
  eapply Qle_trans; [now apply round_positive_near|].
  unfold Num.Float64.ulp_exponent.
  rewrite Z.max_l by lia.
  assert (E : (Num.Float64.floor_log2 q - 52
               = Num.Float64.floor_log2 q + -52)%Z) by lia.
  rewrite E, pow2_plus.
  assert (F : (Num.Float64.pow2 (-53)
               == Num.Float64.pow2 (-52) * (1 # 2))%Q) by reflexivity.
  rewrite F, (Qmult_assoc q).
  apply Qmult_le_compat_r; [|discriminate].
  apply Qmult_le_compat_r; [now apply floor_log2_le|discriminate].
Qed.

(** Some values: 0.1; a tie that goes down to the even neighbour and one
    that goes up to it; the largest finite number; overflow; the smallest
    subnormal number and what is below half of it. *)
Lemma round_samples :
  Num.Float64.round (1 # 10) = (3602879701896397 # 36028797018963968)%Q
  /\ Num.Float64.round (9007199254740993 # 1) = (9007199254740992 # 1)%Q
  /\ Num.Float64.round (9007199254740995 # 1) = (9007199254740996 # 1)%Q
  /\ Num.Float64.round (17976931348623157 * 10 ^ 292 # 1)
     = (2 ^ 1024 - 2 ^ 971 # 1)%Q
  /\ Num.Float64.round (10 ^ 309 # 1) = Num.Float64.infinity
  /\ Num.Float64.round (49 # Z.to_pos (10 ^ 325))
     = (1 # Z.to_pos (2 ^ 1074))%Q
  /\ Num.Float64.round (2 # Z.to_pos (10 ^ 324)) = 0%Q.
Proof. repeat split; vm_compute; reflexivity. Qed.

(** C4, as the code has it.  A recognized measurement line stores, under
    its benchmark, operation and target, the float of its literal as it
    stands when the unit is ns, and the product of that float and 1000 or
    1000000, as floats, when the unit is µs or ms; the unit is one of these
    three.  The float of a literal is the binary64 number nearest to its
    decimal value, and a product of floats is the binary64 number nearest
    to the product: the stored duration is the decimal product up to these
    two roundings, each of which moves a number that is neither subnormal
    nor too large for binary64 by at most [2^-53] of its value. *)
Theorem C4_duration_normalised_to_nanoseconds :
  (forall results current cur e line m,
      Re.re_match ParseBench.module_re line = None ->
      ParseBench.active current = Some cur ->
      Dict.get cur results = Some e ->
      Re.re_match ParseBench.result_re line = Some m ->
      exists name literal unit,
        Re.group 1 m = Some name /\ Re.group 2 m = Some literal
        /\ Re.group 3 m = Some unit
        /\ (unit = "ns" \/ unit = "µs" \/ unit = "ms")
        /\ forall v, Num.py_float literal = Ok v ->
             exists results' e' stored,
               ParseBench.divan_line (results, current) line
               = Ok (results', current)
               /\ Dict.get cur results' = Some e'
               /\ Dict.get (ParseBench.target_base_of name)
                           (ParseBench.entry_get
                              (ParseBench.operation_of name) e')
                  = Some stored
               /\ (unit = "ns" -> stored = v)
               /\ (unit = "µs" ->
                   stored = Num.Float64.round (v * 1000)%Q)
               /\ (unit = "ms" ->
                   stored = Num.Float64.round (v * 1000000)%Q))
  /\ (forall ip fp,
         Str.all Str.is_digit ip = true -> Str.all Str.is_digit fp = true ->
         ip ++ fp <> "" ->
         Num.py_float (ip ++ "." ++ fp)
         = Ok (Num.Float64.round (Num.decimal ip fp)))
  /\ (forall ip,
         Str.all Str.is_digit ip = true -> ip <> "" ->
         Num.py_float ip = Ok (Num.Float64.round (Num.decimal ip "")))
  /\ (forall q,
         (0 < q)%Q -> (-1022 <= Num.Float64.floor_log2 q)%Z ->
         (Num.Float64.round q < Num.Float64.infinity)%Q ->
         (Qabs (Num.Float64.round q - q)
          <= q * Num.Float64.pow2 (-53))%Q).
Proof.
  split; [|split; [apply py_float_decimal
                  |split; [apply py_float_digits|apply round_accuracy]]].
  intros results current cur e line m Hmod Hact Hget Hres.
  destruct (result_re_groups _ Hres)
    as (name & literal & unit & -> & _ & _ & _ & _ & Hunit).
  exists name, literal, unit. repeat split; try assumption.
  intros v Hv.
  eexists _, _, (ParseBench.to_ns unit v). split; [|split; [|split]].
  - eapply divan_line_measurement; eassumption.
  - apply get_set_same.
  - apply entry_get_set.
  - apply to_ns_cases.
Qed.

(** C4, as the claim has it, fails: the duration stored for "1.001 µs" is
    1000.9999999999999, the float product of the float of 1.001 and 1000,
    and not 1001, the product of the reported decimal value and 1000. *)
Lemma C4_counterexample :
  ParseBench.divan_line Sample.in_simple_struct Inputs.rounded_line
  = Ok ([("simple_struct",
          {| ParseBench.deserialize :=
               [("facet_json", (8804889115230207 # 8796093022208)%Q)];
             ParseBench.serialize := [] |})],
        Some "simple_struct")
  /\ (Num.decimal "1" "001" == 1001 # 1000)%Q
  /\ ~ (8804889115230207 # 8796093022208 == Num.decimal "1" "001" * 1000)%Q
  /\ (8804889115230207 # 8796093022208 < Num.decimal "1" "001" * 1000)%Q.
Proof.
  split; [vm_compute; reflexivity|].
  split; [vm_compute; reflexivity|].
  split; [vm_compute; discriminate|vm_compute; reflexivity].
Qed.

Lemma C4_witness :
  exists results' e',
    ParseBench.divan_line Sample.in_simple_struct Sample.jit_line
    = Ok (results', Some "simple_struct")
    /\ Dict.get "simple_struct" results' = Some e'
    /\ Dict.get "facet_format_jit" (ParseBench.deserialize e')
       = Some (1046 # 1)%Q.
Proof.
  destruct (proj1 C4_duration_normalised_to_nanoseconds
              [("simple_struct", ParseBench.empty_entry)]
              (Some "simple_struct") "simple_struct" ParseBench.empty_entry
              Sample.jit_line Sample.jit_match)
    as (name & literal & unit & G1 & G2 & G3 & _ & H);
    [reflexivity|reflexivity|reflexivity|vm_compute; reflexivity|].
  injection G1 as <-. injection G2 as <-. injection G3 as <-.
  destruct (H (Num.Float64.round (Num.decimal "1" "046")))
    as (results' & e' & stored & Hline & Hget & Hcell & _ & Hus & _);
    [vm_compute; reflexivity|].
  exists results', e'. split; [exact Hline|]. split; [exact Hget|].
  rewrite (Hus eq_refl) in Hcell. exact Hcell.
Defined.

Lemma remove_absent (old s : string) :
  Str.contains old s = false -> Str.remove old s = s.
Proof.
  unfold Str.remove. induction s as [|a s IH]; intros H; [reflexivity|].
  change (Str.contains old (String a s))
    with (if prefix old (String a s) then true else Str.contains old s) in H.
  cbn [Str.remove_from].
  destruct (prefix old (String a s)); [discriminate|].
  now rewrite IH.
Qed.

Lemma prefix_take0 p : forall y k,
  prefix p y = true -> String.length p <= k -> prefix p (Str.take k y) = true.
Proof.
  induction p as [|c p IH]; intros y k H Hk.
  - destruct (Str.take k y); reflexivity.
  - destruct y as [|d y]; simpl in H; [discriminate|].
    destruct (ascii_dec c d) as [->|]; [|discriminate].
    destruct k as [|k]; simpl in Hk; [lia|].
    simpl. destruct (ascii_dec d d); [|congruence].
    apply IH; [assumption|lia].
Qed.

(** An occurrence that starts early enough does not see the end of the
    text. *)
Lemma prefix_take p : forall x y k,
  prefix p (x ++ y) = true -> String.length p <= String.length x + k ->
  prefix p (x ++ Str.take k y) = true.
Proof.
  induction p as [|c p IH]; intros x y k H Hk.
  - destruct (x ++ Str.take k y); reflexivity.
  - destruct x as [|d x].
    + simpl in *. now apply prefix_take0.
    + simpl in H. destruct (ascii_dec c d) as [->|]; [|discriminate].
      simpl. destruct (ascii_dec d d); [|congruence].
      apply IH; [assumption|]. simpl in Hk. lia.
Qed.

Lemma remove_from_skip old : forall s k,
  String.length s <= k -> Str.remove_from old k s = "".
Proof.
  induction s as [|a s IH]; intros k Hk; [reflexivity|].
  destruct k as [|k]; simpl in Hk; [lia|].
  cbn [Str.remove_from]. apply IH. lia.
Qed.

Lemma prefix_refl (p : string) : prefix p p = true.
Proof.
  induction p as [|c p IH]; [reflexivity|].
  simpl. destruct (ascii_dec c c); [assumption|congruence].
Qed.

(** Removing a marker from a name that ends with it, and has it nowhere
    before, leaves the name without that ending. *)
Lemma remove_final_marker old base :
  old <> "" ->
  Str.contains old (base ++ Str.take (String.length old - 1) old) = false ->
  Str.remove old (base ++ old) = base.
Proof.
  intros Hne. unfold Str.remove.
  induction base as [|a base IH]; intros H.
  - destruct old as [|c old]; [congruence|].
    change ("" ++ String c old) with (String c old).
    cbn [Str.remove_from]. rewrite prefix_refl.
    apply remove_from_skip. simpl. lia.
  - change (String a base ++ old) with (String a (base ++ old)).
    change (Str.contains old
              (String a base ++ Str.take (String.length old - 1) old))
      with (if prefix old
                 (String a (base ++ Str.take (String.length old - 1) old))
            then true
            else Str.contains old
                   (base ++ Str.take (String.length old - 1) old)) in H.
    cbn [Str.remove_from].
    destruct (prefix old (String a (base ++ old))) eqn:E.
    + apply (@prefix_take old (String a base) old (String.length old - 1))
        in E; [|simpl; lia].
      simpl in E. simpl in H. rewrite E in H. discriminate.
    + destruct (prefix old
                  (String a (base ++ Str.take (String.length old - 1) old)));
        [discriminate|].
      now rewrite IH.
Qed.

(** C6. A recognized measurement line is filed under deserialize exactly
    when its name has "deserialize" somewhere inside, and under serialize
    otherwise; the target it is filed under is the name with the markers
    "_deserialize" and "_serialize" taken out.  A name that ends with one
    marker and has no marker before loses that ending, a name without a
    marker stays whole; in the section of simple_struct the lines of
    facet_format_jit_deserialize and serde_json_deserialize file the
    targets facet_format_jit and serde_json under deserialize. *)
Theorem C6_operation_and_target_from_name :
  forall results current cur e line m,
    Re.re_match ParseBench.module_re line = None ->
    ParseBench.active current = Some cur ->
    Dict.get cur results = Some e ->
    Re.re_match ParseBench.result_re line = Some m ->
    (exists name literal unit,
      Re.group 1 m = Some name /\ Re.group 2 m = Some literal
      /\ Re.group 3 m = Some unit
      /\ forall v, Num.py_float literal = Ok v ->
           exists results' e',
             let target :=
               Str.remove "_serialize" (Str.remove "_deserialize" name) in
             ParseBench.divan_line (results, current) line
             = Ok (results', current)
             /\ Dict.get cur results' = Some e'
             /\ ((exists l r, name = l ++ "deserialize" ++ r) ->
                 Dict.get target (ParseBench.deserialize e')
                 = Some (ParseBench.to_ns unit v)
                 /\ ParseBench.serialize e' = ParseBench.serialize e)
             /\ (~ (exists l r, name = l ++ "deserialize" ++ r) ->
                 Dict.get target (ParseBench.serialize e')
                 = Some (ParseBench.to_ns unit v)
                 /\ ParseBench.deserialize e' = ParseBench.deserialize e))
    /\ (forall base,
           Str.contains "_deserialize" (base ++ "_deserializ") = false ->
           Str.contains "_serialize" base = false ->
           ParseBench.target_base_of (base ++ "_deserialize") = base)
    /\ (forall base,
           Str.contains "_deserialize" (base ++ "_serialize") = false ->
           Str.contains "_serialize" (base ++ "_serializ") = false ->
           ParseBench.target_base_of (base ++ "_serialize") = base)
    /\ (forall name,
           Str.contains "_deserialize" name = false ->
           Str.contains "_serialize" name = false ->
           ParseBench.target_base_of name = name)
    /\ (exists d,
           ParseBench.parse_divan_output Sample.scenario_text
           = Ok [("simple_struct",
                  {| ParseBench.deserialize := d;
                     ParseBench.serialize := [] |})]
           /\ Dict.keys d = ["facet_format_jit"; "serde_json"]).
Proof.
  intros results current cur e line m Hmod Hact Hget Hres.
  split; [|split; [|split; [|split]]].
  - destruct (result_re_groups _ Hres)
      as (name & literal & unit & -> & _ & _ & _ & _ & _).
    exists name, literal, unit. repeat split.
    intros v Hv.
    pose proof (divan_line_measurement _ _ _ Hmod Hact Hget Hres Hv) as Hstep.
    eexists _, _. cbv zeta.
    split; [exact Hstep|]. split; [apply get_set_same|].
    unfold ParseBench.operation_of, ParseBench.target_base_of.
    split.
    + intros Hin. apply contains_spec in Hin. rewrite Hin. simpl.
      split; [apply get_set_same|reflexivity].
    + intros Hnot.
      destruct (Str.contains "deserialize" name) eqn:E.
      * apply contains_spec in E. contradiction.
      * simpl. split; [apply get_set_same|reflexivity].
  - intros base H1 H2. unfold ParseBench.target_base_of.
    rewrite remove_final_marker; [|discriminate|exact H1].
    now apply remove_absent.
  - intros base H1 H2. unfold ParseBench.target_base_of.
    rewrite (remove_absent _ _ H1).
    apply remove_final_marker; [discriminate|exact H2].
  - intros name H1 H2. unfold ParseBench.target_base_of.
    rewrite (remove_absent _ _ H1). now apply remove_absent.
  - eexists. split; vm_compute; reflexivity.
Qed.

Lemma C6_witness :
  exists name literal unit,
    Re.group 1 Sample.jit_match = Some name
    /\ Re.group 2 Sample.jit_match = Some literal
    /\ Re.group 3 Sample.jit_match = Some unit
    /\ forall v, Num.py_float literal = Ok v ->
         exists results' e',
           let target :=
             Str.remove "_serialize" (Str.remove "_deserialize" name) in
           ParseBench.divan_line Sample.in_simple_struct Sample.jit_line
           = Ok (results', Some "simple_struct")
           /\ Dict.get "simple_struct" results' = Some e'
           /\ ((exists l r, name = l ++ "deserialize" ++ r) ->
               Dict.get target (ParseBench.deserialize e')
               = Some (ParseBench.to_ns unit v)
               /\ ParseBench.serialize e'
                  = ParseBench.serialize ParseBench.empty_entry)
           /\ (~ (exists l r, name = l ++ "deserialize" ++ r) ->
               Dict.get target (ParseBench.serialize e')
               = Some (ParseBench.to_ns unit v)
               /\ ParseBench.deserialize e'
                  = ParseBench.deserialize ParseBench.empty_entry).
Proof.
  apply (@C6_operation_and_target_from_name
           [("simple_struct", ParseBench.empty_entry)] (Some "simple_struct")
           "simple_struct" ParseBench.empty_entry Sample.jit_line
           Sample.jit_match); vm_compute; reflexivity.
Defined.

(** ** The instruction parser, line by line *)

Lemma all_remove_from p old k s :
  Str.all p s = true -> Str.all p (Str.remove_from old k s) = true.
Proof.
  revert k; induction s as [|a s IH]; intros k H; [reflexivity|].
  simpl in H. apply andb_prop in H. destruct H as [Ha Hs].
  cbn [Str.remove_from]. destruct k as [|k]; [|now apply IH].
  destruct (prefix old (String a s)); [now apply IH|].
  simpl. now rewrite Ha, IH.
Qed.

Lemma contains_char_all (p : ascii -> bool) (x : ascii) (s : string) :
  p x = false -> Str.all p s = true ->
  Str.contains (String x "") s = false.
Proof.
  intros Hx. induction s as [|a s IH]; intros H; [reflexivity|].
  simpl in H. apply andb_prop in H. destruct H as [Ha Hs].
  change (Str.contains (String x "") (String a s))
    with (if prefix (String x "") (String a s) then true
          else Str.contains (String x "") s).
  simpl. destruct (ascii_dec x a) as [->|_]; [congruence|now apply IH].
Qed.

(** The separator never reaches the value: the group stops before it. *)
Lemma current_component_digits digits :
  Str.all ParseBench.digit_or_comma digits = true ->
  ParseBench.current_component (Str.remove "," digits)
  = Str.remove "," digits.
Proof.
  intros H. unfold ParseBench.current_component.
  rewrite (@contains_char_all ParseBench.digit_or_comma); auto.
  now apply all_remove_from.
Qed.

Lemma py_int_raises s e : Num.py_int s = Raise e -> e = ValueError.
Proof.
  unfold Num.py_int. destruct (Num.digit_string s); congruence.
Qed.

(** What a metric line does to the state of [parse_bench.py]: a value that
    [int] accepts is stored, any other leaves the state as it was. *)
Lemma gungraun_line_metric results current cur metrics line label digits :
  Re.re_match ParseBench.name_re line = None ->
  ParseBench.active current = Some cur ->
  Dict.get cur results = Some metrics ->
  Re.re_match ParseBench.metric_re line = Some [(2, digits); (1, label)] ->
  Str.all ParseBench.digit_or_comma digits = true ->
  ParseBench.gungraun_line (results, current) line
  = match Num.py_int (Str.remove "," digits) with
    | Ok n => Ok (Dict.set cur (Dict.set (Str.strip label) n metrics) results,
                  current)
    | Raise _ => Ok (results, current)
    end.
Proof.
  intros Hname Hact Hget Hm Hd.
  unfold ParseBench.gungraun_line. rewrite Hname, Hact, Hm. simpl.
  rewrite (current_component_digits _ Hd).
  destruct (Num.py_int (Str.remove "," digits)) as [n|e] eqn:E.
  - unfold ParseBench.subscript. now rewrite Hget.
  - now rewrite (py_int_raises _ E).
Qed.

Lemma legacy_gungraun_line_metric results current cur metrics line label digits :
  Re.re_match ParseBench.name_re line = None ->
  ParseBench.active current = Some cur ->
  Dict.get cur results = Some metrics ->
  Re.re_match ParseBenchLegacy.metric_re line
  = Some [(2, digits); (1, label)] ->
  ParseBenchLegacy.gungraun_line (results, current) line
  = match Num.py_int (Str.remove "," digits) with
    | Ok n => Ok (Dict.set cur (Dict.set (Str.strip label) n metrics) results,
                  current)
    | Raise e => Raise e
    end.
Proof.
  intros Hname Hact Hget Hm.
  unfold ParseBenchLegacy.gungraun_line. rewrite Hname, Hact, Hm. simpl.
  destruct (Num.py_int (Str.remove "," digits)) as [n|e]; [|reflexivity].
  simpl. unfold ParseBench.subscript. now rewrite Hget.
Qed.

(** C5. On a metric line only the run of digits and commas after the label
    is read, so a separator and a baseline that follow it are left out; the
    commas are removed and the rest is parsed as an integer, which is stored
    under the stripped label.  Both scripts agree, and a section whose
    metric line reads "Instructions: 6,549|0" parses to 6549. *)
Theorem C5_current_component_without_separators :
  forall results current cur metrics line,
    Re.re_match ParseBench.name_re line = None ->
    ParseBench.active current = Some cur ->
    Dict.get cur results = Some metrics ->
    (forall m, Re.re_match ParseBench.metric_re line = Some m ->
       exists label digits before rest,
         Re.group 1 m = Some label /\ Re.group 2 m = Some digits
         /\ line = before ++ digits ++ rest
         /\ Str.all ParseBench.digit_or_comma digits = true
         /\ forall n, Num.py_int (Str.remove "," digits) = Ok n ->
              ParseBench.gungraun_line (results, current) line
              = Ok (Dict.set cur (Dict.set (Str.strip label) n metrics) results,
                    current))
    /\ (forall m, Re.re_match ParseBenchLegacy.metric_re line = Some m ->
          exists label digits before rest,
            Re.group 1 m = Some label /\ Re.group 2 m = Some digits
            /\ line = before ++ digits ++ rest
            /\ Str.all ParseBench.digit_or_comma digits = true
            /\ forall n, Num.py_int (Str.remove "," digits) = Ok n ->
                 ParseBenchLegacy.gungraun_line (results, current) line
                 = Ok (Dict.set cur (Dict.set (Str.strip label) n metrics)
                                results, current))
    /\ ParseBench.parse_gungraun_output Sample.boundary_text
       = Ok [("simple_struct_facet_format_jit", [("Instructions", 6549%N)])]
    /\ ParseBenchLegacy.parse_gungraun_output Sample.boundary_text
       = Ok [("simple_struct_facet_format_jit", [("Instructions", 6549%N)])].
Proof.
  intros results current cur metrics line Hname Hact Hget.
  split; [|split; [|split; reflexivity]].
  - intros m Hm.
    destruct (@label_value_re_groups
                (Re.Plus (Re.Cls ParseBench.word_or_space)) line m eq_refl Hm)
      as (label & digits & before & rest & -> & Hline & Hd & _).
    exists label, digits, before, rest. repeat split; try assumption.
    intros n Hn.
    rewrite (gungraun_line_metric _ _ _ Hname Hact Hget Hm Hd).
    now rewrite Hn.
  - intros m Hm.
    destruct (fun G => @label_value_re_groups _ line m G Hm)
      as (label & digits & before & rest & -> & Hline & Hd & _);
      [reflexivity|].
    exists label, digits, before, rest. repeat split; try assumption.
    intros n Hn.
    rewrite (legacy_gungraun_line_metric _ _ _ Hname Hact Hget Hm).
    now rewrite Hn.
Qed.

Lemma C5_witness :
  ParseBench.gungraun_line Sample.in_gungraun_section Sample.boundary_line
  = Ok ([("simple_struct_facet_format_jit", [("Instructions", 6549%N)])],
        Some "simple_struct_facet_format_jit").
Proof.
  destruct (@C5_current_component_without_separators
              [("simple_struct_facet_format_jit", Dict.empty)]
              (Some "simple_struct_facet_format_jit")
              "simple_struct_facet_format_jit" Dict.empty
              Sample.boundary_line eq_refl eq_refl eq_refl) as [H _].
  destruct (H [(2, "6,549"); (1, "Instructions")] eq_refl)
    as (label & digits & before & rest & H1 & H2 & _ & _ & Hn).
  injection H1 as <-. injection H2 as <-.
  exact (Hn 6549%N eq_refl).
Defined.

(** ** The statistical parser over a whole text *)

Lemma for_lines_app {S} (body : S -> string -> res S) st l1 l2 :
  ParseBench.for_lines body st (l1 ++ l2)%list
  = (st' <- ParseBench.for_lines body st l1 ;;
     ParseBench.for_lines body st' l2).
Proof.
  revert st; induction l1 as [|l l1 IH]; intros st; simpl; [reflexivity|].
  destruct (body st l); simpl; [apply IH|reflexivity].
Qed.

Lemma active_some current cur :
  ParseBench.active current = Some cur -> current = Some cur.
Proof.
  destruct current as [b|]; simpl; [|discriminate].
  destruct (String.eqb b ""); congruence.
Qed.

Lemma mem_get {V} k (d : Dict.t V) :
  Dict.mem k d = true -> exists v, Dict.get k d = Some v.
Proof. unfold Dict.mem. destruct (Dict.get k d); [eauto|discriminate]. Qed.

Lemma classify current line : Spec.line_kind current line.
Proof.
  destruct (Re.re_match ParseBench.module_re line) as [m|] eqn:Em.
  - destruct (module_re_groups _ Em) as (b & -> & _).
    now apply Spec.IsSection with b.
  - destruct (ParseBench.active current) as [cur|] eqn:Ea;
      [|apply Spec.IsOther; auto].
    destruct (Re.re_match ParseBench.result_re line) as [m|] eqn:Er;
      [|apply Spec.IsOther; auto].
    destruct (result_re_groups _ Er) as (name & literal & unit & -> & _).
    eapply Spec.IsMeasurement; eauto using active_some.
Qed.

Lemma divan_line_section results current line b :
  Re.re_match ParseBench.module_re line = Some [(1, b)] ->
  ParseBench.divan_line (results, current) line
  = Ok (Dict.set b ParseBench.empty_entry results, Some b).
Proof. intros E. unfold ParseBench.divan_line. now rewrite E. Qed.

Lemma divan_line_other results current line :
  Re.re_match ParseBench.module_re line = None ->
  ParseBench.active current = None
  \/ Re.re_match ParseBench.result_re line = None ->
  ParseBench.divan_line (results, current) line = Ok (results, current).
Proof.
  intros Em [E|E]; unfold ParseBench.divan_line; rewrite Em, E;
    [reflexivity|].
  destruct (ParseBench.active current); reflexivity.
Qed.

Lemma divan_line_measure results cur line name literal unit :
  Re.re_match ParseBench.module_re line = None ->
  ParseBench.active (Some cur) = Some cur ->
  Re.re_match ParseBench.result_re line
  = Some [(3, unit); (2, literal); (1, name)] ->
  ParseBench.divan_line (results, Some cur) line
  = (v <- Num.py_float literal ;;
     e <- ParseBench.subscript cur results ;;
     Ok (Dict.set cur
           (ParseBench.entry_set (ParseBench.operation_of name)
              (ParseBench.target_base_of name) (ParseBench.to_ns unit v) e)
           results, Some cur)).
Proof.
  intros Em Ea Er. unfold ParseBench.divan_line. rewrite Em, Ea, Er. simpl.
  destruct (Num.py_float literal); reflexivity.
Qed.

Lemma subscript_known {V} cur (results : Dict.t V) current :
  Spec.known_current (results, current) -> current = Some cur ->
  exists e, ParseBench.subscript cur results = Ok e
            /\ Dict.get cur results = Some e.
Proof.
  intros Hk Hc. destruct (mem_get _ _ (Hk cur Hc)) as [e He].
  simpl in He. exists e. unfold ParseBench.subscript. now rewrite He.
Qed.

(** A turn of the loop keeps every benchmark and an entry for the active
    one. *)
Lemma divan_line_known st line st' :
  Spec.known_current st ->
  ParseBench.divan_line st line = Ok st' ->
  Spec.known_current st'
  /\ forall k, Dict.mem k (fst st) = true -> Dict.mem k (fst st') = true.
Proof.
  destruct st as [results current]. intros Hk H.
  destruct (classify current line) as [b Em|cur n l u Em Ec Ea Er|Em Eo].
  - rewrite (divan_line_section _ _ _ Em) in H. injection H as <-.
    split; [|intros k; apply mem_set].
    intros c Hc. simpl in *. injection Hc as <-. apply mem_set_same.
  - subst current. rewrite (divan_line_measure _ _ Em Ea Er) in H.
    destruct (Num.py_float l) as [v|]; [|discriminate]. cbn [bind] in H.
    destruct (subscript_known Hk eq_refl) as (e & S & _).
    rewrite S in H. cbn [bind] in H. injection H as <-.
    split; [|intros k; apply mem_set].
    intros c Hc. simpl in *. apply mem_set. now apply Hk.
  - rewrite (divan_line_other _ _ _ Em Eo) in H. injection H as <-. auto.
Qed.

Lemma divan_lines_known lines : forall st st',
  Spec.known_current st ->
  ParseBench.for_lines ParseBench.divan_line st lines = Ok st' ->
  Spec.known_current st'
  /\ forall k, Dict.mem k (fst st) = true -> Dict.mem k (fst st') = true.
Proof.
  induction lines as [|l lines IH]; intros st st' Hk H; simpl in H.
  - injection H as <-. auto.
  - destruct (ParseBench.divan_line st l) as [st1|] eqn:E; [|discriminate].
    simpl in H. destruct (divan_line_known _ Hk E) as [Hk1 Hm1].
    destruct (IH _ _ Hk1 H) as [Hk' Hm']. auto.
Qed.

Lemma known_initial {V} : Spec.known_current (@Dict.empty V, @None string).
Proof. intros c Hc. discriminate. Qed.

(** A turn of the loop on two states that agree on [b]. *)
Lemma divan_line_agree b st1 st2 line st1' :
  Spec.agree_on b st1 st2 ->
  ParseBench.divan_line st1 line = Ok st1' ->
  exists st2', ParseBench.divan_line st2 line = Ok st2'
               /\ Spec.agree_on b st1' st2'.
Proof.
  destruct st1 as [r1 c1], st2 as [r2 c2].
  intros (Hc & Hb & Hk1 & Hk2) H. simpl in Hc, Hb. subst c2.
  assert (Hpost : forall st2', ParseBench.divan_line (r2, c1) line = Ok st2' ->
                    Spec.known_current st1' /\ Spec.known_current st2').
  { intros st2' E.
    split; [apply (proj1 (divan_line_known _ Hk1 H))
           |apply (proj1 (divan_line_known _ Hk2 E))]. }
  destruct (classify c1 line) as [b' Em|cur n l u Em Ec Ea Er|Em Eo].
  - rewrite (divan_line_section _ _ _ Em) in H. injection H as <-.
    pose proof (divan_line_section r2 c1 _ Em) as E.
    eexists; split; [exact E|].
    destruct (Hpost _ E). repeat split; simpl; try assumption.
    destruct (string_dec b' b) as [->|Hne].
    + now rewrite !get_set_same.
    + now rewrite !get_set_other.
  - subst c1.
    pose proof (divan_line_measure r2 _ Em Ea Er) as E.
    rewrite (divan_line_measure _ _ Em Ea Er) in H.
    destruct (Num.py_float l) as [v|]; [|discriminate]. cbn [bind] in H, E.
    destruct (subscript_known Hk1 eq_refl) as (e1 & S1 & G1).
    destruct (subscript_known Hk2 eq_refl) as (e2 & S2 & G2).
    rewrite S1 in H. rewrite S2 in E. cbn [bind] in H, E. injection H as <-.
    eexists; split; [exact E|].
    destruct (Hpost _ E). repeat split; simpl; try assumption.
    destruct (string_dec cur b) as [->|Hne].
    + rewrite !get_set_same. congruence.
    + now rewrite !get_set_other.
  - rewrite (divan_line_other _ _ _ Em Eo) in H. injection H as <-.
    pose proof (divan_line_other r2 _ _ Em Eo) as E.
    eexists; split; [exact E|].
    repeat split; assumption.
Qed.

Lemma divan_lines_agree b lines : forall st1 st2 st1',
  Spec.agree_on b st1 st2 ->
  ParseBench.for_lines ParseBench.divan_line st1 lines = Ok st1' ->
  exists st2', ParseBench.for_lines ParseBench.divan_line st2 lines = Ok st2'
               /\ Spec.agree_on b st1' st2'.
Proof.
  induction lines as [|l lines IH]; intros st1 st2 st1' Ha H; simpl in H.
  - injection H as <-. exists st2. now split.
  - destruct (ParseBench.divan_line st1 l) as [s1|] eqn:E; [|discriminate].
    destruct (divan_line_agree _ Ha E) as (s2 & E2 & Ha').
    simpl in H. destruct (IH _ _ _ Ha' H) as (st2' & E' & Ha'').
    exists st2'. simpl. rewrite E2. simpl. now split.
Qed.

(** The same for the earlier script. *)

Lemma legacy_line_section results current line b :
  Re.re_match ParseBench.module_re line = Some [(1, b)] ->
  ParseBenchLegacy.divan_line (results, current) line
  = Ok (Dict.set b Dict.empty results, Some b).
Proof. intros E. unfold ParseBenchLegacy.divan_line. now rewrite E. Qed.

Lemma legacy_line_other results current line :
  Re.re_match ParseBench.module_re line = None ->
  ParseBench.active current = None
  \/ Re.re_match ParseBench.result_re line = None ->
  ParseBenchLegacy.divan_line (results, current) line = Ok (results, current).
Proof.
  intros Em [E|E]; unfold ParseBenchLegacy.divan_line; rewrite Em;
    [now rewrite E|].
  change ParseBenchLegacy.result_re with ParseBench.result_re. rewrite E.
  destruct (ParseBench.active current); reflexivity.
Qed.

Lemma legacy_line_measure results cur line name literal unit :
  Re.re_match ParseBench.module_re line = None ->
  ParseBench.active (Some cur) = Some cur ->
  Re.re_match ParseBench.result_re line
  = Some [(3, unit); (2, literal); (1, name)] ->
  ParseBenchLegacy.divan_line (results, Some cur) line
  = (v <- Num.py_float literal ;;
     targets <- ParseBench.subscript cur results ;;
     Ok (Dict.set cur (Dict.set name (ParseBench.to_ns unit v) targets) results,
         Some cur)).
Proof.
  intros Em Ea Er. unfold ParseBenchLegacy.divan_line. rewrite Em, Ea.
  change ParseBenchLegacy.result_re with ParseBench.result_re. rewrite Er.
  simpl. destruct (Num.py_float literal); reflexivity.
Qed.

Lemma legacy_line_known st line st' :
  Spec.known_current st ->
  ParseBenchLegacy.divan_line st line = Ok st' ->
  Spec.known_current st'.
Proof.
  destruct st as [results current]. intros Hk H.
  destruct (classify current line) as [b Em|cur n l u Em Ec Ea Er|Em Eo].
  - rewrite (legacy_line_section _ _ _ Em) in H. injection H as <-.
    intros c Hc. simpl in *. injection Hc as <-. apply mem_set_same.
  - subst current. rewrite (legacy_line_measure _ _ Em Ea Er) in H.
    destruct (Num.py_float l) as [v|]; [|discriminate]. cbn [bind] in H.
    destruct (subscript_known Hk eq_refl) as (e & S & _).
    rewrite S in H. cbn [bind] in H. injection H as <-.
    intros c Hc. simpl in *. apply mem_set. now apply Hk.
  - rewrite (legacy_line_other _ _ _ Em Eo) in H. injection H as <-. auto.
Qed.

Lemma legacy_line_agree b st1 st2 line st1' :
  Spec.agree_on b st1 st2 ->
  ParseBenchLegacy.divan_line st1 line = Ok st1' ->
  exists st2', ParseBenchLegacy.divan_line st2 line = Ok st2'
               /\ Spec.agree_on b st1' st2'.
Proof.
  destruct st1 as [r1 c1], st2 as [r2 c2].
  intros (Hc & Hb & Hk1 & Hk2) H. simpl in Hc, Hb. subst c2.
  assert (Hpost : forall st2',
             ParseBenchLegacy.divan_line (r2, c1) line = Ok st2' ->
             Spec.known_current st1' /\ Spec.known_current st2').
  { intros st2' E.
    split; [apply (legacy_line_known _ Hk1 H)
           |apply (legacy_line_known _ Hk2 E)]. }
  destruct (classify c1 line) as [b' Em|cur n l u Em Ec Ea Er|Em Eo].
  - rewrite (legacy_line_section _ _ _ Em) in H. injection H as <-.
    pose proof (legacy_line_section r2 c1 _ Em) as E.
    eexists; split; [exact E|].
    destruct (Hpost _ E). repeat split; simpl; try assumption.
    destruct (string_dec b' b) as [->|Hne].
    + now rewrite !get_set_same.
    + now rewrite !get_set_other.
  - subst c1.
    pose proof (legacy_line_measure r2 _ Em Ea Er) as E.
    rewrite (legacy_line_measure _ _ Em Ea Er) in H.
    destruct (Num.py_float l) as [v|]; [|discriminate]. cbn [bind] in H, E.
    destruct (subscript_known Hk1 eq_refl) as (e1 & S1 & G1).
    destruct (subscript_known Hk2 eq_refl) as (e2 & S2 & G2).
    rewrite S1 in H. rewrite S2 in E. cbn [bind] in H, E. injection H as <-.
    eexists; split; [exact E|].
    destruct (Hpost _ E). repeat split; simpl; try assumption.
    destruct (string_dec cur b) as [->|Hne].
    + rewrite !get_set_same. congruence.
    + now rewrite !get_set_other.
  - rewrite (legacy_line_other _ _ _ Em Eo) in H. injection H as <-.
    pose proof (legacy_line_other r2 _ _ Em Eo) as E.
    eexists; split; [exact E|].
    repeat split; assumption.
Qed.

Lemma legacy_lines_agree b lines : forall st1 st2 st1',
  Spec.agree_on b st1 st2 ->
  ParseBench.for_lines ParseBenchLegacy.divan_line st1 lines = Ok st1' ->
  exists st2',
    ParseBench.for_lines ParseBenchLegacy.divan_line st2 lines = Ok st2'
    /\ Spec.agree_on b st1' st2'.
Proof.
  induction lines as [|l lines IH]; intros st1 st2 st1' Ha H; simpl in H.
  - injection H as <-. exists st2. now split.
  - destruct (ParseBenchLegacy.divan_line st1 l) as [s1|] eqn:E;
      [|discriminate].
    destruct (legacy_line_agree _ Ha E) as (s2 & E2 & Ha').
    simpl in H. destruct (IH _ _ _ Ha' H) as (st2' & E' & Ha'').
    exists st2'. simpl. rewrite E2. simpl. now split.
Qed.

Lemma legacy_lines_known lines : forall st st',
  Spec.known_current st ->
  ParseBench.for_lines ParseBenchLegacy.divan_line st lines = Ok st' ->
  Spec.known_current st'.
Proof.
  induction lines as [|l lines IH]; intros st st' Hk H; simpl in H.
  - injection H as <-. auto.
  - destruct (ParseBenchLegacy.divan_line st l) as [st1|] eqn:E;
      [|discriminate].
    simpl in H. eapply IH; [|eassumption]. eapply legacy_line_known; eassumption.
Qed.

Lemma names_section_groups line b :
  Spec.names_section line b ->
  Re.re_match ParseBench.module_re line = Some [(1, b)].
Proof.
  intros (m & Em & Hg). destruct (module_re_groups _ Em) as (b' & E & _).
  subst m. simpl in Hg. injection Hg as <-. exact Em.
Qed.

Lemma bind_ok {A B} (m : res A) (f : A -> res B) b :
  bind m f = Ok b -> exists a, m = Ok a /\ f a = Ok b.
Proof. destruct m as [a|]; simpl; [eauto|discriminate]. Qed.

(** C9. When a section line names a benchmark a second time, the entry of
    that benchmark is emptied at that line, and the final model holds for
    it what parsing from that line on alone would give: nothing parsed under
    an earlier section of the same name is left.  Both scripts do so. *)
Theorem C9_reopened_section_discards_earlier_rows :
  forall pre line post b,
    Spec.names_section line b ->
    (forall results,
        ParseBench.parse_divan_lines (pre ++ line :: post) = Ok results ->
        exists at_line alone,
          ParseBench.parse_divan_lines (pre ++ [line]) = Ok at_line
          /\ Dict.get b at_line = Some ParseBench.empty_entry
          /\ ParseBench.parse_divan_lines (line :: post) = Ok alone
          /\ Dict.get b results = Dict.get b alone)
    /\ (forall results,
           ParseBenchLegacy.parse_divan_lines (pre ++ line :: post)
           = Ok results ->
           exists at_line alone,
             ParseBenchLegacy.parse_divan_lines (pre ++ [line]) = Ok at_line
             /\ Dict.get b at_line = Some Dict.empty
             /\ ParseBenchLegacy.parse_divan_lines (line :: post) = Ok alone
             /\ Dict.get b results = Dict.get b alone).
Proof.
  intros pre line post b Hsec. apply names_section_groups in Hsec.
  split; intros results H.
  - unfold ParseBench.parse_divan_lines in *.
    apply bind_ok in H. destruct H as (st & H & E). injection E as <-.
    rewrite for_lines_app in H. apply bind_ok in H.
    destruct H as ([r0 c0] & Hpre & H).
    pose proof (proj1 (divan_lines_known _ known_initial Hpre)) as Hk0.
    cbn [ParseBench.for_lines] in H.
    rewrite (divan_line_section _ _ _ Hsec) in H. cbn [bind] in H.
    assert (Ha : Spec.agree_on b
                   (Dict.set b ParseBench.empty_entry r0, Some b)
                   (Dict.set b ParseBench.empty_entry Dict.empty, Some b)).
    { repeat split; cbn [fst snd].
      - now rewrite !get_set_same.
      - intros c Hc; cbn [fst snd] in *; injection Hc as <-;
          apply mem_set_same.
      - intros c Hc; cbn [fst snd] in *; injection Hc as <-;
          apply mem_set_same. }
    destruct (@divan_lines_agree b post _ _ _ Ha H) as (st2 & E2 & (_ & Hb & _)).
    exists (Dict.set b ParseBench.empty_entry r0), (fst st2).
    repeat split.
    + rewrite for_lines_app, Hpre. cbn [bind ParseBench.for_lines].
      now rewrite (divan_line_section _ _ _ Hsec).
    + apply get_set_same.
    + cbn [ParseBench.for_lines].
      rewrite (divan_line_section _ _ _ Hsec). cbn [bind].
      now rewrite E2.
    + exact Hb.
  - unfold ParseBenchLegacy.parse_divan_lines in *.
    apply bind_ok in H. destruct H as (st & H & E). injection E as <-.
    rewrite for_lines_app in H. apply bind_ok in H.
    destruct H as ([r0 c0] & Hpre & H).
    pose proof (legacy_lines_known _ known_initial Hpre) as Hk0.
    cbn [ParseBench.for_lines] in H.
    rewrite (legacy_line_section _ _ _ Hsec) in H. cbn [bind] in H.
    assert (Ha : Spec.agree_on b
                   (Dict.set b Dict.empty r0, Some b)
                   (Dict.set b (@Dict.empty Q) Dict.empty, Some b)).
    { repeat split; cbn [fst snd].
      - now rewrite !get_set_same.
      - intros c Hc; cbn [fst snd] in *; injection Hc as <-;
          apply mem_set_same.
      - intros c Hc; cbn [fst snd] in *; injection Hc as <-;
          apply mem_set_same. }
    destruct (@legacy_lines_agree b post _ _ _ Ha H) as (st2 & E2 & (_ & Hb & _)).
    exists (Dict.set b Dict.empty r0), (fst st2).
    repeat split.
    + rewrite for_lines_app, Hpre. cbn [bind ParseBench.for_lines].
      now rewrite (legacy_line_section _ _ _ Hsec).
    + apply get_set_same.
    + cbn [ParseBench.for_lines].
      rewrite (legacy_line_section _ _ _ Hsec). cbn [bind].
      now rewrite E2.
    + exact Hb.
Qed.

Lemma C9_witness :
  Spec.names_section Sample.section_line "simple_struct"
  /\ forall results,
       ParseBench.parse_divan_lines
         (Sample.before_reopening
            ++ Sample.section_line :: Sample.after_reopening) = Ok results ->
       exists at_line alone,
         ParseBench.parse_divan_lines
           (Sample.before_reopening ++ [Sample.section_line]) = Ok at_line
         /\ Dict.get "simple_struct" at_line = Some ParseBench.empty_entry
         /\ ParseBench.parse_divan_lines
              (Sample.section_line :: Sample.after_reopening) = Ok alone
         /\ Dict.get "simple_struct" results = Dict.get "simple_struct" alone.
Proof.
  assert (Hs : Spec.names_section Sample.section_line "simple_struct").
  { exists [(1, "simple_struct")]. split; vm_compute; reflexivity. }
  split; [exact Hs|].
  exact (proj1 (@C9_reopened_section_discards_earlier_rows
                  Sample.before_reopening Sample.section_line
                  Sample.after_reopening "simple_struct" Hs)).
Defined.

(** ** The report never raises *)

Lemma py_div_ok x y : Qeq_bool y 0 = false -> Num.py_div x y = Ok (x / y)%Q.
Proof. intros H. unfold Num.py_div. now rewrite H. Qed.

Lemma vs_serde_total time_ns serde_time :
  exists q, ParseBench.vs_serde_of time_ns serde_time = Ok q.
Proof.
  unfold ParseBench.vs_serde_of. destruct serde_time as [s|]; [|eauto].
  destruct (Qeq_bool s 0) eqn:E; simpl; [eauto|].
  destruct (Num.Qltb 0 s); [|eauto].
  rewrite (py_div_ok _ _ E). eauto.
Qed.

Lemma subscript_mem {V} k (d : Dict.t V) :
  Dict.mem k d = true -> exists v, ParseBench.subscript k d = Ok v.
Proof.
  intros H. destruct (mem_get _ _ H) as [v Hv].
  exists v. unfold ParseBench.subscript. now rewrite Hv.
Qed.

Lemma table_row_total bench_name gungraun_data serde_time fastest_time item :
  exists r, ParseBench.table_row_of bench_name gungraun_data serde_time
              fastest_time item = Ok r.
Proof.
  destruct item as [target time_ns]. unfold ParseBench.table_row_of.
  destruct (Dict.mem target ParseBench.TARGETS) eqn:E; simpl; [|eauto].
  destruct (subscript_mem _ _ E) as [config ->]. cbn [bind].
  destruct (vs_serde_total time_ns serde_time) as [q ->]. cbn [bind]. eauto.
Qed.

Lemma table_rows_total bench_name gungraun_data serde_time fastest_time items :
  exists rows, ParseBench.table_rows bench_name gungraun_data serde_time
                 fastest_time items = Ok rows.
Proof.
  induction items as [|item items [rows IH]]; simpl; [eauto|].
  destruct (table_row_total bench_name gungraun_data serde_time fastest_time
              item) as [r ->].
  cbn [bind]. rewrite IH. cbn [bind]. eauto.
Qed.

(** Every row of the table is the row of one of the sorted items. *)
Lemma table_rows_in bench_name gungraun_data serde_time fastest_time items :
  forall rows row,
    ParseBench.table_rows bench_name gungraun_data serde_time fastest_time items
    = Ok rows ->
    In row rows ->
    exists item,
      In item items
      /\ ParseBench.table_row_of bench_name gungraun_data serde_time
           fastest_time item = Ok (Some row).
Proof.
  induction items as [|item items IH]; simpl; intros rows row H Hin.
  - injection H as <-. contradiction.
  - apply bind_ok in H. destruct H as (r & Hr & H).
    apply bind_ok in H. destruct H as (rs & Hrs & H). injection H as <-.
    destruct r as [row0|].
    + destruct Hin as [<-|Hin]; [eauto|].
      destruct (IH _ _ Hrs Hin) as (it & ? & ?). eauto.
    + destruct (IH _ _ Hrs Hin) as (it & ? & ?). eauto.
Qed.

Lemma chart_column_total {A} (f : ParseBench.target_config -> Q -> A) items :
  exists xs, ParseBench.chart_column f items = Ok xs.
Proof.
  induction items as [|[target time_ns] items [xs IH]]; simpl; [eauto|].
  destruct (Dict.mem target ParseBench.TARGETS) eqn:E; [|eauto].
  destruct (subscript_mem _ _ E) as [config ->]. cbn [bind].
  rewrite IH. cbn [bind]. eauto.
Qed.

Lemma chart_total items : exists c, ParseBench.chart_of items = Ok c.
Proof.
  unfold ParseBench.chart_of.
  destruct (chart_column_total
              (fun c _ => ParseBench.emoji c ++ " " ++ ParseBench.label c)
              items) as [l ->].
  destruct (chart_column_total
              (fun _ t => Num.format_fixed 3 (t / 1000)%Q) items) as [d ->].
  destruct (chart_column_total
              (fun c (_ : Q) => ParseBench.color c ++ "CC") items) as [g ->].
  destruct (chart_column_total
              (fun c (_ : Q) => ParseBench.color c) items) as [o ->].
  cbn [bind]. eauto.
Qed.

(** [generate_benchmark_section] returns nothing for an empty group and one
    item, under the given id, for any other. *)
Lemma generate_benchmark_section_cases
      bench_name operation divan_data gungraun_data bench_id :
  (divan_data = []
   /\ ParseBench.generate_benchmark_section bench_name operation divan_data
        gungraun_data bench_id = Ok [])
  \/ (divan_data <> []
      /\ exists fastest_time rows c title,
           Num.py_min (Dict.values divan_data) = Ok fastest_time
           /\ ParseBench.table_rows bench_name gungraun_data
                (Dict.get "serde_json" divan_data) fastest_time
                (Num.sorted_by_value (Dict.items divan_data)) = Ok rows
           /\ ParseBench.generate_benchmark_section bench_name operation
                divan_data gungraun_data bench_id
              = Ok [Html.BenchmarkItem bench_id title rows c]).
Proof.
  unfold ParseBench.generate_benchmark_section.
  destruct divan_data as [|[k v] d]; [left; auto|right].
  split; [discriminate|].
  cbn [Dict.nonempty negb Dict.values map snd Num.py_min bind].
  destruct (table_rows_total bench_name gungraun_data
              (Dict.get "serde_json" ((k, v) :: d))
              (Num.min_from v (map snd d))
              (Num.sorted_by_value (Dict.items ((k, v) :: d)))) as [rows Hr].
  destruct (chart_total (Num.sorted_by_value (Dict.items ((k, v) :: d))))
    as [c Hc].
  exists (Num.min_from v (map snd d)), rows, c.
  eexists. split; [reflexivity|]. split; [exact Hr|].
  rewrite Hr. cbn [bind]. rewrite Hc. cbn [bind]. reflexivity.
Qed.

Lemma generate_benchmark_section_items
      bench_name operation divan_data gungraun_data bench_id :
  exists html,
    ParseBench.generate_benchmark_section bench_name operation divan_data
      gungraun_data bench_id = Ok html
    /\ forall id title rows c,
         In (Html.BenchmarkItem id title rows c) html ->
         id = bench_id /\ divan_data <> [].
Proof.
  destruct (generate_benchmark_section_cases bench_name operation divan_data
              gungraun_data bench_id)
    as [(_ & ->)|(Hne & f & rows & c & title & _ & _ & ->)];
    eexists; (split; [reflexivity|]); intros id t r c0 Hin.
  - contradiction.
  - destruct Hin as [E|[]]. injection E as <- _ _ _. auto.
Qed.

(** The nodes a benchmark contributes: at most one per operation, and only
    for an operation that has rows. *)
Lemma benchmark_sections_items gungraun_data bench_name bench_data :
  exists html,
    ParseBench.benchmark_sections gungraun_data bench_name bench_data = Ok html
    /\ forall id title rows c,
         In (Html.BenchmarkItem id title rows c) html ->
         (id = bench_name ++ "_deser"
          /\ ParseBench.deserialize bench_data <> [])
         \/ (id = bench_name ++ "_ser"
             /\ ParseBench.serialize bench_data <> []).
Proof.
  unfold ParseBench.benchmark_sections.
  assert (Hd : exists d,
             (if Dict.nonempty (ParseBench.deserialize bench_data)
              then ParseBench.generate_benchmark_section bench_name
                     "deserialize" (ParseBench.deserialize bench_data)
                     gungraun_data (bench_name ++ "_deser")
              else Ok []) = Ok d
             /\ forall id title rows c,
                  In (Html.BenchmarkItem id title rows c) d ->
                  id = bench_name ++ "_deser"
                  /\ ParseBench.deserialize bench_data <> []).
  { destruct (Dict.nonempty (ParseBench.deserialize bench_data)).
    - apply generate_benchmark_section_items.
    - exists []. split; [reflexivity|]. intros ? ? ? ? []. }
  assert (Hs : exists d,
             (if Dict.nonempty (ParseBench.serialize bench_data)
              then ParseBench.generate_benchmark_section bench_name
                     "serialize" (ParseBench.serialize bench_data)
                     gungraun_data (bench_name ++ "_ser")
              else Ok []) = Ok d
             /\ forall id title rows c,
                  In (Html.BenchmarkItem id title rows c) d ->
                  id = bench_name ++ "_ser"
                  /\ ParseBench.serialize bench_data <> []).
  { destruct (Dict.nonempty (ParseBench.serialize bench_data)).
    - apply generate_benchmark_section_items.
    - exists []. split; [reflexivity|]. intros ? ? ? ? []. }
  destruct Hd as (d & -> & Hd), Hs as (s & -> & Hs). cbn [bind].
  eexists. split; [reflexivity|].
  intros id title rows c Hin. apply in_app_or in Hin.
  destruct Hin as [Hin|Hin]; [left; eauto|right; eauto].
Qed.

Lemma category_benchmarks_items divan_data gungraun_data benchmarks :
  (forall b, In b benchmarks -> In b (Dict.keys divan_data)) ->
  exists html,
    ParseBench.category_benchmarks divan_data gungraun_data benchmarks = Ok html
    /\ forall id title rows c,
         In (Html.BenchmarkItem id title rows c) html ->
         Spec.rendered_from divan_data id.
Proof.
  induction benchmarks as [|b bs IH]; intros Hk; simpl.
  - exists []. split; [reflexivity|]. intros ? ? ? ? [].
  - destruct (get_in_keys _ _ (Hk b (or_introl eq_refl))) as [e He].
    unfold ParseBench.subscript. rewrite He. cbn [bind].
    destruct (benchmark_sections_items gungraun_data b e) as (h & -> & Hh).
    cbn [bind].
    destruct IH as (t & -> & Ht); [intros; apply Hk; now right|].
    cbn [bind]. eexists. split; [reflexivity|].
    intros id title rows c Hin. apply in_app_or in Hin.
    destruct Hin as [Hin|Hin]; [|eauto].
    exists b, e. split; [assumption|]. eauto.
Qed.

Lemma categories_html_items divan_data gungraun_data categories :
  (forall cat b, In cat categories -> In b (snd cat) ->
                 In b (Dict.keys divan_data)) ->
  exists html,
    ParseBench.categories_html divan_data gungraun_data categories = Ok html
    /\ forall id title rows c,
         In (Html.BenchmarkItem id title rows c) html ->
         Spec.rendered_from divan_data id.
Proof.
  induction categories as [|[category_name benchmarks] cats IH]; intros Hk;
    simpl.
  - exists []. split; [reflexivity|]. intros ? ? ? ? [].
  - destruct IH as (t & Et & Ht);
      [intros cat b ? ?; apply (Hk cat b); [now right|assumption]|].
    destruct benchmarks as [|b0 bs].
    + cbn [bind]. rewrite Et. cbn [bind]. exists t. now split.
    + destruct (@category_benchmarks_items divan_data gungraun_data (b0 :: bs))
        as (h & Eh & Hh).
      { intros b Hb. apply (Hk (category_name, b0 :: bs) b); [now left|].
        exact Hb. }
      rewrite Eh. cbn [bind]. rewrite Et. cbn [bind].
      eexists. split; [reflexivity|].
      intros id title rows c Hin. simpl in Hin.
      destruct Hin as [Hin|Hin]; [discriminate|].
      apply in_app_or in Hin. destruct Hin; eauto.
Qed.

(** [generate_sections_html] never raises, and every table and chart in it
    belongs to an operation of a benchmark that has rows. *)
Lemma generate_sections_html_items divan_data gungraun_data :
  exists html,
    ParseBench.generate_sections_html divan_data gungraun_data = Ok html
    /\ forall id title rows c,
         In (Html.BenchmarkItem id title rows c) html ->
         Spec.rendered_from divan_data id.
Proof.
  apply categories_html_items.
  intros cat b Hcat Hb. unfold ParseBench.categories_of in Hcat.
  simpl in Hcat.
  destruct Hcat as [<-|[<-|[<-|[<-|[]]]]]; simpl in Hb;
    apply filter_In in Hb; tauto.
Qed.

(** ** Sections without measurements *)

Lemma divan_lines_unrecognized under : forall st,
  (forall l, In l under -> Spec.unrecognized l) ->
  ParseBench.for_lines ParseBench.divan_line st under = Ok st.
Proof.
  induction under as [|l under IH]; intros [r c] H;
    cbn [ParseBench.for_lines]; [reflexivity|].
  destruct (H l (or_introl eq_refl)) as [Em Er].
  rewrite (divan_line_other _ _ _ Em (or_intror Er)). cbn [bind].
  apply IH. intros; apply H; now right.
Qed.

(** While another benchmark is active and no line names [b], the entry of
    [b] stays as it is. *)
Lemma divan_line_elsewhere b r c line r' c' :
  Spec.known_current (r, c) ->
  c <> Some b ->
  ~ Spec.names_section line b ->
  ParseBench.divan_line (r, c) line = Ok (r', c') ->
  c' <> Some b /\ Dict.get b r' = Dict.get b r.
Proof.
  intros Hk Hc Hn H.
  destruct (classify c line) as [b' Em|cur n l u Em Ec Ea Er|Em Eo].
  - rewrite (divan_line_section _ _ _ Em) in H. injection H as <- <-.
    assert (b' <> b).
    { intros ->. apply Hn. exists [(1, b)]. split; [assumption|reflexivity]. }
    split; [congruence|now apply get_set_other].
  - subst c. rewrite (divan_line_measure _ _ Em Ea Er) in H.
    destruct (Num.py_float l) as [v|]; [|discriminate]. cbn [bind] in H.
    destruct (subscript_known Hk eq_refl) as (e & S & _).
    rewrite S in H. cbn [bind] in H. injection H as <- <-.
    split; [assumption|apply get_set_other; congruence].
  - rewrite (divan_line_other _ _ _ Em Eo) in H. injection H as <- <-. auto.
Qed.

Lemma divan_lines_elsewhere b lines : forall r c r' c',
  Spec.known_current (r, c) ->
  c <> Some b ->
  (forall l, In l lines -> ~ Spec.names_section l b) ->
  ParseBench.for_lines ParseBench.divan_line (r, c) lines = Ok (r', c') ->
  Dict.get b r' = Dict.get b r.
Proof.
  induction lines as [|l lines IH]; intros r c r' c' Hk Hc Hn H; simpl in H.
  - now injection H as <- <-.
  - apply bind_ok in H. destruct H as ([r1 c1] & E & H).
    destruct (divan_line_elsewhere Hk Hc (Hn l (or_introl eq_refl)) E)
      as [Hc1 Hg].
    rewrite <- Hg. eapply IH; [| exact Hc1 | | exact H].
    + apply (proj1 (divan_line_known _ Hk E)).
    + intros; apply Hn; now right.
Qed.

Lemma deser_ser_ids_differ (a b : string) : a ++ "_ser" <> b ++ "_deser".
Proof.
  revert b; induction a as [|x a IH]; intros b H.
  - apply (f_equal String.length) in H. rewrite !length_append in H.
    simpl in H. lia.
  - destruct b as [|y b].
    + simpl in H. injection H as _ H.
      destruct a as [|x1 [|x2 a]]; simpl in H; try discriminate.
      apply (f_equal String.length) in H. simpl in H.
      rewrite !length_append in H. simpl in H. lia.
    + simpl in H. injection H as _ H. now apply IH in H.
Qed.

(** C7. A section line puts its benchmark in the model and nothing removes
    it; when no line under it is recognized and no later section reopens
    it, its entry has two empty operation maps.  For such an entry the
    report holds no table and no chart, and producing it raises nothing. *)
Theorem C7_empty_section_kept_and_skipped :
  forall pre line under rest b,
    Spec.names_section line b ->
    (forall l, In l under -> Spec.unrecognized l) ->
    Spec.starts_section rest ->
    (forall l, In l rest -> ~ Spec.names_section l b) ->
    (forall post results,
        ParseBench.parse_divan_lines (pre ++ line :: post) = Ok results ->
        Dict.mem b results = true)
    /\ (forall results,
           ParseBench.parse_divan_lines (pre ++ line :: under ++ rest)
           = Ok results ->
           Dict.get b results = Some ParseBench.empty_entry)
    /\ (forall divan_data gungraun_data,
           Dict.get b divan_data = Some ParseBench.empty_entry ->
           ParseBench.benchmark_sections gungraun_data b ParseBench.empty_entry
           = Ok []
           /\ exists html,
               ParseBench.generate_sections_html divan_data gungraun_data
               = Ok html
               /\ forall id title rows c,
                    In (Html.BenchmarkItem id title rows c) html ->
                    id <> b ++ "_deser" /\ id <> b ++ "_ser").
Proof.
  intros pre line under rest b Hsec Hunder Hstart Hrest.
  apply names_section_groups in Hsec.
  assert (Hline : forall post results,
             ParseBench.parse_divan_lines (pre ++ line :: post) = Ok results ->
             exists r0 c0 st,
               Spec.known_current (r0, c0)
               /\ ParseBench.for_lines ParseBench.divan_line
                    (Dict.set b ParseBench.empty_entry r0, Some b) post = Ok st
               /\ results = fst st).
  { intros post results H. unfold ParseBench.parse_divan_lines in H.
    apply bind_ok in H. destruct H as (st & H & E). injection E as <-.
    rewrite for_lines_app in H. apply bind_ok in H.
    destruct H as ([r0 c0] & Hpre & H).
    cbn [ParseBench.for_lines] in H.
    rewrite (divan_line_section _ _ _ Hsec) in H. cbn [bind] in H.
    exists r0, c0, st. repeat split; [|assumption].
    apply (proj1 (divan_lines_known _ known_initial Hpre)). }
  assert (Hk1 : forall r0,
             Spec.known_current (Dict.set b ParseBench.empty_entry r0, Some b)).
  { intros r0 c Hc. cbn [fst snd] in *. injection Hc as <-.
    apply mem_set_same. }
  split; [|split].
  - intros post results H.
    destruct (Hline _ _ H) as (r0 & c0 & st & Hk0 & Hpost & ->).
    apply (proj2 (divan_lines_known _ (Hk1 r0) Hpost)).
    apply mem_set_same.
  - intros results H.
    destruct (Hline _ _ H) as (r0 & c0 & [r' c'] & Hk0 & Hpost & ->).
    rewrite for_lines_app, (divan_lines_unrecognized _ _ Hunder) in Hpost.
    cbn [bind] in Hpost. cbn [fst].
    destruct rest as [|l rest].
    + simpl in Hpost. injection Hpost as <- <-. apply get_set_same.
    + simpl in Hstart. unfold Spec.section_line in Hstart.
      destruct (Re.re_match ParseBench.module_re l) as [m|] eqn:Em;
        [|contradiction].
      destruct (module_re_groups _ Em) as (b' & -> & _).
      cbn [ParseBench.for_lines] in Hpost.
      rewrite (divan_line_section _ _ _ Em) in Hpost. cbn [bind] in Hpost.
      assert (Hne : b' <> b).
      { intros ->. apply (Hrest l (or_introl eq_refl)).
        exists [(1, b)]. split; [assumption|reflexivity]. }
      assert (K : Spec.known_current
                    (Dict.set b' ParseBench.empty_entry
                       (Dict.set b ParseBench.empty_entry r0), Some b')).
      { intros c Hc. cbn [fst snd] in *. injection Hc as <-.
        apply mem_set_same. }
      assert (Hc : Some b' <> Some b) by congruence.
      rewrite (@divan_lines_elsewhere b rest _ _ _ _ K Hc
                 (fun l0 Hl => Hrest l0 (or_intror Hl)) Hpost).
      rewrite get_set_other by assumption. apply get_set_same.
  - intros divan_data gungraun_data Hget. split; [reflexivity|].
    destruct (generate_sections_html_items divan_data gungraun_data)
      as (html & -> & Hitems).
    exists html. split; [reflexivity|].
    intros id title rows c Hin.
    destruct (Hitems _ _ _ _ Hin) as (b' & e' & He' & [[-> Hd]|[-> Hs]]).
    + split.
      * intros E. apply append_cancel_r in E. subst b'.
        rewrite Hget in He'. injection He' as <-. now apply Hd.
      * intros E. symmetry in E. now apply deser_ser_ids_differ in E.
    + split.
      * intros E. now apply deser_ser_ids_differ in E.
      * intros E. apply append_cancel_r in E. subst b'.
        rewrite Hget in He'. injection He' as <-. now apply Hs.
Qed.

Lemma C7_witness :
  exists results,
    ParseBench.parse_divan_lines
      ([] ++ Sample.empty_section_line
          :: [Sample.decoration_line] ++ Sample.after_empty_section)
    = Ok results
    /\ Dict.get "booleans" results = Some ParseBench.empty_entry
    /\ exists html,
        ParseBench.generate_sections_html results Dict.empty = Ok html
        /\ forall id title rows c,
             In (Html.BenchmarkItem id title rows c) html ->
             id <> "booleans" ++ "_deser" /\ id <> "booleans" ++ "_ser".
Proof.
  destruct (@C7_empty_section_kept_and_skipped
              [] Sample.empty_section_line [Sample.decoration_line]
              Sample.after_empty_section "booleans") as (_ & H2 & H3).
  - exists [(1, "booleans")]. split; vm_compute; reflexivity.
  - intros l [<-|[]]. split; vm_compute; reflexivity.
  - vm_compute. discriminate.
  - intros l [<-|[<-|[]]] (m & Em & Hg); vm_compute in Em.
    + injection Em as <-. vm_compute in Hg. discriminate.
    + discriminate.
  - assert (E : exists results,
               ParseBench.parse_divan_lines
                 ([] ++ Sample.empty_section_line
                     :: [Sample.decoration_line] ++ Sample.after_empty_section)
               = Ok results) by (vm_compute; eauto).
    destruct E as [results E]. exists results.
    split; [exact E|]. split; [exact (H2 _ E)|].
    exact (proj2 (H3 results Dict.empty (H2 _ E))).
Defined.

(** ** Cells of the table *)

Lemma append_x_not_dash (s : string) : s ++ "x" <> "-".
Proof.
  destruct s as [|a [|b s]]; simpl; discriminate.
Qed.

Lemma Qltb_lt x y : Num.Qltb x y = true -> (x < y)%Q.
Proof.
  unfold Num.Qltb. intros H. apply negb_true_iff in H.
  apply Qnot_le_lt. intros Hle. apply Qle_bool_iff in Hle. congruence.
Qed.

(** The baseline cell shows a ratio only for a positive value. *)
Lemma vs_serde_cell_shown q :
  ParseBench.vs_serde_cell q <> "-" <-> Num.Qltb 0 q = true.
Proof.
  unfold ParseBench.vs_serde_cell. destruct (Num.Qltb 0 q).
  - split; [reflexivity|]. intros _. apply append_x_not_dash.
  - split; [congruence|discriminate].
Qed.

(** The value behind the baseline cell is zero unless the baseline is there
    with a positive duration. *)
Lemma vs_serde_of_cases time_ns serde_time q :
  ParseBench.vs_serde_of time_ns serde_time = Ok q ->
  q = 0%Q
  \/ exists s, serde_time = Some s /\ (0 < s)%Q /\ q = (time_ns / s)%Q.
Proof.
  unfold ParseBench.vs_serde_of. destruct serde_time as [s|]; [|left; congruence].
  destruct (Qeq_bool s 0) eqn:E; simpl; [left; congruence|].
  destruct (Num.Qltb 0 s) eqn:L; [|left; congruence].
  rewrite (py_div_ok _ _ E). intros H. injection H as <-.
  right. exists s. repeat split. now apply Qltb_lt.
Qed.

Lemma table_row_vs_serde bench_name gungraun_data serde_time fastest_time
      item row :
  ParseBench.table_row_of bench_name gungraun_data serde_time fastest_time item
  = Ok (Some row) ->
  exists q, ParseBench.vs_serde_of (snd item) serde_time = Ok q
            /\ Html.vs_serde_str row = ParseBench.vs_serde_cell q.
Proof.
  destruct item as [target time_ns]. unfold ParseBench.table_row_of.
  destruct (Dict.mem target ParseBench.TARGETS); simpl; [|discriminate].
  destruct (ParseBench.subscript target ParseBench.TARGETS) as [config|];
    [|discriminate].
  cbn [bind].
  destruct (ParseBench.vs_serde_of time_ns serde_time) as [q|];
    [|discriminate].
  cbn [bind]. intros H. injection H as <-. now exists q.
Qed.

(** C10. When the instruction dataset has an entry for the row's key whose
    "Instructions" value is 0, the instructions cell of the row is "-", and
    the whole row is the one a dataset without that key gives. *)
Theorem C10_zero_instructions_shown_as_absent :
  forall bench_name gungraun_data serde_time fastest_time target time_ns
         metrics row,
    Dict.get (bench_name ++ "_" ++ target) gungraun_data = Some metrics ->
    Dict.get "Instructions" metrics = Some 0%N ->
    ParseBench.table_row_of bench_name gungraun_data serde_time fastest_time
      (target, time_ns) = Ok (Some row) ->
    Html.instructions_str row = "-"
    /\ forall unmatched,
         Dict.get (bench_name ++ "_" ++ target) unmatched = None ->
         ParseBench.table_row_of bench_name unmatched serde_time fastest_time
           (target, time_ns) = Ok (Some row).
Proof.
  intros bench_name gungraun_data serde_time fastest_time target time_ns
         metrics row Hkey Hzero.
  unfold ParseBench.table_row_of.
  destruct (Dict.mem target ParseBench.TARGETS); cbn [negb];
    [|discriminate].
  destruct (ParseBench.subscript target ParseBench.TARGETS) as [config|];
    [|discriminate].
  cbn [bind].
  destruct (ParseBench.vs_serde_of time_ns serde_time) as [q|];
    [|discriminate].
  cbn [bind]. unfold ParseBench.lookup_instructions.
  rewrite Hkey, Hzero. intros H. injection H as <-.
  split; [reflexivity|].
  intros unmatched Hnone. now rewrite Hnone.
Qed.

Lemma C10_witness :
  exists row,
    ParseBench.table_row_of "simple_struct" Sample.zero_instructions
      (Some (2500 # 1)%Q) (1046 # 1)%Q ("serde_json", (2500 # 1)%Q)
    = Ok (Some row)
    /\ Html.instructions_str row = "-"
    /\ forall unmatched,
         Dict.get ("simple_struct" ++ "_" ++ "serde_json") unmatched = None ->
         ParseBench.table_row_of "simple_struct" unmatched
           (Some (2500 # 1)%Q) (1046 # 1)%Q ("serde_json", (2500 # 1)%Q)
         = Ok (Some row).
Proof.
  assert (E : exists row,
             ParseBench.table_row_of "simple_struct" Sample.zero_instructions
               (Some (2500 # 1)%Q) (1046 # 1)%Q ("serde_json", (2500 # 1)%Q)
             = Ok (Some row)) by (vm_compute; eauto).
  destruct E as [row E]. exists row. split; [exact E|].
  apply (@C10_zero_instructions_shown_as_absent
           "simple_struct" Sample.zero_instructions (Some (2500 # 1)%Q)
           (1046 # 1)%Q "serde_json" (2500 # 1)%Q [("Instructions", 0%N)] row);
    [vm_compute; reflexivity | vm_compute; reflexivity | exact E].
Defined.

(** ** Malformed numbers *)

(** The instruction parser of [parse_bench.py] takes every line: a value
    that [int] rejects leaves the state as it was. *)
Lemma gungraun_line_total st line :
  Spec.known_current st ->
  exists st', ParseBench.gungraun_line st line = Ok st'
              /\ Spec.known_current st'.
Proof.
  destruct st as [results current]. intros Hk.
  unfold ParseBench.gungraun_line.
  destruct (Re.re_match ParseBench.name_re line) as [m|] eqn:En.
  - destruct (name_re_groups _ En) as (b & -> & _). simpl.
    eexists. split; [reflexivity|].
    intros c Hc. cbn [fst snd] in *. injection Hc as <-. apply mem_set_same.
  - destruct (ParseBench.active current) as [cur|] eqn:Ea; [|eauto].
    destruct (Re.re_match ParseBench.metric_re line) as [m|] eqn:Em; [|eauto].
    destruct (fun G => @label_value_re_groups _ line m G Em)
      as (label & digits & before & rest & -> & _ & Hd & _); [reflexivity|].
    cbn [ParseBench.m_group Re.group Nat.eqb bind].
    destruct (Num.py_int _) as [n|e] eqn:Ei.
    + apply active_some in Ea.
      destruct (subscript_known Hk Ea) as (metrics & -> & _). cbn [bind].
      eexists. split; [reflexivity|].
      intros c Hc. cbn [fst snd] in *. apply mem_set. now apply Hk.
    + rewrite (py_int_raises _ Ei). eauto.
Qed.

Lemma parse_gungraun_total text :
  exists results, ParseBench.parse_gungraun_output text = Ok results.
Proof.
  unfold ParseBench.parse_gungraun_output, ParseBench.parse_gungraun_lines.
  assert (H : forall lines st,
             Spec.known_current st ->
             exists st',
               ParseBench.for_lines ParseBench.gungraun_line st lines = Ok st').
  { induction lines as [|l lines IH]; intros st Hk; simpl; [eauto|].
    destruct (gungraun_line_total l Hk) as (st1 & -> & Hk1). cbn [bind].
    now apply IH. }
  destruct (H (Str.split ParseBench.newline text) (Dict.empty, None)
              known_initial) as [st ->].
  cbn [bind]. eauto.
Qed.

(** C2. The line "│  ├─ facet_json_deserialize  1.2.3 µs" has the shape of a
    measurement line and its number is not a literal.  [float] raises on it
    and nothing in the statistical parser catches that: parsing the text
    raises ValueError in both scripts, and the run of [parse_bench.py] ends
    with status 1 and no report.  The lines around it are lost with it. *)
Theorem C2_malformed_literal_aborts_statistical_parser :
  Re.re_match ParseBench.result_re Sample.malformed_line
  = Some [(3, "µs"); (2, "1.2.3"); (1, "facet_json_deserialize")]
  /\ Num.py_float "1.2.3" = Raise ValueError
  /\ ParseBench.parse_divan_output Sample.malformed_text = Raise ValueError
  /\ ParseBenchLegacy.parse_divan_output Sample.malformed_text
     = Raise ValueError
  /\ ParseBench.main Sample.argv_divan_gungraun Sample.malformed_files
       "2026-01-01 00:00:00" None
     = Proc.crash ValueError.
Proof. repeat split; vm_compute; reflexivity. Qed.

(** ** Input files *)

Lemma input_missing_as_empty fs p q :
  fs p = Proc.Missing ->
  (if Proc.path_exists (Proc.with_file p (Proc.Regular "") fs) q
   then Proc.read_text (Proc.with_file p (Proc.Regular "") fs) q
   else Ok "")
  = (if Proc.path_exists fs q then Proc.read_text fs q else Ok "").
Proof.
  intros Hp. unfold Proc.path_exists, Proc.read_text, Proc.with_file.
  destruct (String.eqb_spec q p) as [->|_]; [now rewrite Hp|reflexivity].
Qed.

Lemma build_report_missing_as_empty fs now git p divan_file gungraun_file :
  fs p = Proc.Missing ->
  ParseBench.build_report (Proc.with_file p (Proc.Regular "") fs) now git
    divan_file gungraun_file
  = ParseBench.build_report fs now git divan_file gungraun_file.
Proof.
  intros Hp. unfold ParseBench.build_report.
  now rewrite !(@input_missing_as_empty fs p _ Hp).
Qed.

(** An empty file in the place of a missing one can be written over as the
    missing one can be created. *)
Lemma write_missing_as_empty fs p q :
  fs p = Proc.Missing ->
  Proc.write_text (Proc.with_file p (Proc.Regular "") fs) q
  = Proc.write_text fs q.
Proof.
  intros Hp. unfold Proc.write_text, Proc.with_file.
  destruct (String.eqb_spec q p) as [->|_]; [now rewrite Hp|reflexivity].
Qed.

Lemma main_missing_as_empty argv fs now git p :
  fs p = Proc.Missing ->
  ParseBench.main argv (Proc.with_file p (Proc.Regular "") fs) now git
  = ParseBench.main argv fs now git.
Proof.
  intros Hp. unfold ParseBench.main.
  now rewrite (@build_report_missing_as_empty fs now git p _ _ Hp),
    (@write_missing_as_empty fs p _ Hp).
Qed.

(** A run that got to an error has status 1 and has written nothing. *)
Lemma crash_outcome {doc} (e : exn) :
  Proc.exit_code (@Proc.crash doc e) = 1%Z
  /\ Proc.written (@Proc.crash doc e) = [].
Proof. split; reflexivity. Qed.

(** The earlier script never writes a report: with two paths given, the
    unbound name in [generate_html_report] ends every run that got so far. *)
Lemma legacy_main_never_writes argv fs now git :
  Proc.exit_code (ParseBenchLegacy.main argv fs now git) = 1%Z
  /\ Proc.written (ParseBenchLegacy.main argv fs now git) = [].
Proof.
  unfold ParseBenchLegacy.main.
  destruct (Nat.ltb (List.length argv) 3); [split; reflexivity|].
  match goal with
  | |- context [match ?run with Ok _ => _ | Raise _ => _ end] =>
      destruct run as [[[html n] k]|err] eqn:E
  end; [|split; reflexivity].
  exfalso.
  do 5 (apply bind_ok in E; destruct E as (? & _ & E)).
  apply bind_ok in E. destruct E as (? & E & _).
  unfold ParseBenchLegacy.generate_html_report in E.
  apply bind_ok in E. destruct E as (? & _ & E). discriminate.
Qed.

(** A run of [parse_bench.py] with an input that is there and cannot be
    read, or is not text, ends with status 1 and no report. *)
Lemma main_bad_input argv fs now git :
  (3 <= List.length argv)%nat ->
  (exists e,
      (if Proc.path_exists fs (Proc.arg 1 argv)
       then Proc.read_text fs (Proc.arg 1 argv) else Ok "") = Raise e)
  \/ (exists e,
         (if Proc.path_exists fs (Proc.arg 2 argv)
          then Proc.read_text fs (Proc.arg 2 argv) else Ok "") = Raise e) ->
  Proc.exit_code (ParseBench.main argv fs now git) = 1%Z
  /\ Proc.written (ParseBench.main argv fs now git) = [].
Proof.
  intros H Hbad. unfold ParseBench.main.
  apply Nat.ltb_ge in H. rewrite H.
  destruct (ParseBench.build_report fs now git (Proc.arg 1 argv)
              (Proc.arg 2 argv)) as [[html dd]|err] eqn:E;
    [|apply crash_outcome].
  exfalso. unfold ParseBench.build_report in E.
  apply bind_ok in E. destruct E as (t1 & E1 & E).
  apply bind_ok in E. destruct E as (d & _ & E).
  apply bind_ok in E. destruct E as (t2 & E2 & _).
  destruct Hbad as [[e He]|[e He]]; congruence.
Qed.

(** C1, as the code has it.  A missing input file is read as an empty text:
    the run of [parse_bench.py] goes on as it would with an empty file at
    that path, and with both inputs missing and an output path that can be
    written it writes the report and ends with status 0.  The run ends with
    status 1 without a report when fewer than two paths are given; when an
    input is there but cannot be read (the uncaught error names the path
    that was being read); when an input is not text in the encoding in use;
    and when the report cannot be written (the error names the output
    path). *)
Theorem C1_missing_input_read_as_empty :
  forall argv fs now git,
    ((List.length argv < 3)%nat ->
     Proc.exit_code (ParseBench.main argv fs now git) = 1%Z
     /\ Proc.written (ParseBench.main argv fs now git) = [])
    /\ (fs (Proc.arg 1 argv) = Proc.Missing ->
        ParseBench.main argv
          (Proc.with_file (Proc.arg 1 argv) (Proc.Regular "") fs) now git
        = ParseBench.main argv fs now git)
    /\ (fs (Proc.arg 2 argv) = Proc.Missing ->
        ParseBench.main argv
          (Proc.with_file (Proc.arg 2 argv) (Proc.Regular "") fs) now git
        = ParseBench.main argv fs now git)
    /\ ((3 <= List.length argv)%nat ->
        fs (Proc.arg 1 argv) = Proc.Missing ->
        fs (Proc.arg 2 argv) = Proc.Missing ->
        Proc.write_text fs (Proc.output_path argv) = Ok tt ->
        Proc.exit_code (ParseBench.main argv fs now git) = 0%Z
        /\ Proc.traceback (ParseBench.main argv fs now git) = None
        /\ exists head,
            Proc.written (ParseBench.main argv fs now git)
            = [(Proc.output_path argv,
                [head; Html.InteractiveJs; Html.Footer])])
    /\ ((3 <= List.length argv)%nat ->
        fs (Proc.arg 1 argv) = Proc.Unreadable ->
        ParseBench.main argv fs now git
        = Proc.crash (OSError (Proc.arg 1 argv)))
    /\ ((3 <= List.length argv)%nat ->
        fs (Proc.arg 2 argv) = Proc.Unreadable ->
        Proc.exit_code (ParseBench.main argv fs now git) = 1%Z
        /\ Proc.written (ParseBench.main argv fs now git) = []
        /\ forall divan_text divan_data,
             (if Proc.path_exists fs (Proc.arg 1 argv)
              then Proc.read_text fs (Proc.arg 1 argv) else Ok "")
             = Ok divan_text ->
             ParseBench.parse_divan_output divan_text = Ok divan_data ->
             ParseBench.main argv fs now git
             = Proc.crash (OSError (Proc.arg 2 argv)))
    /\ ((3 <= List.length argv)%nat ->
        fs (Proc.arg 1 argv) = Proc.Undecodable ->
        ParseBench.main argv fs now git = Proc.crash UnicodeDecodeError)
    /\ ((3 <= List.length argv)%nat ->
        fs (Proc.arg 2 argv) = Proc.Undecodable ->
        Proc.exit_code (ParseBench.main argv fs now git) = 1%Z
        /\ Proc.written (ParseBench.main argv fs now git) = []
        /\ forall divan_text divan_data,
             (if Proc.path_exists fs (Proc.arg 1 argv)
              then Proc.read_text fs (Proc.arg 1 argv) else Ok "")
             = Ok divan_text ->
             ParseBench.parse_divan_output divan_text = Ok divan_data ->
             ParseBench.main argv fs now git
             = Proc.crash UnicodeDecodeError)
    /\ ((3 <= List.length argv)%nat ->
        Proc.write_text fs (Proc.output_path argv)
        = Raise (OSError (Proc.output_path argv)) ->
        Proc.exit_code (ParseBench.main argv fs now git) = 1%Z
        /\ Proc.written (ParseBench.main argv fs now git) = []
        /\ forall html divan_data,
             ParseBench.build_report fs now git (Proc.arg 1 argv)
               (Proc.arg 2 argv) = Ok (html, divan_data) ->
             ParseBench.main argv fs now git
             = Proc.crash (OSError (Proc.output_path argv))).
Proof.
  intros argv fs now git.
  split; [|split; [|split; [|split; [|split; [|split; [|split; [|split]]]]]]].
  - intros H. unfold ParseBench.main. apply Nat.ltb_lt in H. rewrite H.
    split; reflexivity.
  - apply main_missing_as_empty.
  - apply main_missing_as_empty.
  - intros H H1 H2 Hw.
    unfold ParseBench.main, ParseBench.build_report, Proc.path_exists.
    apply Nat.ltb_ge in H. rewrite H, H1, H2.
    destruct git as [[commit branch]|];
      (cbn [bind]; rewrite Hw;
       split; [reflexivity|split; [reflexivity|eexists; reflexivity]]).
  - intros H H1.
    unfold ParseBench.main, ParseBench.build_report, Proc.path_exists,
      Proc.read_text.
    apply Nat.ltb_ge in H. rewrite H, H1. reflexivity.
  - intros H H2.
    assert (Hread : (if Proc.path_exists fs (Proc.arg 2 argv)
                     then Proc.read_text fs (Proc.arg 2 argv) else Ok "")
                    = Raise (OSError (Proc.arg 2 argv)))
      by (unfold Proc.path_exists, Proc.read_text; now rewrite H2).
    destruct (@main_bad_input argv fs now git H) as [He Hw];
      [right; eauto|].
    split; [exact He|]. split; [exact Hw|].
    intros divan_text divan_data E1 E2.
    unfold ParseBench.main, ParseBench.build_report.
    apply Nat.ltb_ge in H. rewrite H, E1. cbn [bind].
    rewrite E2. cbn [bind]. now rewrite Hread.
  - intros H H1.
    unfold ParseBench.main, ParseBench.build_report, Proc.path_exists,
      Proc.read_text.
    apply Nat.ltb_ge in H. rewrite H, H1. reflexivity.
  - intros H H2.
    assert (Hread : (if Proc.path_exists fs (Proc.arg 2 argv)
                     then Proc.read_text fs (Proc.arg 2 argv) else Ok "")
                    = Raise UnicodeDecodeError)
      by (unfold Proc.path_exists, Proc.read_text; now rewrite H2).
    destruct (@main_bad_input argv fs now git H) as [He Hw];
      [right; eauto|].
    split; [exact He|]. split; [exact Hw|].
    intros divan_text divan_data E1 E2.
    unfold ParseBench.main, ParseBench.build_report.
    apply Nat.ltb_ge in H. rewrite H, E1. cbn [bind].
    rewrite E2. cbn [bind]. now rewrite Hread.
  - intros H Hw. unfold ParseBench.main.
    apply Nat.ltb_ge in H. rewrite H.
    destruct (ParseBench.build_report fs now git (Proc.arg 1 argv)
                (Proc.arg 2 argv)) as [[html dd]|err] eqn:E.
    + rewrite Hw. split; [reflexivity|]. split; [reflexivity|].
      intros; reflexivity.
    + split; [reflexivity|]. split; [reflexivity|]. intros; discriminate.
Qed.

(** C1, as the claim has it, fails: with both input paths missing the run
    ends with status 0 and writes a report. *)
Lemma C1_counterexample :
  Proc.no_files "divan.txt" = Proc.Missing
  /\ Proc.no_files "gungraun.txt" = Proc.Missing
  /\ Proc.exit_code
       (ParseBench.main Sample.argv_divan_gungraun Proc.no_files
          "2026-01-01 00:00:00" None) = 0%Z
  /\ Proc.traceback
       (ParseBench.main Sample.argv_divan_gungraun Proc.no_files
          "2026-01-01 00:00:00" None) = None
  /\ exists doc,
      Proc.written
        (ParseBench.main Sample.argv_divan_gungraun Proc.no_files
           "2026-01-01 00:00:00" None)
      = [("bench-report.html", doc)].
Proof. repeat split. eexists. vm_compute. reflexivity. Qed.

Lemma C1_witness :
  Proc.exit_code
    (ParseBench.main Sample.argv_divan_gungraun Proc.no_files
       "2026-01-01 00:00:00" None) = 0%Z
  /\ ParseBench.main Sample.argv_divan_gungraun
       (Proc.with_file "divan.txt" Proc.Unreadable Proc.no_files)
       "2026-01-01 00:00:00" None
     = Proc.crash (OSError "divan.txt")
  /\ ParseBench.main Sample.argv_divan_gungraun
       (Proc.with_file "gungraun.txt" Proc.Unreadable Proc.no_files)
       "2026-01-01 00:00:00" None
     = Proc.crash (OSError "gungraun.txt")
  /\ ParseBench.main Sample.argv_divan_gungraun
       (Proc.with_file "gungraun.txt" Proc.Undecodable Proc.no_files)
       "2026-01-01 00:00:00" None
     = Proc.crash UnicodeDecodeError
  /\ ParseBench.main Inputs.argv_unwritable Inputs.unwritable_files
       "2026-01-01 00:00:00" None
     = Proc.crash (OSError "nodir/out.html").
Proof.
  destruct (C1_missing_input_read_as_empty Sample.argv_divan_gungraun
              Proc.no_files "2026-01-01 00:00:00" None)
    as (_ & _ & _ & Hboth & _).
  destruct (C1_missing_input_read_as_empty Sample.argv_divan_gungraun
              (Proc.with_file "divan.txt" Proc.Unreadable Proc.no_files)
              "2026-01-01 00:00:00" None)
    as (_ & _ & _ & _ & Hunreadable & _).
  destruct (C1_missing_input_read_as_empty Sample.argv_divan_gungraun
              (Proc.with_file "gungraun.txt" Proc.Unreadable Proc.no_files)
              "2026-01-01 00:00:00" None)
    as (_ & _ & _ & _ & _ & Hsecond & _).
  destruct (C1_missing_input_read_as_empty Sample.argv_divan_gungraun
              (Proc.with_file "gungraun.txt" Proc.Undecodable Proc.no_files)
              "2026-01-01 00:00:00" None)
    as (_ & _ & _ & _ & _ & _ & _ & Hdecode & _).
  destruct (C1_missing_input_read_as_empty Inputs.argv_unwritable
              Inputs.unwritable_files "2026-01-01 00:00:00" None)
    as (_ & _ & _ & _ & _ & _ & _ & _ & Hwrite).
  split; [|split; [|split; [|split]]].
  - apply Hboth; [simpl; lia|reflexivity|reflexivity|reflexivity].
  - apply Hunreadable; [simpl; lia|reflexivity].
  - destruct Hsecond as (_ & _ & H); [simpl; lia|reflexivity|].
    apply (H "" []); reflexivity.
  - destruct Hdecode as (_ & _ & H); [simpl; lia|reflexivity|].
    apply (H "" []); reflexivity.
  - destruct Hwrite as (_ & _ & H); [simpl; lia|reflexivity|].
    assert (E : exists html divan_data,
               ParseBench.build_report Inputs.unwritable_files
                 "2026-01-01 00:00:00" None
                 (Proc.arg 1 Inputs.argv_unwritable)
                 (Proc.arg 2 Inputs.argv_unwritable)
               = Ok (html, divan_data))
      by (vm_compute; do 2 eexists; reflexivity).
    destruct E as (html & divan_data & E). exact (H html divan_data E).
Defined.

(** ** Fastest first *)

Lemma Qle_bool_false x y : Qle_bool x y = false -> (y <= x)%Q.
Proof.
  intros H. apply Qlt_le_weak, Qnot_le_lt. intros Hle.
  apply Qle_bool_iff in Hle. congruence.
Qed.

(** [min] returns a value of the list that is below all of them. *)
Lemma min_from_spec xs : forall m,
  In (Num.min_from m xs) (m :: xs)
  /\ forall x, In x (m :: xs) -> (Num.min_from m xs <= x)%Q.
Proof.
  induction xs as [|x xs IH]; intros m; simpl.
  - split; [now left|]. intros y [<-|[]]. apply Qle_refl.
  - destruct (IH (if Num.Qltb x m then x else m)) as [Hin Hle].
    unfold Num.Qltb in *. destruct (Qle_bool m x) eqn:E; simpl in *.
    + split; [destruct Hin; auto|].
      intros y [<-|[<-|Hy]]; auto.
      apply Qle_trans with m; [auto|now apply Qle_bool_iff].
    + split; [destruct Hin; auto|].
      intros y [<-|[<-|Hy]]; auto.
      apply Qle_trans with x; [auto|now apply Qle_bool_false].
Qed.

Lemma insert_perm x l : Permutation (x :: l) (Num.insert_by_value x l).
Proof.
  induction l as [|y l IH]; simpl; [reflexivity|].
  destruct (Qle_bool (snd x) (snd y)); [reflexivity|].
  rewrite perm_swap. now apply perm_skip.
Qed.

Lemma sorted_perm l : Permutation l (Num.sorted_by_value l).
Proof.
  induction l as [|x l IH]; simpl; [reflexivity|].
  rewrite <- insert_perm. now apply perm_skip.
Qed.

Lemma insert_sorted x l :
  StronglySorted Spec.value_le l ->
  StronglySorted Spec.value_le (Num.insert_by_value x l).
Proof.
  induction 1 as [|y l Hs IH Hall]; simpl.
  - repeat constructor.
  - destruct (Qle_bool (snd x) (snd y)) eqn:E.
    + apply Qle_bool_iff in E.
      constructor; [now constructor|].
      constructor; [exact E|].
      eapply Forall_impl; [|exact Hall].
      intros z Hz. unfold Spec.value_le in *. now apply Qle_trans with (snd y).
    + constructor; [exact IH|].
      apply (Permutation_Forall (insert_perm x l)).
      constructor; [now apply Qle_bool_false|exact Hall].
Qed.

Lemma sorted_sorted l : StronglySorted Spec.value_le (Num.sorted_by_value l).
Proof.
  induction l as [|x l IH]; simpl; [constructor|now apply insert_sorted].
Qed.

(** Rows of equal duration keep the order they were first seen in. *)
Lemma insert_filter v x l :
  filter (Spec.has_value v) (Num.insert_by_value x l)
  = filter (Spec.has_value v) (x :: l).
Proof.
  induction l as [|y l IH]; simpl; [reflexivity|].
  destruct (Qle_bool (snd x) (snd y)) eqn:E; [reflexivity|].
  simpl. rewrite IH. simpl.
  destruct (Spec.has_value v x) eqn:Hx, (Spec.has_value v y) eqn:Hy;
    try reflexivity.
  exfalso. unfold Spec.has_value in *.
  apply Qeq_bool_iff in Hx, Hy.
  assert (Hle : (snd x <= snd y)%Q) by (rewrite Hx, Hy; apply Qle_refl).
  apply Qle_bool_iff in Hle. congruence.
Qed.

Lemma sorted_stable v l :
  filter (Spec.has_value v) (Num.sorted_by_value l)
  = filter (Spec.has_value v) l.
Proof.
  induction l as [|x l IH]; simpl; [reflexivity|].
  rewrite insert_filter. simpl. now rewrite IH.
Qed.

Lemma ratio_at_least_one t f :
  (0 < f)%Q -> (f <= t)%Q -> (1 <= t / f)%Q.
Proof.
  intros Hf Hle. apply Qle_shift_div_l; [assumption|].
  now rewrite Qmult_1_l.
Qed.

Lemma ratio_one_iff t f :
  (0 < f)%Q -> ((t / f == 1)%Q <-> (t == f)%Q).
Proof.
  intros Hf.
  assert (Hnz : ~ (f == 0)%Q).
  { intros E. rewrite E in Hf. now apply Qlt_irrefl in Hf. }
  split; intros H.
  - rewrite <- (Qmult_div_r t f Hnz). rewrite H. apply Qmult_1_r.
  - rewrite H. unfold Qdiv. now apply Qmult_inv_r.
Qed.

Lemma ratio_to_fastest_ok t f :
  (0 < f)%Q ->
  ParseBenchLegacy.ratio_to_fastest t f = Ok (Some (t / f)%Q).
Proof.
  intros Hf. unfold ParseBenchLegacy.ratio_to_fastest, Num.Qltb.
  assert (E : Qle_bool f 0 = false).
  { destruct (Qle_bool f 0) eqn:E; [|reflexivity].
    apply Qle_bool_iff in E. exfalso. now apply (Qlt_not_le _ _ Hf). }
  rewrite E. simpl.
  assert (Z : Qeq_bool f 0 = false).
  { destruct (Qeq_bool f 0) eqn:Z; [|reflexivity].
    apply Qeq_bool_iff in Z. rewrite Z in Hf. now apply Qlt_irrefl in Hf. }
  now rewrite (py_div_ok _ _ Z).
Qed.

Lemma ratio_to_baseline_total t serde_time :
  exists r, ParseBenchLegacy.ratio_to_baseline t serde_time = Ok r.
Proof.
  unfold ParseBenchLegacy.ratio_to_baseline.
  destruct serde_time as [s|]; [|eauto].
  destruct (Qeq_bool s 0) eqn:Z; simpl; [eauto|].
  destruct (Num.Qltb 0 s); [|eauto].
  rewrite (py_div_ok _ _ Z). simpl. eauto.
Qed.

(** * Further properties *)

(** ** The matcher finds the greedy match *)

Lemma strip_prefix_of_append (l s : string) :
  Str.strip_prefix l (l ++ s) = Some s.
Proof.
  induction l as [|a l IH]; simpl; [reflexivity|].
  now rewrite Ascii.eqb_refl.
Qed.

Lemma run_lit {A} l s c (k : string -> Re.caps -> option A) :
  Re.run (Re.Lit l) (l ++ s) c k = k s c.
Proof. simpl. now rewrite strip_prefix_of_append. Qed.

Lemma run_alt_l {A} r1 r2 s c (k : string -> Re.caps -> option A) x :
  Re.run r1 s c k = Some x -> Re.run (Re.Alt r1 r2) s c k = Some x.
Proof. intros H. simpl. now rewrite H. Qed.

Lemma run_alt_r {A} r1 r2 s c (k : string -> Re.caps -> option A) :
  Re.run r1 s c k = None ->
  Re.run (Re.Alt r1 r2) s c k = Re.run r2 s c k.
Proof. intros H. simpl. now rewrite H. Qed.

(** A run of characters of a class that ends where the class ends is taken
    whole when the rest of the pattern accepts what follows. *)
Lemma star_loop_greedy {A} p (k : string -> Re.caps -> option A) x s c :
  Gen.stops p s -> k s c = Some x ->
  forall w n,
    Str.all p w = true -> String.length w <= n ->
    Re.star_loop (Re.run (Re.Cls p)) k n (w ++ s) c = Some x.
Proof.
  intros Hs Hk. induction w as [|b w IH]; intros n Hw Hn.
  - change ("" ++ s) with s. destruct n as [|n]; [exact Hk|].
    cbn [Re.star_loop Re.run].
    destruct s as [|a s]; [exact Hk|]. simpl in Hs. now rewrite Hs.
  - simpl in Hw. apply andb_prop in Hw. destruct Hw as [Hb Hw].
    destruct n as [|n]; [simpl in Hn; lia|].
    change (String b w ++ s) with (String b (w ++ s)).
    cbn [Re.star_loop Re.run]. rewrite Hb.
    assert (L : Nat.ltb (String.length (w ++ s))
                        (String.length (String b (w ++ s))) = true)
      by (apply Nat.ltb_lt; simpl; lia).
    rewrite L. rewrite IH; [reflexivity|assumption|simpl in Hn; lia].
Qed.

Lemma run_star_greedy {A} p (k : string -> Re.caps -> option A) x w s c :
  Str.all p w = true -> Gen.stops p s -> k s c = Some x ->
  Re.run (Re.Star (Re.Cls p)) (w ++ s) c k = Some x.
Proof.
  intros Hw Hs Hk. rewrite run_star.
  apply star_loop_greedy; try assumption.
  rewrite length_append. lia.
Qed.

Lemma run_plus_greedy {A} p (k : string -> Re.caps -> option A) x w s c :
  Str.all p w = true -> w <> "" -> Gen.stops p s -> k s c = Some x ->
  Re.run (Re.Plus (Re.Cls p)) (w ++ s) c k = Some x.
Proof.
  intros Hw Hne Hs Hk. destruct w as [|b w]; [congruence|].
  simpl in Hw. apply andb_prop in Hw. destruct Hw as [Hb Hw].
  unfold Re.Plus. change (String b w ++ s) with (String b (w ++ s)).
  cbn [Re.run]. rewrite Hb. now apply run_star_greedy.
Qed.

Lemma run_group_plus_greedy {A} i p (k : string -> Re.caps -> option A)
      x w s c :
  Str.all p w = true -> w <> "" -> Gen.stops p s ->
  k s ((i, w) :: c) = Some x ->
  Re.run (Re.Grp i (Re.Plus (Re.Cls p))) (w ++ s) c k = Some x.
Proof.
  intros Hw Hne Hs Hk. cbn [Re.run].
  apply run_plus_greedy; try assumption.
  unfold Re.consumed. now rewrite take_append.
Qed.

Lemma word_not_space a : Str.is_word a = true -> Str.is_space a = false.
Proof.
  destruct a as [[] [] [] [] [] [] [] []]; vm_compute; congruence.
Qed.

Lemma space_not_word a : Str.is_space a = true -> Str.is_word a = false.
Proof.
  destruct a as [[] [] [] [] [] [] [] []]; vm_compute; congruence.
Qed.

Lemma space_not_digit_or_dot a :
  Str.is_space a = true -> ParseBench.digit_or_dot a = false.
Proof.
  destruct a as [[] [] [] [] [] [] [] []]; vm_compute; congruence.
Qed.

Lemma digit_or_dot_not_space a :
  ParseBench.digit_or_dot a = true -> Str.is_space a = false.
Proof.
  destruct a as [[] [] [] [] [] [] [] []]; vm_compute; congruence.
Qed.

Lemma stops_first (p q : ascii -> bool) (w s : string) :
  (forall a, q a = true -> p a = false) ->
  Str.all q w = true -> w <> "" -> Gen.stops p (w ++ s).
Proof.
  intros Hpq Hw Hne. destruct w as [|a w]; [congruence|].
  simpl in *. apply andb_prop in Hw. now apply Hpq.
Qed.

Lemma run_seq {A} r1 r2 s c (k : string -> Re.caps -> option A) :
  Re.run (Re.Seq r1 r2) s c k
  = Re.run r1 s c (fun s' c' => Re.run r2 s' c' k).
Proof. reflexivity. Qed.

Lemma space_not_glyph_byte a rest :
  Str.is_space a = true -> Str.strip_prefix "│" (String a rest) = None.
Proof.
  intros H. simpl.
  destruct a as [[] [] [] [] [] [] [] []]; try reflexivity;
    vm_compute in H; discriminate.
Qed.

(** The tail of a measurement line: the unit, with whatever follows it. *)
Lemma run_unit {A} unit rest c (k : string -> Re.caps -> option A) x :
  Gen.unit_token unit ->
  k rest ((3, unit) :: c) = Some x ->
  Re.run (Re.Grp 3 ParseBench.unit_re) (unit ++ rest) c k = Some x.
Proof.
  intros Hu Hk. cbn [Re.run ParseBench.unit_re].
  assert (Hc : forall u, Re.consumed (u ++ rest) rest = u)
    by (intros; unfold Re.consumed; apply take_append).
  destruct Hu as [->|[->| ->]].
  - rewrite strip_prefix_of_append, Hc. now rewrite Hk.
  - replace (Str.strip_prefix "ns" ("µs" ++ rest)) with (@None string)
      by reflexivity.
    rewrite strip_prefix_of_append, Hc. now rewrite Hk.
  - replace (Str.strip_prefix "ns" ("ms" ++ rest)) with (@None string)
      by reflexivity.
    replace (Str.strip_prefix "µs" ("ms" ++ rest)) with (@None string)
      by reflexivity.
    rewrite strip_prefix_of_append, Hc. now rewrite Hk.
Qed.

Lemma stops_space_unit unit rest :
  Gen.unit_token unit -> Gen.stops Str.is_space (unit ++ rest).
Proof. intros [->|[->| ->]]; reflexivity. Qed.

Lemma run_branch_glyph {A} glyph s c (k : string -> Re.caps -> option A) :
  glyph = "├" \/ glyph = "╰" ->
  Re.run ParseBench.branch_glyph (glyph ++ s) c k = k s c.
Proof.
  unfold ParseBench.branch_glyph. intros [->| ->]; cbn [Re.run].
  - rewrite strip_prefix_of_append. now destruct (k s c).
  - replace (Str.strip_prefix "├" ("╰" ++ s)) with (@None string)
      by reflexivity.
    now rewrite strip_prefix_of_append.
Qed.

(** ** Lines the patterns recognize *)

Lemma module_re_complete :
  forall glyph b sp rest,
    glyph = "├" \/ glyph = "╰" ->
    Gen.word b ->
    Str.is_space sp = true ->
    Re.re_match ParseBench.module_re (glyph ++ "─ " ++ b ++ String sp rest)
    = Some [(1, b)].
Proof.
  intros glyph b sp rest Hg [Hw Hne] Hsp.
  unfold Re.re_match, ParseBench.module_re.
  rewrite run_seq, run_branch_glyph by assumption.
  rewrite run_seq, run_lit, run_seq.
  apply run_group_plus_greedy; try assumption.
  - simpl. now apply space_not_word.
  - cbn [Re.run]. now rewrite Hsp.
Qed.

Lemma result_re_complete :
  forall bar ws0 glyph ws1 name ws2 literal ws3 unit rest,
    bar = "" \/ bar = "│" ->
    Str.all Str.is_space ws0 = true ->
    glyph = "├" \/ glyph = "╰" ->
    Gen.blanks ws1 -> Gen.word name -> Gen.blanks ws2 ->
    Str.all ParseBench.digit_or_dot literal = true -> literal <> "" ->
    Gen.blanks ws3 -> Gen.unit_token unit ->
    Re.re_match ParseBench.result_re
      (bar ++ ws0 ++ glyph ++ "─" ++ ws1 ++ name ++ ws2 ++ literal ++ ws3
           ++ unit ++ rest)
    = Some [(3, unit); (2, literal); (1, name)].
Proof.
  intros bar ws0 glyph ws1 name ws2 literal ws3 unit rest
         Hbar Hws0 Hg [Hws1 Hne1] [Hname Hnn] [Hws2 Hne2] Hlit Hnl
         [Hws3 Hne3] Hunit.
  unfold Re.re_match, ParseBench.result_re, ParseBench.name_value_unit_re,
    Re.Opt.
  rewrite run_seq.
  assert (K : Re.run (Re.Star (Re.Cls Str.is_space))
                (ws0 ++ glyph ++ "─" ++ ws1 ++ name ++ ws2 ++ literal ++ ws3
                     ++ unit ++ rest) []
                (fun s' c' =>
                   Re.run
                     (Re.Seq ParseBench.branch_glyph
                        (Re.Seq (Re.Lit "─")
                           (Re.Seq (Re.Plus (Re.Cls Str.is_space))
                              (Re.Seq (Re.Grp 1 (Re.Plus (Re.Cls Str.is_word)))
                                 (Re.Seq (Re.Plus (Re.Cls Str.is_space))
                                    (Re.Seq
                                       (Re.Grp 2
                                          (Re.Plus
                                             (Re.Cls ParseBench.digit_or_dot)))
                                       (Re.Seq (Re.Plus (Re.Cls Str.is_space))
                                          (Re.Grp 3 ParseBench.unit_re))))))))
                     s' c' (fun _ c => Some c))
              = Some [(3, unit); (2, literal); (1, name)]).
  { apply run_star_greedy; [assumption| |].
    - destruct Hg as [->| ->]; reflexivity.
    - rewrite run_seq, run_branch_glyph by assumption.
      rewrite run_seq, run_lit, run_seq.
      apply run_plus_greedy; try assumption.
      { apply stops_first with (q := Str.is_word);
          [apply word_not_space|assumption|assumption]. }
      rewrite run_seq.
      apply run_group_plus_greedy; try assumption.
      { apply stops_first with (q := Str.is_space);
          [apply space_not_word|assumption|assumption]. }
      rewrite run_seq.
      apply run_plus_greedy; try assumption.
      { apply stops_first with (q := ParseBench.digit_or_dot);
          [apply digit_or_dot_not_space|assumption|assumption]. }
      rewrite run_seq.
      apply run_group_plus_greedy; try assumption.
      { apply stops_first with (q := Str.is_space);
          [apply space_not_digit_or_dot|assumption|assumption]. }
      rewrite run_seq.
      apply run_plus_greedy; try assumption.
      { now apply stops_space_unit. }
      now apply run_unit. }
  destruct Hbar as [->| ->].
  - rewrite run_alt_r; [exact K|].
    change ("" ++ ws0 ++ glyph ++ "─" ++ ws1 ++ name ++ ws2 ++ literal ++ ws3
               ++ unit ++ rest)
      with (ws0 ++ glyph ++ "─" ++ ws1 ++ name ++ ws2 ++ literal ++ ws3
                ++ unit ++ rest).
    cbn [Re.run]. destruct ws0 as [|a ws0].
    + destruct Hg as [->| ->]; reflexivity.
    + simpl in Hws0. apply andb_prop in Hws0. destruct Hws0 as [Ha _].
      change (String a ws0 ++ glyph ++ "─" ++ ws1 ++ name ++ ws2 ++ literal
                     ++ ws3 ++ unit ++ rest)
        with (String a (ws0 ++ glyph ++ "─" ++ ws1 ++ name ++ ws2 ++ literal
                            ++ ws3 ++ unit ++ rest)).
      now rewrite space_not_glyph_byte.
  - apply run_alt_l. rewrite run_lit. exact K.
Qed.

(** X1. A line made of a branch glyph, "─ ", a non-empty run of word
    characters and then a blank (and anything after it) is a section line,
    and the name it gives is exactly that run; a line that starts with "│"
    or with a blank never is one. *)
Theorem X1_section_line_recognized :
  forall glyph b sp rest,
    glyph = "├" \/ glyph = "╰" ->
    Gen.word b ->
    Str.is_space sp = true ->
    Re.re_match ParseBench.module_re (glyph ++ "─ " ++ b ++ String sp rest)
    = Some [(1, b)]
    /\ Re.re_match ParseBench.module_re ("│" ++ rest) = None
    /\ Re.re_match ParseBench.module_re (String sp rest) = None.
Proof.
  intros glyph b sp rest Hg Hb Hsp. split; [|split].
  - now apply module_re_complete.
  - reflexivity.
  - unfold Re.re_match, ParseBench.module_re, ParseBench.branch_glyph.
    cbn [Re.run Str.strip_prefix].
    destruct sp as [[] [] [] [] [] [] [] []]; try reflexivity;
      vm_compute in Hsp; discriminate.
Qed.

Lemma X1_witness :
  Re.re_match ParseBench.module_re ("╰" ++ "─ " ++ "twitter" ++ String " " "")
  = Some [(1, "twitter")].
Proof.
  apply X1_section_line_recognized;
    [now right | split; [reflexivity|discriminate] | reflexivity].
Defined.

(** X2. A line made of an optional "│", blanks, a branch glyph, "─",
    blanks, a name of word characters, blanks, a run of digits and points,
    blanks and one of the units ns, µs, ms (and anything after it) is
    matched by the measurement pattern, with exactly that name, that run
    and that unit as its groups. *)
Theorem X2_measurement_line_recognized :
  forall bar ws0 glyph ws1 name ws2 literal ws3 unit rest,
    bar = "" \/ bar = "│" ->
    Str.all Str.is_space ws0 = true ->
    glyph = "├" \/ glyph = "╰" ->
    Gen.blanks ws1 -> Gen.word name -> Gen.blanks ws2 ->
    Str.all ParseBench.digit_or_dot literal = true -> literal <> "" ->
    Gen.blanks ws3 -> Gen.unit_token unit ->
    Re.re_match ParseBench.result_re
      (bar ++ ws0 ++ glyph ++ "─" ++ ws1 ++ name ++ ws2 ++ literal ++ ws3
           ++ unit ++ rest)
    = Some [(3, unit); (2, literal); (1, name)].
Proof. intros. now apply result_re_complete. Qed.

Lemma X2_witness :
  Re.re_match ParseBench.result_re
    ("│" ++ "  " ++ "├" ++ "─" ++ " " ++ "serde_json_serialize" ++ "   "
         ++ "12.5" ++ " " ++ "ms" ++ "   │ 100")
  = Some [(3, "ms"); (2, "12.5"); (1, "serde_json_serialize")].
Proof.
  apply X2_measurement_line_recognized;
    try (split; [reflexivity|discriminate]);
    try reflexivity; try discriminate; auto.
  right; right; reflexivity.
Defined.

(** ** From data to text and back *)

Lemma set_fresh {V} k (v : V) d :
  Dict.get k d = None -> Dict.set k v d = (d ++ [(k, v)])%list.
Proof.
  induction d as [|[k' v'] d IH]; simpl; [reflexivity|].
  destruct (String.eqb k' k); [discriminate|].
  intros H. now rewrite IH.
Qed.

Lemma get_app_last {V} k (v : V) d :
  Dict.get k d = None -> Dict.get k (d ++ [(k, v)])%list = Some v.
Proof.
  induction d as [|[k' v'] d IH]; simpl.
  - now rewrite String.eqb_refl.
  - destruct (String.eqb k' k); [discriminate|exact IH].
Qed.

Lemma set_app_last {V} k (v v' : V) d :
  Dict.get k d = None ->
  Dict.set k v' (d ++ [(k, v)])%list = (d ++ [(k, v')])%list.
Proof.
  induction d as [|[k0 v0] d IH]; simpl.
  - now rewrite String.eqb_refl.
  - destruct (String.eqb k0 k); [discriminate|].
    intros H. now rewrite IH.
Qed.

Lemma get_app_other {V} k k' (v : V) d :
  k <> k' -> Dict.get k' (d ++ [(k, v)])%list = Dict.get k' d.
Proof.
  intros Hne. induction d as [|[k0 v0] d IH]; simpl.
  - destruct (String.eqb_spec k k'); [contradiction|reflexivity].
  - destruct (String.eqb k0 k'); [reflexivity|exact IH].
Qed.

Lemma active_word b : Gen.word b -> ParseBench.active (Some b) = Some b.
Proof.
  intros [_ Hne]. simpl. destruct (String.eqb_spec b ""); congruence.
Qed.

(** A section line of a new benchmark appends its empty entry. *)
Lemma gen_section_step prev c b :
  Gen.word b -> Dict.get b prev = None ->
  ParseBench.divan_line (prev, c) (Gen.section_line b)
  = Ok ((prev ++ [(b, ParseBench.empty_entry)])%list, Some b).
Proof.
  intros Hb Hget.
  assert (E : Re.re_match ParseBench.module_re (Gen.section_line b)
              = Some [(1, b)]).
  { change (Gen.section_line b) with ("├" ++ "─ " ++ b ++ String " " "").
    apply module_re_complete; [now left|assumption|reflexivity]. }
  unfold ParseBench.divan_line. rewrite E.
  cbn [ParseBench.m_group Re.group Nat.eqb bind].
  now rewrite set_fresh.
Qed.

(** A measurement line files its row in the entry of the open benchmark. *)
Lemma gen_row_step prev b e r :
  Gen.word b -> Dict.get b prev = None -> Gen.valid_row r ->
  ParseBench.divan_line ((prev ++ [(b, e)])%list, Some b)
                        (Gen.measurement_line r)
  = Ok ((prev ++ [(b, Gen.add_row e r)])%list, Some b).
Proof.
  destruct r as [[name literal] unit].
  intros Hb Hget (Hname & Hlit & (v & Hv) & Hunit).
  assert (Hnl : literal <> "").
  { intros ->. vm_compute in Hv. discriminate. }
  assert (Em : Re.re_match ParseBench.module_re
                 (Gen.measurement_line (name, literal, unit)) = None)
    by reflexivity.
  assert (Er : Re.re_match ParseBench.result_re
                 (Gen.measurement_line (name, literal, unit))
               = Some [(3, unit); (2, literal); (1, name)]).
  { unfold Gen.measurement_line.
    rewrite <- (append_nil_r unit) at 1.
    change ("│  ├─ " ++ name ++ "  " ++ literal ++ " " ++ unit ++ "")
      with ("│" ++ "  " ++ "├" ++ "─" ++ " " ++ name ++ "  " ++ literal
                ++ " " ++ unit ++ "").
    apply result_re_complete; auto;
      try (split; [reflexivity|discriminate]). }
  unfold ParseBench.divan_line.
  rewrite Em, (active_word Hb), Er.
  cbn [ParseBench.m_group Re.group Nat.eqb bind].
  rewrite Hv. cbn [bind]. unfold ParseBench.subscript.
  rewrite (@get_app_last _ b e prev Hget). cbn [bind].
  rewrite (@set_app_last _ b e _ prev Hget).
  unfold Gen.add_row, Gen.value_of. now rewrite Hv.
Qed.

Lemma gen_rows prev b rows :
  Gen.word b -> Dict.get b prev = None -> Forall Gen.valid_row rows ->
  forall e,
    ParseBench.for_lines ParseBench.divan_line
      ((prev ++ [(b, e)])%list, Some b) (map Gen.measurement_line rows)
    = Ok ((prev ++ [(b, fold_left Gen.add_row rows e)])%list, Some b).
Proof.
  intros Hb Hget. induction 1 as [|r rows Hr _ IH]; intros e;
    [reflexivity|].
  cbn [map ParseBench.for_lines fold_left].
  rewrite (@gen_row_step prev b e r Hb Hget Hr). cbn [bind]. apply IH.
Qed.

Lemma gen_benches benches : forall prev c,
  NoDup (map fst benches) ->
  (forall bench, In bench benches -> Dict.get (fst bench) prev = None) ->
  Forall Gen.valid_bench benches ->
  exists c',
    ParseBench.for_lines ParseBench.divan_line (prev, c)
                         (Gen.text_lines benches)
    = Ok ((prev ++ Gen.model_of benches)%list, c').
Proof.
  induction benches as [|[b rows] benches IH]; intros prev c Hnd Hfresh Hv.
  - exists c. simpl. now rewrite app_nil_r.
  - inversion Hnd as [|? ? Hnotin Hnd']; subst.
    inversion Hv as [|? ? [Hb Hrows] Hv']; subst. simpl in Hb, Hrows.
    assert (Hget : Dict.get b prev = None)
      by (apply (Hfresh (b, rows)); now left).
    cbn [Gen.text_lines flat_map].
    change (Gen.benchmark_lines (b, rows))
      with (Gen.section_line b :: map Gen.measurement_line rows).
    change (Gen.model_of ((b, rows) :: benches))
      with ((b, Gen.entry_of rows) :: Gen.model_of benches).
    cbn [app ParseBench.for_lines].
    rewrite (@gen_section_step prev c b Hb Hget). cbn [bind].
    rewrite for_lines_app, (@gen_rows prev b rows Hb Hget Hrows). cbn [bind].
    destruct (IH (prev ++ [(b, fold_left Gen.add_row rows
                                  ParseBench.empty_entry)])%list
                 (Some b) Hnd') as [c' Hc']; [|assumption|].
    + intros bench Hin. rewrite get_app_other.
      * apply Hfresh. now right.
      * intros ->. apply Hnotin. now apply in_map.
    + exists c'.
      etransitivity; [exact Hc'|].
      unfold Gen.entry_of. now rewrite <- app_assoc.
Qed.

Lemma keys_set_fresh {V} k (v : V) d :
  ~ In k (Dict.keys d) -> Dict.keys (Dict.set k v d) = (Dict.keys d ++ [k])%list.
Proof.
  induction d as [|[k' v'] d IH]; simpl; [reflexivity|].
  intros H. destruct (String.eqb_spec k' k) as [->|_]; [tauto|].
  simpl. rewrite IH; tauto.
Qed.

(** Filing rows of different targets of one operation keeps them all, in
    order, and leaves the other operation alone. *)
Lemma fold_add_deserialize rows :
  Gen.deserialize_rows rows ->
  forall e,
    (forall r, In r rows ->
       ~ In (ParseBench.target_base_of (fst (fst r)))
            (Dict.keys (ParseBench.deserialize e))) ->
    Dict.keys (ParseBench.deserialize (fold_left Gen.add_row rows e))
    = (Dict.keys (ParseBench.deserialize e)
         ++ map (fun r => ParseBench.target_base_of (fst (fst r))) rows)%list
    /\ ParseBench.serialize (fold_left Gen.add_row rows e)
       = ParseBench.serialize e.
Proof.
  intros [Hop Hnd]. induction rows as [|[[name literal] unit] rows IH];
    intros e Hfresh.
  - simpl. now rewrite app_nil_r.
  - inversion Hop as [|? ? Hop1 Hop']; subst.
    inversion Hnd as [|? ? Hnotin Hnd']; subst. simpl in Hop1, Hnotin.
    cbn [fold_left]. unfold Gen.add_row at 2 4. rewrite Hop1.
    destruct (IH Hop' Hnd'
                (ParseBench.entry_set ParseBench.Deserialize
                   (ParseBench.target_base_of name)
                   (Gen.value_of (name, literal, unit)) e)) as [Hk Hs].
    + intros r Hr. cbn [ParseBench.entry_set ParseBench.deserialize].
      rewrite keys_set_fresh.
      * intros Hin. apply in_app_or in Hin. destruct Hin as [Hin|[E|[]]].
        -- apply (Hfresh r); [now right|assumption].
        -- apply Hnotin. rewrite E.
           now apply (in_map (fun r => ParseBench.target_base_of
                                         (fst (fst r)))).
      * apply (Hfresh (name, literal, unit)). now left.
    + split; [|exact Hs].
      rewrite Hk. cbn [ParseBench.entry_set ParseBench.deserialize].
      rewrite keys_set_fresh.
      * now rewrite <- app_assoc.
      * apply (Hfresh (name, literal, unit)). now left.
Qed.

Lemma get_model_of benches b rows :
  NoDup (map fst benches) -> In (b, rows) benches ->
  Dict.get b (Gen.model_of benches) = Some (Gen.entry_of rows).
Proof.
  induction benches as [|[b' rows'] benches IH]; intros Hnd Hin;
    [destruct Hin|].
  inversion Hnd as [|? ? Hnotin Hnd']; subst. simpl.
  destruct Hin as [E|Hin].
  - injection E as -> ->. now rewrite String.eqb_refl.
  - destruct (String.eqb_spec b' b) as [->|_]; [|now apply IH].
    exfalso. apply Hnotin.
    now apply (in_map fst _ (b, rows)).
Qed.

Lemma all_impl (p q : ascii -> bool) s :
  (forall a, p a = true -> q a = true) ->
  Str.all p s = true -> Str.all q s = true.
Proof.
  intros Hpq. induction s as [|a s IH]; simpl; [reflexivity|].
  intros H. apply andb_prop in H. destruct H as [Ha Hs].
  now rewrite (Hpq _ Ha), IH.
Qed.

Lemma split_no_newline l :
  Gen.no_newline l -> Str.split ParseBench.newline l = [l].
Proof.
  unfold Gen.no_newline. induction l as [|a l IH]; simpl; [reflexivity|].
  intros H. apply andb_prop in H. destruct H as [Ha Hl].
  apply negb_true_iff in Ha. rewrite Ha, (IH Hl). reflexivity.
Qed.

Lemma split_line_then l s :
  Gen.no_newline l ->
  Str.split ParseBench.newline (l ++ String ParseBench.newline s)
  = l :: Str.split ParseBench.newline s.
Proof.
  unfold Gen.no_newline. induction l as [|a l IH]; intros H.
  - simpl. reflexivity.
  - simpl in H. apply andb_prop in H. destruct H as [Ha Hl].
    apply negb_true_iff in Ha.
    change (String a l ++ String ParseBench.newline s)
      with (String a (l ++ String ParseBench.newline s)).
    cbn [Str.split]. rewrite Ha, (IH Hl). reflexivity.
Qed.

(** Splitting the joined lines gives the lines back. *)
Lemma split_join lines :
  lines <> [] -> Forall Gen.no_newline lines ->
  Str.split ParseBench.newline
            (Gen.join (String ParseBench.newline "") lines) = lines.
Proof.
  intros Hne H. induction H as [|l lines Hl Hlines IH]; [congruence|].
  destruct lines as [|l2 lines].
  - simpl. now apply split_no_newline.
  - change (Gen.join (String ParseBench.newline "") (l :: l2 :: lines))
      with (l ++ String ParseBench.newline
                   (Gen.join (String ParseBench.newline "") (l2 :: lines))).
    rewrite (split_line_then _ Hl). f_equal. apply IH. discriminate.
Qed.

Lemma no_newline_append a b :
  Gen.no_newline a -> Gen.no_newline b -> Gen.no_newline (a ++ b).
Proof.
  unfold Gen.no_newline. intros Ha Hb. now rewrite all_append, Ha, Hb.
Qed.

Lemma no_newline_word s :
  Str.all Str.is_word s = true -> Gen.no_newline s.
Proof.
  apply all_impl. intros a.
  destruct a as [[] [] [] [] [] [] [] []]; vm_compute; congruence.
Qed.

Lemma no_newline_literal s :
  Str.all ParseBench.digit_or_dot s = true -> Gen.no_newline s.
Proof.
  apply all_impl. intros a.
  destruct a as [[] [] [] [] [] [] [] []]; vm_compute; congruence.
Qed.

Lemma no_newline_lines benches :
  Forall Gen.valid_bench benches ->
  Forall Gen.no_newline (Gen.text_lines benches).
Proof.
  induction 1 as [|[b rows] benches [[Hb _] Hrows] _ IH]; [constructor|].
  simpl in Hb, Hrows. cbn [Gen.text_lines flat_map].
  apply Forall_app. split; [|exact IH].
  change (Gen.benchmark_lines (b, rows))
    with (Gen.section_line b :: map Gen.measurement_line rows).
  constructor.
  - unfold Gen.section_line.
    repeat apply no_newline_append; try reflexivity.
    now apply no_newline_word.
  - apply Forall_map. eapply Forall_impl; [|exact Hrows].
    intros [[name literal] unit] ([Hn _] & Hl & _ & Hu).
    unfold Gen.measurement_line.
    repeat apply no_newline_append; try reflexivity.
    + now apply no_newline_word.
    + now apply no_newline_literal.
    + destruct Hu as [->|[->| ->]]; reflexivity.
Qed.

(** X3. Printing benchmarks of different names, each with its measurement
    lines, and parsing the text gives the model back: one entry per
    benchmark, in order, holding its rows as filed one after the other.  When
    the rows of a benchmark are deserialize rows of different targets, its
    deserialize map has exactly these targets, in order, and its serialize
    map is empty: no row is lost and none is doubled. *)
Theorem X3_print_then_parse :
  forall benches,
    NoDup (map fst benches) ->
    Forall Gen.valid_bench benches ->
    ParseBench.parse_divan_output (Gen.text benches)
    = Ok (Gen.model_of benches)
    /\ Dict.keys (Gen.model_of benches) = map fst benches
    /\ forall b rows,
         In (b, rows) benches -> Gen.deserialize_rows rows ->
         exists e,
           Dict.get b (Gen.model_of benches) = Some e
           /\ Dict.keys (ParseBench.deserialize e)
              = map (fun r => ParseBench.target_base_of (fst (fst r))) rows
           /\ ParseBench.serialize e = [].
Proof.
  intros benches Hnd Hv. split; [|split].
  - unfold ParseBench.parse_divan_output, Gen.text.
    destruct benches as [|bench benches]; [reflexivity|].
    rewrite split_join.
    + unfold ParseBench.parse_divan_lines.
      destruct (@gen_benches (bench :: benches) Dict.empty None Hnd)
        as [c' Hc']; [reflexivity|assumption|].
      rewrite Hc'. reflexivity.
    + destruct bench. discriminate.
    + now apply no_newline_lines.
  - unfold Gen.model_of, Dict.keys. rewrite map_map. reflexivity.
  - intros b rows Hin Hrows.
    exists (Gen.entry_of rows). split; [now apply get_model_of|].
    destruct (@fold_add_deserialize rows Hrows ParseBench.empty_entry)
      as [Hk Hs]; [intros r _ []|].
    split; [exact Hk|exact Hs].
Qed.

Lemma X3_witness :
  ParseBench.parse_divan_output (Gen.text Inputs.two_benchmarks)
  = Ok (Gen.model_of Inputs.two_benchmarks)
  /\ Dict.keys (Gen.model_of Inputs.two_benchmarks)
     = ["simple_struct"; "twitter"].
Proof.
  destruct (@X3_print_then_parse Inputs.two_benchmarks) as (H1 & H2 & _).
  - repeat constructor; simpl; intuition discriminate.
  - repeat constructor; try discriminate; try (now left);
      try (now (right; left)); try (now (right; right));
      eexists; vm_compute; reflexivity.
  - split; [exact H1|exact H2].
Defined.

(** ** What the parsers can raise *)

Lemma py_float_raises s e : Num.py_float s = Raise e -> e = ValueError.
Proof.
  unfold Num.py_float.
  destruct (Str.split "." s) as [|ip [|fp [|x l]]]; try congruence.
  - destruct (Num.digit_string ip); congruence.
  - destruct (Str.all Str.is_digit ip && Str.all Str.is_digit fp
              && negb (String.eqb (ip ++ fp) "")); congruence.
Qed.

Lemma divan_line_outcome st line :
  Spec.known_current st ->
  (exists st', ParseBench.divan_line st line = Ok st'
               /\ Spec.known_current st')
  \/ ParseBench.divan_line st line = Raise ValueError.
Proof.
  intros Hk.
  destruct (ParseBench.divan_line st line) as [st'|e] eqn:E.
  - left. exists st'. split; [reflexivity|].
    apply (proj1 (divan_line_known _ Hk E)).
  - right. destruct st as [results current].
    destruct (classify current line) as [b Em|cur n l u Em Ec Ea Er|Em Eo].
    + rewrite (divan_line_section _ _ _ Em) in E. discriminate.
    + subst current. rewrite (divan_line_measure _ _ Em Ea Er) in E.
      destruct (Num.py_float l) as [v|e'] eqn:Ev.
      * cbn [bind] in E.
        destruct (subscript_known Hk eq_refl) as (e0 & S & _).
        rewrite S in E. discriminate.
      * cbn [bind] in E. injection E as <-.
        now rewrite (py_float_raises _ Ev).
    + rewrite (divan_line_other _ _ _ Em Eo) in E. discriminate.
Qed.

Lemma legacy_line_outcome st line :
  Spec.known_current st ->
  (exists st', ParseBenchLegacy.divan_line st line = Ok st'
               /\ Spec.known_current st')
  \/ ParseBenchLegacy.divan_line st line = Raise ValueError.
Proof.
  intros Hk.
  destruct (ParseBenchLegacy.divan_line st line) as [st'|e] eqn:E.
  - left. exists st'. split; [reflexivity|].
    apply (legacy_line_known _ Hk E).
  - right. destruct st as [results current].
    destruct (classify current line) as [b Em|cur n l u Em Ec Ea Er|Em Eo].
    + rewrite (legacy_line_section _ _ _ Em) in E. discriminate.
    + subst current. rewrite (legacy_line_measure _ _ Em Ea Er) in E.
      destruct (Num.py_float l) as [v|e'] eqn:Ev.
      * cbn [bind] in E.
        destruct (subscript_known Hk eq_refl) as (e0 & S & _).
        rewrite S in E. discriminate.
      * cbn [bind] in E. injection E as <-.
        now rewrite (py_float_raises _ Ev).
    + rewrite (legacy_line_other _ _ _ Em Eo) in E. discriminate.
Qed.

Lemma legacy_gungraun_line_outcome st line :
  Spec.known_current st ->
  (exists st', ParseBenchLegacy.gungraun_line st line = Ok st'
               /\ Spec.known_current st')
  \/ ParseBenchLegacy.gungraun_line st line = Raise ValueError.
Proof.
  destruct st as [results current]. intros Hk.
  unfold ParseBenchLegacy.gungraun_line.
  destruct (Re.re_match ParseBench.name_re line) as [m|] eqn:En.
  - left. destruct (name_re_groups _ En) as (b & -> & _). simpl.
    eexists. split; [reflexivity|].
    intros c Hc. cbn [fst snd] in *. injection Hc as <-. apply mem_set_same.
  - destruct (ParseBench.active current) as [cur|] eqn:Ea; [|left; eauto].
    destruct (Re.re_match ParseBenchLegacy.metric_re line) as [m|] eqn:Em;
      [|left; eauto].
    destruct (fun G => @label_value_re_groups _ line m G Em)
      as (label & digits & before & rest & -> & _ & Hd & _); [reflexivity|].
    cbn [ParseBench.m_group Re.group Nat.eqb bind].
    destruct (Num.py_int _) as [n|e] eqn:Ei.
    + left. cbn [bind]. apply active_some in Ea.
      destruct (subscript_known Hk Ea) as (metrics & -> & _). cbn [bind].
      eexists. split; [reflexivity|].
      intros c Hc. cbn [fst snd] in *. apply mem_set. now apply Hk.
    + right. cbn [bind]. now rewrite (py_int_raises _ Ei).
Qed.

(** A loop whose turns end in a state or in ValueError ends so as a whole. *)
Lemma for_lines_outcome {V} (body : Dict.t V * option string -> string
                                    -> res (Dict.t V * option string)) :
  (forall st line,
      Spec.known_current st ->
      (exists st', body st line = Ok st' /\ Spec.known_current st')
      \/ body st line = Raise ValueError) ->
  forall lines st,
    Spec.known_current st ->
    (exists st', ParseBench.for_lines body st lines = Ok st')
    \/ ParseBench.for_lines body st lines = Raise ValueError.
Proof.
  intros Hbody. induction lines as [|l lines IH]; intros st Hk; simpl.
  - left. eauto.
  - destruct (Hbody st l Hk) as [(st' & -> & Hk')| ->]; [|now right].
    cbn [bind]. now apply IH.
Qed.

Lemma parse_outcome {V} (body : Dict.t V * option string -> string
                                -> res (Dict.t V * option string)) lines :
  (forall st line,
      Spec.known_current st ->
      (exists st', body st line = Ok st' /\ Spec.known_current st')
      \/ body st line = Raise ValueError) ->
  (exists r,
      (st <- ParseBench.for_lines body (Dict.empty, None) lines ;; Ok (fst st))
      = Ok r)
  \/ (st <- ParseBench.for_lines body (Dict.empty, None) lines ;; Ok (fst st))
     = Raise ValueError.
Proof.
  intros Hbody.
  destruct (for_lines_outcome body Hbody lines known_initial)
    as [(st & ->)| ->]; [left; simpl; eauto|now right].
Qed.

(** X4. Parsing a text ends in a model or in ValueError, whatever the text:
    the subscripts [results[current]] and the groups of a match never fail.
    This holds for the statistical parser of both scripts and for the
    instruction parser of the earlier script; the instruction parser of
    [parse_bench.py] always ends in a model. *)
Theorem X4_parsers_raise_only_value_error :
  forall text,
    ((exists r, ParseBench.parse_divan_output text = Ok r)
     \/ ParseBench.parse_divan_output text = Raise ValueError)
    /\ ((exists r, ParseBenchLegacy.parse_divan_output text = Ok r)
        \/ ParseBenchLegacy.parse_divan_output text = Raise ValueError)
    /\ ((exists r, ParseBenchLegacy.parse_gungraun_output text = Ok r)
        \/ ParseBenchLegacy.parse_gungraun_output text = Raise ValueError)
    /\ exists r, ParseBench.parse_gungraun_output text = Ok r.
Proof.
  intros text. split; [|split; [|split]].
  - apply (parse_outcome ParseBench.divan_line
             (Str.split ParseBench.newline text) divan_line_outcome).
  - apply (parse_outcome ParseBenchLegacy.divan_line
             (Str.split ParseBench.newline text) legacy_line_outcome).
  - apply (parse_outcome ParseBenchLegacy.gungraun_line
             (Str.split ParseBench.newline text) legacy_gungraun_line_outcome).
  - apply parse_gungraun_total.
Qed.

(** ** Lines outside a section *)

Lemma divan_lines_idle pre : forall st,
  snd st = None ->
  Forall (fun l => Re.re_match ParseBench.module_re l = None) pre ->
  ParseBench.for_lines ParseBench.divan_line st pre = Ok st.
Proof.
  induction pre as [|l pre IH]; intros [r c] Hc H; [reflexivity|].
  simpl in Hc. subst c.
  inversion H as [|? ? Hl Hpre]; subst.
  cbn [ParseBench.for_lines].
  rewrite (divan_line_other r None l Hl (or_introl eq_refl)).
  cbn [bind]. now apply IH.
Qed.

Lemma legacy_lines_idle pre : forall st,
  snd st = None ->
  Forall (fun l => Re.re_match ParseBench.module_re l = None) pre ->
  ParseBench.for_lines ParseBenchLegacy.divan_line st pre = Ok st.
Proof.
  induction pre as [|l pre IH]; intros [r c] Hc H; [reflexivity|].
  simpl in Hc. subst c.
  inversion H as [|? ? Hl Hpre]; subst.
  cbn [ParseBench.for_lines].
  rewrite (legacy_line_other r None l Hl (or_introl eq_refl)).
  cbn [bind]. now apply IH.
Qed.

Lemma gungraun_lines_idle pre : forall st,
  snd st = None ->
  Forall (fun l => Re.re_match ParseBench.name_re l = None) pre ->
  ParseBench.for_lines ParseBench.gungraun_line st pre = Ok st
  /\ ParseBench.for_lines ParseBenchLegacy.gungraun_line st pre = Ok st.
Proof.
  induction pre as [|l pre IH]; intros [r c] Hc H; [split; reflexivity|].
  simpl in Hc. subst c.
  inversion H as [|? ? Hl Hpre]; subst.
  cbn [ParseBench.for_lines].
  unfold ParseBench.gungraun_line at 1, ParseBenchLegacy.gungraun_line at 1.
  rewrite Hl. cbn [ParseBench.active bind]. now apply IH.
Qed.

(** X5. Lines that stand before the first section line leave no trace: the
    text parses as it would without them, and a number with two points among
    them raises nothing.  A text without any section line parses to the
    empty model.  The statistical and the instruction parser of both scripts
    behave so. *)
Theorem X5_lines_before_first_section_ignored :
  forall pre post,
    (Forall (fun l => Re.re_match ParseBench.module_re l = None) pre ->
     ParseBench.parse_divan_lines (pre ++ post)
     = ParseBench.parse_divan_lines post
     /\ ParseBenchLegacy.parse_divan_lines (pre ++ post)
        = ParseBenchLegacy.parse_divan_lines post
     /\ ParseBench.parse_divan_lines pre = Ok []
     /\ ParseBenchLegacy.parse_divan_lines pre = Ok [])
    /\ (Forall (fun l => Re.re_match ParseBench.name_re l = None) pre ->
        ParseBench.parse_gungraun_lines (pre ++ post)
        = ParseBench.parse_gungraun_lines post
        /\ ParseBenchLegacy.parse_gungraun_lines (pre ++ post)
           = ParseBenchLegacy.parse_gungraun_lines post
        /\ ParseBench.parse_gungraun_lines pre = Ok []
        /\ ParseBenchLegacy.parse_gungraun_lines pre = Ok []).
Proof.
  intros pre post. split; intros H.
  - unfold ParseBench.parse_divan_lines, ParseBenchLegacy.parse_divan_lines.
    rewrite !for_lines_app.
    rewrite !(fun st E => @divan_lines_idle pre st E H) by reflexivity.
    rewrite !(fun st E => @legacy_lines_idle pre st E H) by reflexivity.
    repeat split.
  - unfold ParseBench.parse_gungraun_lines,
      ParseBenchLegacy.parse_gungraun_lines.
    rewrite !for_lines_app.
    rewrite !(fun st E => proj1 (@gungraun_lines_idle pre st E H))
      by reflexivity.
    rewrite !(fun st E => proj2 (@gungraun_lines_idle pre st E H))
      by reflexivity.
    repeat split.
Qed.

Lemma X5_witness :
  ParseBench.parse_divan_lines
    (Inputs.stray_lines ++ Inputs.after_stray_lines)
  = ParseBench.parse_divan_lines Inputs.after_stray_lines
  /\ ParseBench.parse_gungraun_lines Inputs.stray_lines = Ok [].
Proof.
  destruct (X5_lines_before_first_section_ignored
              Inputs.stray_lines Inputs.after_stray_lines) as [Hd _].
  destruct (X5_lines_before_first_section_ignored
              Inputs.stray_lines []) as [_ Hg].
  split.
  - apply Hd. repeat constructor.
  - apply Hg. repeat constructor.
Defined.

(** ** Values without a digit *)

Lemma remove_commas_only digits :
  Str.all Gen.is_comma digits = true -> Str.remove "," digits = "".
Proof.
  unfold Str.remove. induction digits as [|a s IH]; [reflexivity|].
  simpl. intros H. apply andb_prop in H. destruct H as [Ha Hs].
  unfold Gen.is_comma in Ha. apply Ascii.eqb_eq in Ha. subst a.
  destruct (ascii_dec "," ","); [|congruence].
  destruct s; now apply IH.
Qed.

Lemma commas_are_digit_or_comma digits :
  Str.all Gen.is_comma digits = true ->
  Str.all ParseBench.digit_or_comma digits = true.
Proof.
  apply all_impl. intros a Ha. unfold Gen.is_comma in Ha.
  apply Ascii.eqb_eq in Ha. now subst a.
Qed.

(** X6. A metric line whose value is made of commas only has nothing left
    for [int] once the commas are gone.  [parse_bench.py] drops the line and
    keeps its state; the earlier script raises ValueError on it. *)
Theorem X6_value_without_digits :
  forall results current cur metrics line label digits,
    Re.re_match ParseBench.name_re line = None ->
    ParseBench.active current = Some cur ->
    Dict.get cur results = Some metrics ->
    Str.all Gen.is_comma digits = true ->
    (Re.re_match ParseBench.metric_re line = Some [(2, digits); (1, label)] ->
     ParseBench.gungraun_line (results, current) line = Ok (results, current))
    /\ (Re.re_match ParseBenchLegacy.metric_re line
        = Some [(2, digits); (1, label)] ->
        ParseBenchLegacy.gungraun_line (results, current) line
        = Raise ValueError).
Proof.
  intros results current cur metrics line label digits Hn Ha Hg Hc.
  split; intros Hm.
  - rewrite (gungraun_line_metric _ _ _ Hn Ha Hg Hm
               (commas_are_digit_or_comma _ Hc)).
    now rewrite (remove_commas_only _ Hc).
  - rewrite (legacy_gungraun_line_metric _ _ _ Hn Ha Hg Hm).
    now rewrite (remove_commas_only _ Hc).
Qed.

Lemma X6_witness :
  ParseBench.gungraun_line Sample.in_gungraun_section Inputs.commas_line
  = Ok Sample.in_gungraun_section
  /\ ParseBenchLegacy.gungraun_line Sample.in_gungraun_section
       Inputs.commas_line = Raise ValueError.
Proof.
  destruct (@X6_value_without_digits
              [("simple_struct_facet_format_jit", Dict.empty)]
              (Some "simple_struct_facet_format_jit")
              "simple_struct_facet_format_jit" Dict.empty
              Inputs.commas_line "Instructions" ","
              eq_refl eq_refl eq_refl eq_refl) as [H1 H2].
  split; [apply H1|apply H2]; reflexivity.
Defined.

(** ** One line, one cell *)

Lemma not_mem_not_in_keys {V} k (d : Dict.t V) :
  Dict.mem k d = false -> ~ In k (Dict.keys d).
Proof.
  unfold Dict.mem. intros H Hin.
  destruct (get_in_keys _ _ Hin) as [v Hv]. now rewrite Hv in H.
Qed.

Lemma keys_set_known {V} k (v : V) d :
  Dict.mem k d = true -> Dict.keys (Dict.set k v d) = Dict.keys d.
Proof.
  unfold Dict.mem. induction d as [|[k' v'] d IH]; simpl; [discriminate|].
  destruct (String.eqb_spec k' k) as [->|_]; [reflexivity|].
  intros H. simpl. now rewrite IH.
Qed.

Lemma entry_get_set_other op target value e t' :
  t' <> target ->
  Dict.get t' (ParseBench.entry_get op
                 (ParseBench.entry_set op target value e))
  = Dict.get t' (ParseBench.entry_get op e).
Proof.
  intros Hne. destruct op; simpl; apply get_set_other; congruence.
Qed.

Lemma entry_keys_set op target value e :
  Dict.keys (ParseBench.entry_get op (ParseBench.entry_set op target value e))
  = if Dict.mem target (ParseBench.entry_get op e)
    then Dict.keys (ParseBench.entry_get op e)
    else (Dict.keys (ParseBench.entry_get op e) ++ [target])%list.
Proof.
  destruct op; simpl.
  - destruct (Dict.mem target (ParseBench.deserialize e)) eqn:E.
    + now apply keys_set_known.
    + now apply keys_set_fresh, not_mem_not_in_keys.
  - destruct (Dict.mem target (ParseBench.serialize e)) eqn:E.
    + now apply keys_set_known.
    + now apply keys_set_fresh, not_mem_not_in_keys.
Qed.

(** X7. A recognized measurement line changes one cell of the model and
    nothing else: the benchmarks and their order stay, every other benchmark
    keeps its entry, and in the map of the line's operation every other
    target keeps its value.  A target seen before keeps its place and takes
    the new value; a new target goes to the end. *)
Theorem X7_measurement_touches_one_cell :
  forall results current cur e line m,
    Re.re_match ParseBench.module_re line = None ->
    ParseBench.active current = Some cur ->
    Dict.get cur results = Some e ->
    Re.re_match ParseBench.result_re line = Some m ->
    exists name literal,
      Re.group 1 m = Some name /\ Re.group 2 m = Some literal
      /\ forall v, Num.py_float literal = Ok v ->
           exists results' e',
             let op := ParseBench.operation_of name in
             let target := ParseBench.target_base_of name in
             ParseBench.divan_line (results, current) line
             = Ok (results', current)
             /\ Dict.get cur results' = Some e'
             /\ Dict.keys results' = Dict.keys results
             /\ (forall b, b <> cur ->
                           Dict.get b results' = Dict.get b results)
             /\ (forall t, t <> target ->
                   Dict.get t (ParseBench.entry_get op e')
                   = Dict.get t (ParseBench.entry_get op e))
             /\ Dict.keys (ParseBench.entry_get op e')
                = (if Dict.mem target (ParseBench.entry_get op e)
                   then Dict.keys (ParseBench.entry_get op e)
                   else (Dict.keys (ParseBench.entry_get op e)
                           ++ [target])%list).
Proof.
  intros results current cur e line m Hmod Hact Hget Hres.
  destruct (result_re_groups _ Hres)
    as (name & literal & unit & -> & _).
  exists name, literal. repeat split.
  intros v Hv.
  pose proof (divan_line_measurement _ _ _ Hmod Hact Hget Hres Hv) as Hstep.
  eexists _, _. cbv zeta.
  split; [exact Hstep|]. split; [apply get_set_same|].
  split; [|split; [|split]].
  - apply keys_set_known. unfold Dict.mem. now rewrite Hget.
  - intros b Hb. apply get_set_other. congruence.
  - intros t Ht. now apply entry_get_set_other.
  - apply entry_keys_set.
Qed.

Lemma X7_witness :
  exists name literal,
    Re.group 1 Sample.jit_match = Some name
    /\ Re.group 2 Sample.jit_match = Some literal
    /\ forall v, Num.py_float literal = Ok v ->
         exists results' e',
           let op := ParseBench.operation_of name in
           let target := ParseBench.target_base_of name in
           ParseBench.divan_line Sample.in_simple_struct Sample.jit_line
           = Ok (results', Some "simple_struct")
           /\ Dict.get "simple_struct" results' = Some e'
           /\ Dict.keys results' = ["simple_struct"]
           /\ (forall b, b <> "simple_struct" ->
                 Dict.get b results'
                 = Dict.get b [("simple_struct", ParseBench.empty_entry)])
           /\ (forall t, t <> target ->
                 Dict.get t (ParseBench.entry_get op e')
                 = Dict.get t (ParseBench.entry_get op ParseBench.empty_entry))
           /\ Dict.keys (ParseBench.entry_get op e')
              = (if Dict.mem target
                      (ParseBench.entry_get op ParseBench.empty_entry)
                 then Dict.keys
                        (ParseBench.entry_get op ParseBench.empty_entry)
                 else (Dict.keys
                         (ParseBench.entry_get op ParseBench.empty_entry)
                         ++ [target])%list).
Proof.
  apply (@X7_measurement_touches_one_cell
           [("simple_struct", ParseBench.empty_entry)] (Some "simple_struct")
           "simple_struct" ParseBench.empty_entry Sample.jit_line
           Sample.jit_match); vm_compute; reflexivity.
Defined.

(** ** Categories *)

Lemma in_list_In b l : ParseBench.in_list b l = true <-> In b l.
Proof.
  unfold ParseBench.in_list. rewrite existsb_exists. split.
  - intros (x & Hx & E). apply String.eqb_eq in E. now subst.
  - intros H. exists b. split; [assumption|apply String.eqb_refl].
Qed.

Lemma in_list_filter (p : string -> bool) b l :
  In b l -> ParseBench.in_list b (filter p l) = p b.
Proof.
  intros Hin. destruct (p b) eqn:E.
  - apply in_list_In, filter_In. now split.
  - destruct (ParseBench.in_list b (filter p l)) eqn:F; [|reflexivity].
    apply in_list_In, filter_In in F. destruct F; congruence.
Qed.

Lemma in_list_app b l1 l2 :
  ParseBench.in_list b (l1 ++ l2)
  = ParseBench.in_list b l1 || ParseBench.in_list b l2.
Proof. unfold ParseBench.in_list. apply existsb_app. Qed.

(** Four tests of which exactly one holds split a list four ways. *)
Lemma four_way_split (p1 p2 p3 : string -> bool) l :
  (forall x, p1 x = true -> p2 x = false /\ p3 x = false) ->
  (forall x, p2 x = true -> p3 x = false) ->
  Permutation l
    (filter p1 l ++ filter p2 l ++ filter p3 l
       ++ filter (fun x => negb (p1 x || p2 x || p3 x)) l).
Proof.
  intros H1 H2. induction l as [|x l IH]; [constructor|].
  simpl. destruct (p1 x) eqn:E1.
  - destruct (H1 x E1) as [-> ->]. simpl. now apply perm_skip.
  - destruct (p2 x) eqn:E2.
    + rewrite (H2 x E2). simpl. now apply Permutation_cons_app.
    + destruct (p3 x) eqn:E3; simpl.
      * rewrite (app_assoc (filter p1 l)).
        apply Permutation_cons_app. now rewrite <- app_assoc.
      * rewrite (app_assoc (filter p1 l)), (app_assoc (filter p1 l ++ filter p2 l)).
        apply Permutation_cons_app. now rewrite <- !app_assoc.
Qed.

Lemma category_names_apart b :
  (ParseBench.in_list b ParseBench.micro_names = true ->
   ParseBench.in_list b ParseBench.realistic_names = false
   /\ ParseBench.in_list b ParseBench.array_names = false)
  /\ (ParseBench.in_list b ParseBench.realistic_names = true ->
      ParseBench.in_list b ParseBench.array_names = false).
Proof.
  split; intros H; apply in_list_In in H; simpl in H;
    repeat (destruct H as [<-|H]; [split; reflexivity || reflexivity|]);
    destruct H.
Qed.

(** X8. [generate_sections_html] puts every benchmark of the model in
    exactly one of its four categories, in the order of the model: the three
    named categories take the benchmarks of their fixed name lists, and
    every other benchmark goes to the last one. *)
Theorem X8_categories_partition_benchmarks :
  forall divan_data,
  exists micro realistic array other,
    map snd (ParseBench.categories_of divan_data)
    = [micro; realistic; array; other]
    /\ Permutation (Dict.keys divan_data)
                   (micro ++ realistic ++ array ++ other)
    /\ micro = filter (fun b => ParseBench.in_list b ParseBench.micro_names)
                      (Dict.keys divan_data)
    /\ realistic
       = filter (fun b => ParseBench.in_list b ParseBench.realistic_names)
                (Dict.keys divan_data)
    /\ array = filter (fun b => ParseBench.in_list b ParseBench.array_names)
                      (Dict.keys divan_data)
    /\ other
       = filter (fun b =>
                   negb (ParseBench.in_list b ParseBench.micro_names
                         || ParseBench.in_list b ParseBench.realistic_names
                         || ParseBench.in_list b ParseBench.array_names))
                (Dict.keys divan_data).
Proof.
  intros divan_data. eexists _, _, _, _.
  split; [reflexivity|].
  assert (Hother :
            filter
              (fun b =>
                 negb (ParseBench.in_list b
                         (filter (fun b => ParseBench.in_list b
                                             ParseBench.micro_names)
                                 (Dict.keys divan_data)
                            ++ filter (fun b => ParseBench.in_list b
                                                  ParseBench.realistic_names)
                                      (Dict.keys divan_data)
                            ++ filter (fun b => ParseBench.in_list b
                                                  ParseBench.array_names)
                                      (Dict.keys divan_data))))
              (Dict.keys divan_data)
            = filter
                (fun b =>
                   negb (ParseBench.in_list b ParseBench.micro_names
                         || ParseBench.in_list b ParseBench.realistic_names
                         || ParseBench.in_list b ParseBench.array_names))
                (Dict.keys divan_data)).
  { apply filter_ext_in. intros b Hb.
    rewrite !in_list_app, !in_list_filter by assumption.
    now rewrite orb_assoc. }
  split; [|repeat split; exact Hother].
  rewrite Hother. apply four_way_split.
  - intros x. apply category_names_apart.
  - intros x. apply category_names_apart.
Qed.

(** ** Every group with rows is rendered *)

Lemma get_some_in_keys {V} k (d : Dict.t V) v :
  Dict.get k d = Some v -> In k (Dict.keys d).
Proof.
  induction d as [|[k' v'] d IH]; simpl; [discriminate|].
  destruct (String.eqb_spec k' k) as [->|_]; [now left|].
  intros H. right. now apply IH.
Qed.

Lemma generate_benchmark_section_has
      bench_name operation divan_data gungraun_data bench_id :
  divan_data <> [] ->
  exists title rows c,
    ParseBench.generate_benchmark_section bench_name operation divan_data
      gungraun_data bench_id
    = Ok [Html.BenchmarkItem bench_id title rows c].
Proof.
  intros Hne.
  destruct (generate_benchmark_section_cases bench_name operation divan_data
              gungraun_data bench_id)
    as [(E & _)|(_ & f & rows & c & title & _ & _ & E)]; [contradiction|].
  now exists title, rows, c.
Qed.

Lemma nonempty_true {V} (d : Dict.t V) : d <> [] -> Dict.nonempty d = true.
Proof. destruct d; [congruence|reflexivity]. Qed.

Lemma benchmark_sections_has gungraun_data b e html :
  ParseBench.benchmark_sections gungraun_data b e = Ok html ->
  (ParseBench.deserialize e <> [] ->
   exists title rows c,
     In (Html.BenchmarkItem (b ++ "_deser") title rows c) html)
  /\ (ParseBench.serialize e <> [] ->
      exists title rows c,
        In (Html.BenchmarkItem (b ++ "_ser") title rows c) html).
Proof.
  unfold ParseBench.benchmark_sections. intros H.
  apply bind_ok in H. destruct H as (d & Hd & H).
  apply bind_ok in H. destruct H as (s & Hs & H). injection H as <-.
  split; intros Hne.
  - rewrite (@nonempty_true _ _ Hne) in Hd.
    destruct (@generate_benchmark_section_has b "deserialize" _ gungraun_data
                (b ++ "_deser") Hne) as (title & rows & c & E).
    rewrite E in Hd. injection Hd as <-.
    exists title, rows, c. apply in_or_app. left. now left.
  - rewrite (@nonempty_true _ _ Hne) in Hs.
    destruct (@generate_benchmark_section_has b "serialize" _ gungraun_data
                (b ++ "_ser") Hne) as (title & rows & c & E).
    rewrite E in Hs. injection Hs as <-.
    exists title, rows, c. apply in_or_app. right. now left.
Qed.

Lemma category_benchmarks_has divan_data gungraun_data benchmarks :
  forall html b e,
    ParseBench.category_benchmarks divan_data gungraun_data benchmarks
    = Ok html ->
    In b benchmarks -> Dict.get b divan_data = Some e ->
    exists h, ParseBench.benchmark_sections gungraun_data b e = Ok h
              /\ incl h html.
Proof.
  induction benchmarks as [|b0 bs IH]; intros html b e H Hin Hget;
    [destruct Hin|].
  simpl in H. apply bind_ok in H. destruct H as (e0 & He0 & H).
  apply bind_ok in H. destruct H as (h0 & Hh0 & H).
  apply bind_ok in H. destruct H as (t & Ht & H). injection H as <-.
  destruct Hin as [->|Hin].
  - unfold ParseBench.subscript in He0. rewrite Hget in He0.
    injection He0 as <-. exists h0. split; [assumption|].
    now apply incl_appl, incl_refl.
  - destruct (IH _ _ _ Ht Hin Hget) as (h & Hh & Hincl).
    exists h. split; [assumption|]. now apply incl_appr.
Qed.

Lemma categories_html_has divan_data gungraun_data categories :
  forall html cat b e,
    ParseBench.categories_html divan_data gungraun_data categories = Ok html ->
    In cat categories -> In b (snd cat) ->
    Dict.get b divan_data = Some e ->
    exists h, ParseBench.benchmark_sections gungraun_data b e = Ok h
              /\ incl h html.
Proof.
  induction categories as [|[name benchmarks] cats IH];
    intros html cat b e H Hcat Hin Hget; [destruct Hcat|].
  simpl in H. apply bind_ok in H. destruct H as (h0 & Hh0 & H).
  apply bind_ok in H. destruct H as (t & Ht & H). injection H as <-.
  destruct Hcat as [<-|Hcat].
  - simpl in Hin. destruct benchmarks as [|b0 bs]; [destruct Hin|].
    apply bind_ok in Hh0. destruct Hh0 as (body & Hbody & Hh0).
    injection Hh0 as <-.
    destruct (@category_benchmarks_has _ _ _ _ _ _ Hbody Hin Hget)
      as (h & Hh & Hincl).
    exists h. split; [assumption|].
    apply incl_appl. now apply incl_tl.
  - destruct (IH _ _ _ _ Ht Hcat Hin Hget) as (h & Hh & Hincl).
    exists h. split; [assumption|]. now apply incl_appr.
Qed.

(** Every benchmark of the model is in one of the categories. *)
Lemma categories_cover divan_data b :
  In b (Dict.keys divan_data) ->
  exists cat, In cat (ParseBench.categories_of divan_data) /\ In b (snd cat).
Proof.
  intros Hin. unfold ParseBench.categories_of.
  destruct (ParseBench.in_list b ParseBench.micro_names) eqn:E1.
  { eexists. split; [now left|]. simpl. apply filter_In. now split. }
  destruct (ParseBench.in_list b ParseBench.realistic_names) eqn:E2.
  { eexists. split; [right; now left|]. simpl. apply filter_In. now split. }
  destruct (ParseBench.in_list b ParseBench.array_names) eqn:E3.
  { eexists. split; [right; right; now left|].
    simpl. apply filter_In. now split. }
  eexists. split; [right; right; right; now left|].
  cbn [snd]. apply filter_In. split; [assumption|].
  rewrite !in_list_app, !in_list_filter by assumption.
  cbv beta. now rewrite E1, E2, E3.
Qed.

(** X9. The report has a table and a chart for exactly the operations that
    have rows: an item is in the sections under the id of a benchmark and an
    operation if and only if the model has that benchmark with a non-empty
    map for that operation.  Producing the sections raises nothing. *)
Theorem X9_sections_render_every_group_with_rows :
  forall divan_data gungraun_data,
  exists html,
    ParseBench.generate_sections_html divan_data gungraun_data = Ok html
    /\ forall id,
         (exists title rows c,
             In (Html.BenchmarkItem id title rows c) html)
         <-> Spec.rendered_from divan_data id.
Proof.
  intros divan_data gungraun_data.
  destruct (generate_sections_html_items divan_data gungraun_data)
    as (html & E & Hsound).
  exists html. split; [exact E|].
  intros id. split.
  - intros (title & rows & c & Hin). eauto.
  - intros (b & e & Hget & Hcase).
    destruct (@categories_cover divan_data b (@get_some_in_keys _ _ _ _ Hget))
      as (cat & Hcat & Hb).
    destruct (@categories_html_has _ _ _ _ _ _ _ E Hcat Hb Hget) as (h & Hh & Hincl).
    destruct (@benchmark_sections_has _ _ _ _ Hh) as [Hd Hs].
    destruct Hcase as [[-> Hne]|[-> Hne]].
    + destruct (Hd Hne) as (title & rows & c & Hin).
      exists title, rows, c. now apply Hincl.
    + destruct (Hs Hne) as (title & rows & c & Hin).
      exists title, rows, c. now apply Hincl.
Qed.

(** ** The table and the chart of a group *)

Lemma filter_perm {A} (p : A -> bool) l l' :
  Permutation l l' -> Permutation (filter p l) (filter p l').
Proof.
  induction 1 as [|x l l' _ IH|x y l|l l' l'' _ IH1 _ IH2]; simpl.
  - constructor.
  - destruct (p x); [now apply perm_skip|exact IH].
  - destruct (p x), (p y); try reflexivity. apply perm_swap.
  - now transitivity (filter p l').
Qed.

Lemma filter_sorted {A} (R : A -> A -> Prop) (p : A -> bool) l :
  StronglySorted R l -> StronglySorted R (filter p l).
Proof.
  induction 1 as [|x l _ IH Hall]; simpl; [constructor|].
  destruct (p x); [|exact IH].
  constructor; [exact IH|].
  apply Forall_forall. intros y Hy. apply filter_In in Hy.
  rewrite Forall_forall in Hall. now apply Hall.
Qed.

(** What a row of the table holds. *)
Lemma table_row_fields bench_name gungraun_data serde_time fastest_time
      target time_ns row :
  ParseBench.table_row_of bench_name gungraun_data serde_time fastest_time
    (target, time_ns) = Ok (Some row) ->
  exists config,
    Dict.get target ParseBench.TARGETS = Some config
    /\ Html.data_target row = target
    /\ Html.row_emoji row = ParseBench.emoji config
    /\ Html.row_label row = ParseBench.label config
    /\ Html.median_time row = ParseBench.format_time time_ns
    /\ Html.row_class row
       = ParseBench.row_class_of target time_ns fastest_time
    /\ Html.instructions_str row
       = ParseBench.instructions_cell
           (ParseBench.lookup_instructions gungraun_data
              (bench_name ++ "_" ++ target)).
Proof.
  unfold ParseBench.table_row_of.
  destruct (Dict.mem target ParseBench.TARGETS); cbn [negb];
    [|discriminate].
  unfold ParseBench.subscript.
  destruct (Dict.get target ParseBench.TARGETS) as [config|] eqn:G;
    [|discriminate].
  cbn [bind].
  destruct (ParseBench.vs_serde_of time_ns serde_time) as [q|];
    [|discriminate].
  cbn [bind]. intros H. injection H as <-. exists config.
  repeat split; reflexivity.
Qed.

(** The rows of the table are the rows of the registry targets, in the
    order of the sorted measurements. *)
Lemma table_rows_shown bench_name gungraun_data serde_time fastest_time items :
  forall rows,
    ParseBench.table_rows bench_name gungraun_data serde_time fastest_time items
    = Ok rows ->
    Forall2 (fun item row =>
               ParseBench.table_row_of bench_name gungraun_data serde_time
                 fastest_time item = Ok (Some row))
            (filter Report.known items) rows.
Proof.
  induction items as [|[target time_ns] items IH]; simpl; intros rows H.
  - injection H as <-. constructor.
  - apply bind_ok in H. destruct H as (r & Hr & H).
    apply bind_ok in H. destruct H as (rs & Hrs & H). injection H as <-.
    unfold Report.known at 1. cbn [fst].
    unfold ParseBench.table_row_of in Hr.
    destruct (Dict.mem target ParseBench.TARGETS) eqn:E; simpl in Hr.
    + assert (Hrow : ParseBench.table_row_of bench_name gungraun_data
                       serde_time fastest_time (target, time_ns) = Ok r).
      { unfold ParseBench.table_row_of. rewrite E. exact Hr. }
      destruct r as [row|].
      * constructor; [exact Hrow|now apply IH].
      * exfalso. clear Hrow.
        destruct (ParseBench.subscript target ParseBench.TARGETS);
          [|discriminate].
        cbn [bind] in Hr.
        destruct (ParseBench.vs_serde_of time_ns serde_time); discriminate.
    + injection Hr as <-. now apply IH.
Qed.

Lemma chart_column_shown {A} (f : ParseBench.target_config -> Q -> A) items :
  forall xs,
    ParseBench.chart_column f items = Ok xs ->
    Forall2 (fun item x =>
               exists config,
                 Dict.get (fst item) ParseBench.TARGETS = Some config
                 /\ x = f config (snd item))
            (filter Report.known items) xs.
Proof.
  induction items as [|[target time_ns] items IH]; simpl; intros xs H.
  - injection H as <-. constructor.
  - unfold Report.known at 1. cbn [fst].
    destruct (Dict.mem target ParseBench.TARGETS) eqn:E.
    + unfold ParseBench.subscript in H.
      destruct (Dict.get target ParseBench.TARGETS) as [config|] eqn:G;
        [|discriminate].
      cbn [bind] in H. apply bind_ok in H. destruct H as (t & Ht & H).
      injection H as <-. constructor; [|now apply IH].
      exists config. now split.
    + now apply IH.
Qed.

Lemma Forall2_map_r {A B C} (P : A -> B -> Prop) (g : B -> C) (h : A -> C)
      l rows :
  (forall a b, P a b -> g b = h a) ->
  Forall2 P l rows -> map g rows = map h l.
Proof.
  intros H. induction 1 as [|a b l rows Hab _ IH]; simpl; [reflexivity|].
  now rewrite (H _ _ Hab), IH.
Qed.

Lemma Forall2_same_left {A B C} (P : A -> B -> Prop) (Q : A -> C -> Prop)
      (g : B -> C) l rows xs :
  (forall a b c, P a b -> Q a c -> c = g b) ->
  Forall2 P l rows -> Forall2 Q l xs -> xs = map g rows.
Proof.
  intros H HP. revert xs.
  induction HP as [|a b l rows Hab _ IH]; intros xs HQ.
  - inversion HQ. reflexivity.
  - inversion HQ as [|? c ? xs' Hac HQ']; subst. simpl.
    rewrite (H _ _ _ Hab Hac). f_equal. now apply IH.
Qed.

(** X10. The table of a group with at least one measurement has one row per
    measurement whose target is in the registry, fastest first, with the
    duration of that measurement; measurements of other targets get no row.
    The chart is aligned with the table: its bars are labelled by the rows,
    in the same order, and hold the same durations in microseconds, and its
    colour lists have one entry per row. *)
Theorem X10_table_and_chart_follow_sorted_known_targets :
  forall bench_name operation divan_data gungraun_data bench_id,
    divan_data <> [] ->
    exists title rows c,
      ParseBench.generate_benchmark_section bench_name operation divan_data
        gungraun_data bench_id
      = Ok [Html.BenchmarkItem bench_id title rows c]
      /\ map Html.data_target rows = map fst (Report.shown divan_data)
      /\ map Html.median_time rows
         = map (fun item => ParseBench.format_time (snd item))
               (Report.shown divan_data)
      /\ StronglySorted Spec.value_le (Report.shown divan_data)
      /\ Permutation (Report.shown divan_data)
                     (filter Report.known (Dict.items divan_data))
      /\ Html.chart_labels c = map Report.bar_label rows
      /\ Html.chart_data c
         = map (fun item => Num.format_fixed 3 (snd item / 1000)%Q)
               (Report.shown divan_data)
      /\ List.length (Html.backgroundColor c) = List.length rows
      /\ List.length (Html.borderColor c) = List.length rows.
Proof.
  intros bench_name operation divan_data gungraun_data bench_id Hne.
  unfold ParseBench.generate_benchmark_section.
  rewrite (@nonempty_true _ _ Hne). cbn [negb].
  destruct divan_data as [|[k v] d]; [congruence|].
  cbn [Dict.values map snd Num.py_min bind].
  set (data := (k, v) :: d).
  set (sorted := Num.sorted_by_value (Dict.items data)).
  set (fastest := Num.min_from v (map snd d)).
  destruct (table_rows_total bench_name gungraun_data
              (Dict.get "serde_json" data) fastest sorted) as [rows Hr].
  rewrite Hr. cbn [bind].
  pose proof (@table_rows_shown _ _ _ _ _ _ Hr) as Hrows.
  unfold ParseBench.chart_of.
  destruct (chart_column_total
              (fun c _ => ParseBench.emoji c ++ " " ++ ParseBench.label c)
              sorted) as [labels Hl].
  destruct (chart_column_total
              (fun _ t => Num.format_fixed 3 (t / 1000)%Q) sorted)
    as [cdata Hd].
  destruct (chart_column_total
              (fun c (_ : Q) => ParseBench.color c ++ "CC") sorted)
    as [bg Hbg].
  destruct (chart_column_total
              (fun c (_ : Q) => ParseBench.color c) sorted) as [border Hbo].
  rewrite Hl, Hd, Hbg, Hbo. cbn [bind].
  apply chart_column_shown in Hl, Hd, Hbg, Hbo.
  change (filter Report.known sorted) with (Report.shown data) in *.
  do 3 eexists. split; [reflexivity|].
  cbn [Html.chart_labels Html.chart_data Html.backgroundColor
       Html.borderColor].
  split; [|split; [|split; [|split; [|split; [|split; [|split]]]]]].
  - eapply Forall2_map_r; [|exact Hrows]. intros [t q] row H.
    apply table_row_fields in H. destruct H as (config & _ & H & _).
    exact H.
  - eapply Forall2_map_r; [|exact Hrows]. intros [t q] row H.
    apply table_row_fields in H.
    destruct H as (config & _ & _ & _ & _ & H & _). exact H.
  - apply filter_sorted, sorted_sorted.
  - apply filter_perm. apply Permutation_sym, sorted_perm.
  - eapply Forall2_same_left; [|exact Hrows|exact Hl].
    intros [t q] row x H (config & G & ->).
    apply table_row_fields in H.
    destruct H as (config' & G' & _ & He & Hlab & _).
    cbn [fst] in G. rewrite G in G'. injection G' as <-.
    unfold Report.bar_label. now rewrite He, Hlab.
  - rewrite <- (map_id cdata). eapply Forall2_map_r; [|exact Hd].
    intros a b (config & _ & ->). reflexivity.
  - rewrite <- (Forall2_length Hrows). symmetry. apply (Forall2_length Hbg).
  - rewrite <- (Forall2_length Hrows). symmetry. apply (Forall2_length Hbo).
Qed.

Lemma X10_witness :
  exists title rows c,
    ParseBench.generate_benchmark_section "simple_struct" "deserialize"
      Inputs.group [] "simple_struct_deser"
    = Ok [Html.BenchmarkItem "simple_struct_deser" title rows c]
    /\ map Html.data_target rows = ["facet_format_jit"; "serde_json"].
Proof.
  destruct (@X10_table_and_chart_follow_sorted_known_targets
              "simple_struct" "deserialize" Inputs.group []
              "simple_struct_deser")
    as (title & rows & c & E & Ht & _); [discriminate|].
  exists title, rows, c. split; [exact E|exact Ht].
Defined.

(** ** The class of a row *)

Lemma Forall2_in_left {A B} (P : A -> B -> Prop) l rows :
  Forall2 P l rows -> Forall2 (fun a b => In a l /\ P a b) l rows.
Proof.
  induction 1 as [|a b l rows Hab _ IH]; constructor.
  - split; [now left|exact Hab].
  - eapply Forall2_impl; [|exact IH].
    intros x y [Hin H]. split; [now right|exact H].
Qed.

Lemma row_class_fastest target time_ns fastest_time :
  ParseBench.row_class_of target time_ns fastest_time = "fastest"
  <-> (time_ns == fastest_time)%Q.
Proof.
  unfold ParseBench.row_class_of.
  destruct (Qeq_bool time_ns fastest_time) eqn:E.
  - split; [intros _; now apply Qeq_bool_iff|reflexivity].
  - split.
    + destruct (String.eqb target "serde_json"); [discriminate|].
      destruct (String.eqb target "facet_format_jit"); discriminate.
    + intros H. apply Qeq_bool_iff in H. congruence.
Qed.

Lemma row_class_named target time_ns fastest_time :
  (ParseBench.row_class_of target time_ns fastest_time = "baseline" ->
   target = "serde_json")
  /\ (ParseBench.row_class_of target time_ns fastest_time = "jit-highlight" ->
      target = "facet_format_jit").
Proof.
  unfold ParseBench.row_class_of.
  destruct (Qeq_bool time_ns fastest_time); [split; discriminate|].
  destruct (String.eqb_spec target "serde_json") as [->|_];
    [split; [reflexivity|discriminate]|].
  destruct (String.eqb_spec target "facet_format_jit") as [->|_];
    [split; [discriminate|reflexivity]|].
  split; discriminate.
Qed.

(** X11. A row of the table is marked fastest exactly when its duration is
    the smallest of the whole group, the measurements of targets outside the
    registry included: when such a target is strictly the fastest, no row is
    marked.  Rows of equal smallest duration are all marked.  Only the row of
    serde_json can be marked baseline and only the row of facet_format_jit
    jit-highlight. *)
Theorem X11_fastest_mark_compares_with_whole_group :
  forall bench_name operation divan_data gungraun_data bench_id title rows c,
    ParseBench.generate_benchmark_section bench_name operation divan_data
      gungraun_data bench_id
    = Ok [Html.BenchmarkItem bench_id title rows c] ->
    Forall2 (fun item row =>
               (Html.row_class row = "fastest"
                <-> forall x, In x (Dict.values divan_data) ->
                              (snd item <= x)%Q)
               /\ (Html.row_class row = "baseline" ->
                   fst item = "serde_json")
               /\ (Html.row_class row = "jit-highlight" ->
                   fst item = "facet_format_jit"))
            (Report.shown divan_data) rows.
Proof.
  intros bench_name operation divan_data gungraun_data bench_id title rows c H.
  destruct (generate_benchmark_section_cases bench_name operation divan_data
              gungraun_data bench_id)
    as [(_ & E)|(Hne & f & rows' & c' & title' & Hf & Hr & E)];
    rewrite E in H; [discriminate|].
  injection H as _ <- _.
  destruct divan_data as [|[k v] d]; [congruence|].
  cbn [Dict.values map snd Num.py_min] in Hf. injection Hf as <-.
  destruct (min_from_spec (map snd d) v) as [Hin Hle].
  apply table_rows_shown, Forall2_in_left in Hr.
  eapply Forall2_impl; [|exact Hr].
  intros [target t] row [Hitem Hrow]. cbn [fst snd].
  apply table_row_fields in Hrow.
  destruct Hrow as (config & _ & _ & _ & _ & _ & Hc & _).
  rewrite Hc. split; [|apply row_class_named].
  rewrite row_class_fastest. split.
  - intros Eq x Hx. rewrite Eq. now apply Hle.
  - intros Hall. apply Qle_antisym.
    + apply Hall. exact Hin.
    + apply Hle. apply filter_In in Hitem. destruct Hitem as [Hitem _].
      apply (Permutation_in _ (Permutation_sym (sorted_perm _))) in Hitem.
      change (In (target, t) ((k, v) :: d)) in Hitem.
      now apply (in_map snd) in Hitem.
Qed.

Lemma X11_witness :
  exists rows,
    map Html.row_class rows = ["jit-highlight"; "baseline"]
    /\ Forall2 (fun item row =>
                  (Html.row_class row = "fastest"
                   <-> forall x, In x (Dict.values Inputs.group) ->
                                 (snd item <= x)%Q)
                  /\ (Html.row_class row = "baseline" ->
                      fst item = "serde_json")
                  /\ (Html.row_class row = "jit-highlight" ->
                      fst item = "facet_format_jit"))
               (Report.shown Inputs.group) rows.
Proof.
  assert (E : exists title rows c,
             ParseBench.generate_benchmark_section "simple_struct"
               "deserialize" Inputs.group [] "simple_struct_deser"
             = Ok [Html.BenchmarkItem "simple_struct_deser" title rows c]
             /\ map Html.row_class rows = ["jit-highlight"; "baseline"])
    by (vm_compute; do 3 eexists; split; reflexivity).
  destruct E as (title & rows & c & E & Hc).
  exists rows. split; [exact Hc|].
  exact (@X11_fastest_mark_compares_with_whole_group _ _ _ _ _ _ _ _ E).
Defined.

(** ** Counts with thousands separators *)

Lemma digits_val_uint d : forall acc,
  Num.digits_val acc (NilEmpty.string_of_uint d)
  = match acc with
    | N0 => Pos.of_uint d
    | Npos p => Npos (Pos.of_uint_acc d p)
    end.
Proof.
  induction d as [|d IH|d IH|d IH|d IH|d IH|d IH|d IH|d IH|d IH|d IH];
    intros acc; cbn [NilEmpty.string_of_uint Num.digits_val];
    [destruct acc; reflexivity|..];
    rewrite IH; destruct acc as [|p]; try reflexivity;
    cbn [Pos.of_uint_acc];
    match goal with
    | |- match ?x with _ => _ end = N.pos (Pos.of_uint_acc _ ?q) =>
        replace x with (N.pos q); [reflexivity|]
    end;
    match goal with
    | |- context [Num.digit_val ?a] =>
        let v := eval vm_compute in (Num.digit_val a) in
        change (Num.digit_val a) with v
    end; lia.
Qed.

Lemma uint_digits d : Str.all Str.is_digit (NilEmpty.string_of_uint d) = true.
Proof.
  induction d; cbn [NilEmpty.string_of_uint Str.all];
    [reflexivity|rewrite IHd; reflexivity..].
Qed.

Lemma format_int_digits n :
  Str.all Str.is_digit (Num.format_int n) = true /\ Num.format_int n <> "".
Proof.
  unfold Num.format_int. destruct (N.to_uint n) as [|d|d|d|d|d|d|d|d|d|d];
    (split; [|discriminate]);
    [reflexivity|..];
    match goal with
    | |- Str.all _ (NilZero.string_of_uint ?u) = true =>
        change (NilZero.string_of_uint u) with (NilEmpty.string_of_uint u)
    end; apply uint_digits.
Qed.

(** [int(str(n)) == n]. *)
Lemma digits_val_format_int n : Num.digits_val 0 (Num.format_int n) = n.
Proof.
  transitivity (N.of_uint (N.to_uint n)); [|apply DecimalN.Unsigned.of_to].
  unfold Num.format_int. destruct (N.to_uint n) as [|d|d|d|d|d|d|d|d|d|d];
    [reflexivity|..];
    match goal with
    | |- Num.digits_val 0 (NilZero.string_of_uint ?u) = _ =>
        change (NilZero.string_of_uint u) with (NilEmpty.string_of_uint u)
    end; apply (digits_val_uint _ 0%N).
Qed.

Lemma digit_not_comma a s :
  Str.is_digit a = true -> prefix "," (String a s) = false.
Proof.
  intros H. cbn [prefix]. destruct (ascii_dec "," a) as [<-|_];
    [discriminate|reflexivity].
Qed.

Lemma digit_is_digit_or_comma a :
  Str.is_digit a = true -> ParseBench.digit_or_comma a = true.
Proof. intros H. unfold ParseBench.digit_or_comma. now rewrite H. Qed.

(** The separators that [commas] puts in are what [replace(',', '')] takes
    out. *)
Lemma commas_removed s :
  Str.all Str.is_digit s = true ->
  Str.remove "," (Num.commas s) = s
  /\ Str.all ParseBench.digit_or_comma (Num.commas s) = true.
Proof.
  unfold Str.remove. induction s as [|a s IH]; [split; reflexivity|].
  intros H. cbn [Str.all] in H. apply andb_prop in H. destruct H as [Ha Hs].
  destruct (IH Hs) as [IH1 IH2]. cbn [Num.commas].
  destruct (Nat.eqb (String.length s mod 3) 0 && negb (Nat.eqb (String.length s) 0)).
  - split.
    + cbn [Str.remove_from]. rewrite (@digit_not_comma _ _ Ha).
      f_equal. cbn [Str.remove_from prefix].
      destruct (ascii_dec "," ","); [|congruence].
      replace (prefix "" (Num.commas s)) with true
        by (destruct (Num.commas s); reflexivity).
      cbn [String.length Nat.sub]. exact IH1.
    + cbn [Str.all]. rewrite (@digit_is_digit_or_comma _ Ha), IH2. reflexivity.
  - split.
    + cbn [Str.remove_from]. rewrite (@digit_not_comma _ _ Ha).
      f_equal. exact IH1.
    + cbn [Str.all]. now rewrite (@digit_is_digit_or_comma _ Ha), IH2.
Qed.

Lemma commas_nonempty s : s <> "" -> Num.commas s <> "".
Proof.
  destruct s as [|a s]; [congruence|]. intros _. cbn [Num.commas].
  destruct (Nat.eqb (String.length s mod 3) 0
            && negb (Nat.eqb (String.length s) 0)); discriminate.
Qed.

(** [int(f"{n:,}".replace(',', '')) == n]. *)
Lemma py_int_format_thousands n :
  Num.py_int (Str.remove "," (Num.format_thousands n)) = Ok n.
Proof.
  unfold Num.format_thousands.
  destruct (format_int_digits n) as [Hd Hne].
  destruct (@commas_removed _ Hd) as [-> _].
  unfold Num.py_int, Num.digit_string. rewrite Hd.
  destruct (String.eqb_spec (Num.format_int n) ""); [contradiction|].
  cbn [negb andb]. now rewrite digits_val_format_int.
Qed.

(** ** Lines the instruction patterns recognize *)

Lemma stops_append (p : ascii -> bool) s t :
  s <> "" -> Gen.stops p s -> Gen.stops p (s ++ t).
Proof. destruct s; [congruence|]. intros _ H. exact H. Qed.

Lemma digit_or_comma_not_space a :
  ParseBench.digit_or_comma a = true -> Str.is_space a = false.
Proof.
  destruct a as [[] [] [] [] [] [] [] []]; vm_compute; congruence.
Qed.

Lemma metric_re_complete ws1 label ws2 value rest :
  Gen.blanks ws1 -> Gen.label label -> Gen.blanks ws2 ->
  Str.all ParseBench.digit_or_comma value = true -> value <> "" ->
  Gen.stops ParseBench.digit_or_comma rest ->
  Re.re_match ParseBench.metric_re
              (ws1 ++ label ++ ":" ++ ws2 ++ value ++ rest)
  = Some [(2, value); (1, label)].
Proof.
  intros [Hws1 Hne1] (Hl & Hnl & Hls) [Hws2 Hne2] Hv Hnv Hrest.
  unfold Re.re_match, ParseBench.metric_re, ParseBench.label_value_re.
  rewrite run_seq. apply run_plus_greedy; try assumption.
  { now apply stops_append. }
  rewrite run_seq. apply run_group_plus_greedy; try assumption.
  { reflexivity. }
  rewrite run_seq, run_lit, run_seq.
  apply run_plus_greedy; try assumption.
  { apply stops_first with (q := ParseBench.digit_or_comma);
      [apply digit_or_comma_not_space|assumption|assumption]. }
  apply run_group_plus_greedy; try assumption. reflexivity.
Qed.

Lemma legacy_metric_re_complete ws1 label ws2 value rest :
  Gen.blanks ws1 -> Gen.word label -> Gen.blanks ws2 ->
  Str.all ParseBench.digit_or_comma value = true -> value <> "" ->
  Gen.stops ParseBench.digit_or_comma rest ->
  Re.re_match ParseBenchLegacy.metric_re
              (ws1 ++ label ++ ":" ++ ws2 ++ value ++ rest)
  = Some [(2, value); (1, label)].
Proof.
  intros [Hws1 Hne1] [Hl Hnl] [Hws2 Hne2] Hv Hnv Hrest.
  unfold Re.re_match, ParseBenchLegacy.metric_re, ParseBench.label_value_re.
  rewrite run_seq. apply run_plus_greedy; try assumption.
  { apply stops_first with (q := Str.is_word);
      [apply word_not_space|assumption|assumption]. }
  rewrite run_seq. cbn [Re.run]. fold (Re.Plus (Re.Cls Str.is_word)).
  apply run_plus_greedy; try assumption.
  { reflexivity. }
  change (":" ++ ws2 ++ value ++ rest)
    with (String ":" (ws2 ++ value ++ rest)).
  cbn [String.length].
  change (Str.is_space ":") with false. cbv iota.
  unfold Re.consumed.
  change (String ":" (ws2 ++ value ++ rest))
    with (":" ++ ws2 ++ value ++ rest).
  rewrite take_append, strip_prefix_of_append.
  fold (Re.Plus (Re.Cls Str.is_space)).
  apply run_plus_greedy; try assumption.
  { apply stops_first with (q := ParseBench.digit_or_comma);
      [apply digit_or_comma_not_space|assumption|assumption]. }
  fold (Re.Plus (Re.Cls ParseBench.digit_or_comma)).
  apply run_plus_greedy; try assumption. now rewrite take_append.
Qed.

Lemma name_re_blank a s :
  Str.is_space a = true -> Re.re_match ParseBench.name_re (String a s) = None.
Proof.
  intros H. unfold Re.re_match, ParseBench.name_re.
  cbn [Re.run Str.strip_prefix].
  destruct a as [[] [] [] [] [] [] [] []]; try reflexivity;
    vm_compute in H; discriminate.
Qed.

Lemma name_re_blanks ws s :
  Gen.blanks ws -> Re.re_match ParseBench.name_re (ws ++ s) = None.
Proof.
  intros [Hws Hne]. destruct ws as [|a ws]; [congruence|].
  cbn [Str.all] in Hws. apply andb_prop in Hws. destruct Hws as [Ha _].
  now apply name_re_blank.
Qed.

Lemma name_re_complete m key rest :
  Gen.word m -> Gen.word key -> Gen.stops Str.is_word rest ->
  Re.re_match ParseBench.name_re (Gen.name_line m key rest)
  = Some [(1, key)].
Proof.
  intros [Hm Hnm] [Hk Hnk] Hrest.
  unfold Re.re_match, ParseBench.name_re, Gen.name_line.
  rewrite run_seq, run_lit, run_seq.
  apply run_plus_greedy; try assumption.
  { reflexivity. }
  rewrite run_seq, run_lit.
  apply run_group_plus_greedy; try assumption. reflexivity.
Qed.

(** X12. A count written with thousands separators, as the report itself
    writes counts, is read back as that count: under an open section, a
    line of blanks, a label, a colon, blanks and the count stores the count
    under the stripped label, whatever follows the count that is neither a
    digit nor a comma (a separator and a baseline, for one).  The earlier
    script does the same for a label of one word.  When the label is
    Instructions and the count is not zero, the cell the report shows for
    that section is the text that was read. *)
Theorem X12_printed_count_is_read_back :
  forall results cur metrics ws1 label ws2 n rest,
    cur <> "" ->
    Dict.get cur results = Some metrics ->
    Gen.blanks ws1 -> Gen.label label -> Gen.blanks ws2 ->
    Gen.stops ParseBench.digit_or_comma rest ->
    ParseBench.gungraun_line (results, Some cur)
      (Gen.metric_line ws1 label ws2 n rest)
    = Ok (Dict.set cur (Dict.set (Str.strip label) n metrics) results,
          Some cur)
    /\ (Gen.word label ->
        ParseBenchLegacy.gungraun_line (results, Some cur)
          (Gen.metric_line ws1 label ws2 n rest)
        = Ok (Dict.set cur (Dict.set (Str.strip label) n metrics) results,
              Some cur))
    /\ (Str.strip label = "Instructions" -> n <> 0%N ->
        ParseBench.instructions_cell
          (ParseBench.lookup_instructions
             (Dict.set cur (Dict.set (Str.strip label) n metrics) results)
             cur)
        = Num.format_thousands n).
Proof.
  intros results cur metrics ws1 label ws2 n rest Hcur Hget Hws1 Hlabel Hws2
         Hrest.
  assert (Hact : ParseBench.active (Some cur) = Some cur).
  { simpl. destruct (String.eqb_spec cur ""); congruence. }
  assert (Hname : Re.re_match ParseBench.name_re
                    (Gen.metric_line ws1 label ws2 n rest) = None)
    by now apply name_re_blanks.
  destruct (format_int_digits n) as [Hd Hne].
  destruct (@commas_removed _ Hd) as [_ Hshape].
  pose proof (commas_nonempty Hne) as Hcne.
  fold (Num.format_thousands n) in Hshape, Hcne.
  split; [|split].
  - rewrite (@gungraun_line_metric results (Some cur) cur metrics _ label
               (Num.format_thousands n) Hname Hact Hget).
    + now rewrite py_int_format_thousands.
    + now apply metric_re_complete.
    + exact Hshape.
  - intros Hword.
    rewrite (@legacy_gungraun_line_metric results (Some cur) cur metrics _
               label (Num.format_thousands n) Hname Hact Hget).
    + now rewrite py_int_format_thousands.
    + now apply legacy_metric_re_complete.
  - intros Hl Hn. unfold ParseBench.lookup_instructions.
    rewrite get_set_same, Hl, get_set_same.
    unfold ParseBench.instructions_cell.
    destruct (N.eqb_spec n 0); [contradiction|reflexivity].
Qed.

Lemma X12_witness :
  ParseBench.gungraun_line Sample.in_gungraun_section Sample.boundary_line
  = Ok ([("simple_struct_facet_format_jit", [("Instructions", 6549%N)])],
        Some "simple_struct_facet_format_jit").
Proof.
  destruct (@X12_printed_count_is_read_back
              [("simple_struct_facet_format_jit", Dict.empty)]
              "simple_struct_facet_format_jit" Dict.empty
              "  " "Instructions" " " 6549%N "|0") as [H _];
    [discriminate | reflexivity | split; [reflexivity|discriminate]
     | split; [reflexivity|split; [discriminate|reflexivity]]
     | split; [reflexivity|discriminate] | reflexivity | exact H].
Defined.

(** X13. A line that starts with gungraun_jit::, a module name, :: and a
    run of word characters opens the section of that run in both scripts:
    the run is the key, its metrics start empty even when the key was there
    before, and what follows the run on the line, further segments
    included, is not read.  A line that starts with a blank never opens a
    section. *)
Theorem X13_instruction_section_line_recognized :
  forall results current m key rest,
    Gen.word m -> Gen.word key -> Gen.stops Str.is_word rest ->
    ParseBench.gungraun_line (results, current) (Gen.name_line m key rest)
    = Ok (Dict.set key Dict.empty results, Some key)
    /\ ParseBenchLegacy.gungraun_line (results, current)
         (Gen.name_line m key rest)
       = Ok (Dict.set key Dict.empty results, Some key)
    /\ Dict.get key (Dict.set key (@Dict.empty N) results) = Some Dict.empty
    /\ Dict.keys (Dict.set key (@Dict.empty N) results)
       = (if Dict.mem key results then Dict.keys results
          else Dict.keys results ++ [key])%list
    /\ forall sp line,
         Str.is_space sp = true ->
         Re.re_match ParseBench.name_re (String sp line) = None.
Proof.
  intros results current m key rest Hm Hkey Hrest.
  pose proof (@name_re_complete m key rest Hm Hkey Hrest) as E.
  split; [|split; [|split; [|split]]].
  - unfold ParseBench.gungraun_line. now rewrite E.
  - unfold ParseBenchLegacy.gungraun_line. now rewrite E.
  - apply get_set_same.
  - destruct (Dict.mem key results) eqn:M.
    + now apply keys_set_known.
    + apply keys_set_fresh. now apply not_mem_not_in_keys.
  - intros sp line. apply name_re_blank.
Qed.

Lemma X13_witness :
  ParseBench.gungraun_line ([], None)
    (Gen.name_line "jit_benchmarks" "simple_struct_serde_json" "::warm")
  = Ok ([("simple_struct_serde_json", [])], Some "simple_struct_serde_json").
Proof.
  destruct (@X13_instruction_section_line_recognized
              [] None "jit_benchmarks" "simple_struct_serde_json" "::warm")
    as [H _];
    [split; [reflexivity|discriminate] | split; [reflexivity|discriminate]
     | reflexivity | exact H].
Defined.

(** ** The summary line and the document *)

Lemma tables_app h1 h2 :
  Report.tables (h1 ++ h2)%list = Report.tables h1 + Report.tables h2.
Proof. unfold Report.tables. now rewrite filter_app, length_app. Qed.

Lemma benchmark_sections_tables gungraun_data b e h :
  ParseBench.benchmark_sections gungraun_data b e = Ok h ->
  Report.tables h = Report.operations_with_rows e.
Proof.
  unfold ParseBench.benchmark_sections, Report.operations_with_rows.
  intros H. apply bind_ok in H. destruct H as (d & Hd & H).
  apply bind_ok in H. destruct H as (s & Hs & H). injection H as <-.
  rewrite tables_app. f_equal.
  - destruct (ParseBench.deserialize e) as [|x l] eqn:E.
    + cbn [Dict.nonempty] in Hd. now injection Hd as <-.
    + cbn [Dict.nonempty] in Hd.
      destruct (@generate_benchmark_section_has b "deserialize" (x :: l)
                  gungraun_data (b ++ "_deser"))
        as (title & rows & c & G); [discriminate|].
      rewrite G in Hd. now injection Hd as <-.
  - destruct (ParseBench.serialize e) as [|x l] eqn:E.
    + cbn [Dict.nonempty] in Hs. now injection Hs as <-.
    + cbn [Dict.nonempty] in Hs.
      destruct (@generate_benchmark_section_has b "serialize" (x :: l)
                  gungraun_data (b ++ "_ser"))
        as (title & rows & c & G); [discriminate|].
      rewrite G in Hs. now injection Hs as <-.
Qed.

Lemma category_benchmarks_tables divan_data gungraun_data benchmarks :
  forall h,
    ParseBench.category_benchmarks divan_data gungraun_data benchmarks = Ok h ->
    Report.tables h
    = list_sum (map (Report.operations_of divan_data) benchmarks).
Proof.
  induction benchmarks as [|b bs IH]; intros h H; simpl in H.
  - now injection H as <-.
  - apply bind_ok in H. destruct H as (e & He & H).
    apply bind_ok in H. destruct H as (h0 & Hh0 & H).
    apply bind_ok in H. destruct H as (t & Ht & H). injection H as <-.
    rewrite tables_app, (IH _ Ht), (@benchmark_sections_tables _ _ _ _ Hh0).
    cbn [map list_sum fold_right]. f_equal.
    unfold Report.operations_of. unfold ParseBench.subscript in He.
    destruct (Dict.get b divan_data); [now injection He as <-|discriminate].
Qed.

Lemma categories_html_tables divan_data gungraun_data categories :
  forall h,
    ParseBench.categories_html divan_data gungraun_data categories = Ok h ->
    Report.tables h
    = list_sum (map (Report.operations_of divan_data)
                    (concat (map snd categories))).
Proof.
  induction categories as [|[name bs] cats IH]; intros h H; simpl in H.
  - now injection H as <-.
  - apply bind_ok in H. destruct H as (h0 & Hh0 & H).
    apply bind_ok in H. destruct H as (t & Ht & H). injection H as <-.
    cbn [map snd concat]. rewrite tables_app, map_app, list_sum_app.
    rewrite (IH _ Ht). f_equal.
    destruct bs as [|b0 bs]; [now injection Hh0 as <-|].
    apply bind_ok in Hh0. destruct Hh0 as (body & Hbody & Hh0).
    injection Hh0 as <-.
    change (Report.tables (Html.SectionHeader name :: body))
      with (Report.tables body).
    apply (@category_benchmarks_tables _ _ _ _ Hbody).
Qed.

Lemma list_sum_perm l l' : Permutation l l' -> list_sum l = list_sum l'.
Proof.
  induction 1 as [|x l l' _ IH|x y l|l l' l'' _ IH1 _ IH2]; simpl; lia.
Qed.

Lemma categories_concat divan_data :
  Permutation (Dict.keys divan_data)
              (concat (map snd (ParseBench.categories_of divan_data))).
Proof.
  unfold ParseBench.categories_of. cbn [map snd concat].
  rewrite app_nil_r.
  set (keys := Dict.keys divan_data).
  assert (E : filter
                (fun b =>
                   negb (ParseBench.in_list b
                           (filter (fun b => ParseBench.in_list b
                                               ParseBench.micro_names) keys
                              ++ filter (fun b => ParseBench.in_list b
                                                    ParseBench.realistic_names)
                                        keys
                              ++ filter (fun b => ParseBench.in_list b
                                                    ParseBench.array_names)
                                        keys)%list)) keys
              = filter
                  (fun b =>
                     negb (ParseBench.in_list b ParseBench.micro_names
                           || ParseBench.in_list b ParseBench.realistic_names
                           || ParseBench.in_list b ParseBench.array_names))
                  keys).
  { apply filter_ext_in. intros b Hb.
    rewrite !in_list_app, !in_list_filter by assumption.
    now rewrite orb_assoc. }
  rewrite E. apply four_way_split.
  - intros x. apply category_names_apart.
  - intros x. apply category_names_apart.
Qed.

Lemma operations_of_keys (d : ParseBench.divan_results) :
  NoDup (Dict.keys d) ->
  map (Report.operations_of d) (Dict.keys d)
  = map Report.operations_with_rows (Dict.values d).
Proof.
  induction d as [|[k e] d IH]; intros Hnd; [reflexivity|].
  inversion Hnd as [|? ? Hnotin Hnd']; subst.
  change (Dict.keys ((k, e) :: d)) with (k :: Dict.keys d).
  change (Dict.values ((k, e) :: d)) with (e :: Dict.values d).
  cbn [map]. f_equal.
  - unfold Report.operations_of. cbn [Dict.get]. now rewrite String.eqb_refl.
  - rewrite <- (IH Hnd'). apply map_ext_in. intros b Hb.
    unfold Report.operations_of. cbn [Dict.get].
    destruct (String.eqb_spec k b) as [->|_]; [contradiction|reflexivity].
Qed.

Lemma operations_counted (vs : list ParseBench.entry) :
  list_sum (map Report.operations_with_rows vs)
  = ParseBench.count_if
      (fun b => Dict.nonempty (ParseBench.deserialize b)) vs
    + ParseBench.count_if
        (fun b => Dict.nonempty (ParseBench.serialize b)) vs.
Proof.
  unfold ParseBench.count_if.
  induction vs as [|e vs IH]; [reflexivity|].
  cbn [map list_sum fold_right filter]. unfold Report.operations_with_rows at 1.
  destruct (Dict.nonempty (ParseBench.deserialize e)),
    (Dict.nonempty (ParseBench.serialize e)); cbn [List.length];
    fold (list_sum (map Report.operations_with_rows vs)); lia.
Qed.

(** The keys of a dict built by assignments are all different. *)
Lemma set_nodup {V} k (v : V) d :
  NoDup (Dict.keys d) -> NoDup (Dict.keys (Dict.set k v d)).
Proof.
  intros H. destruct (Dict.mem k d) eqn:M.
  - now rewrite keys_set_known.
  - pose proof (not_mem_not_in_keys _ _ M) as Hn.
    rewrite keys_set_fresh by assumption.
    apply NoDup_app; [assumption|repeat constructor; intros []|].
    intros x Hx [<-|[]]. contradiction.
Qed.

Lemma divan_line_nodup st line st' :
  Spec.known_current st ->
  ParseBench.divan_line st line = Ok st' ->
  NoDup (Dict.keys (fst st)) -> NoDup (Dict.keys (fst st')).
Proof.
  destruct st as [results current]. intros Hk H Hnd. cbn [fst] in Hnd.
  destruct (classify current line) as [b Em|cur n l u Em Ec Ea Er|Em Eo].
  - rewrite (divan_line_section _ _ _ Em) in H. injection H as <-.
    now apply set_nodup.
  - subst current. rewrite (divan_line_measure _ _ Em Ea Er) in H.
    apply bind_ok in H. destruct H as (v & _ & H).
    apply bind_ok in H. destruct H as (e & _ & H). injection H as <-.
    now apply set_nodup.
  - rewrite (divan_line_other _ _ _ Em Eo) in H. now injection H as <-.
Qed.

Lemma parse_divan_nodup text results :
  ParseBench.parse_divan_output text = Ok results ->
  NoDup (Dict.keys results).
Proof.
  unfold ParseBench.parse_divan_output, ParseBench.parse_divan_lines.
  intros H. apply bind_ok in H. destruct H as (st & Hst & H).
  injection H as <-.
  assert (G : forall lines st0 st1,
             Spec.known_current st0 -> NoDup (Dict.keys (fst st0)) ->
             ParseBench.for_lines ParseBench.divan_line st0 lines = Ok st1 ->
             NoDup (Dict.keys (fst st1))).
  { induction lines as [|l lines IH]; intros st0 st1 Hk Hnd E; simpl in E.
    - now injection E as <-.
    - apply bind_ok in E. destruct E as (st2 & E2 & E).
      apply (IH st2 st1); [|now apply (@divan_line_nodup _ _ _ Hk E2)|exact E].
      apply (proj1 (divan_line_known _ Hk E2)). }
  apply (G _ _ _ known_initial (NoDup_nil _) Hst).
Qed.

(** The tables of the sections are one per operation with measurements. *)
Lemma sections_tables divan_data gungraun_data h :
  NoDup (Dict.keys divan_data) ->
  ParseBench.generate_sections_html divan_data gungraun_data = Ok h ->
  Report.tables h
  = ParseBench.count_if
      (fun b => Dict.nonempty (ParseBench.deserialize b))
      (Dict.values divan_data)
    + ParseBench.count_if
        (fun b => Dict.nonempty (ParseBench.serialize b))
        (Dict.values divan_data).
Proof.
  intros Hnd H. unfold ParseBench.generate_sections_html in H.
  rewrite (@categories_html_tables _ _ _ _ H).
  rewrite <- (list_sum_perm
                (Permutation_map (Report.operations_of divan_data)
                                 (categories_concat divan_data))).
  rewrite (@operations_of_keys _ Hnd). apply operations_counted.
Qed.

(** X14. When a run writes a report, the summary it prints counts the
    tables of that report: the number of benchmarks with deserialize
    measurements plus the number with serialize measurements is the number
    of tables in the document, and the first line names the file written. *)
Theorem X14_summary_counts_the_tables :
  forall argv fs now git path html,
    Proc.written (ParseBench.main argv fs now git) = [(path, html)] ->
    exists deser ser,
      Proc.stdout (ParseBench.main argv fs now git)
      = [ "✅ Report generated: " ++ path;
          "   Benchmarks: " ++ Num.format_int (N.of_nat deser)
            ++ " deserialize, " ++ Num.format_int (N.of_nat ser)
            ++ " serialize" ]
      /\ Report.tables html = deser + ser
      /\ Proc.exit_code (ParseBench.main argv fs now git) = 0%Z.
Proof.
  intros argv fs now git path html. unfold ParseBench.main.
  destruct (Nat.ltb (List.length argv) 3); [discriminate|].
  destruct (ParseBench.build_report fs now git (Proc.arg 1 argv)
              (Proc.arg 2 argv)) as [[doc divan_data]|e] eqn:E;
    [|discriminate].
  destruct (Proc.write_text fs (Proc.output_path argv)) as [u|e];
    [|discriminate].
  cbn [Proc.written Proc.stdout Proc.exit_code].
  intros H. injection H as <- <-.
  do 2 eexists. split; [reflexivity|]. split; [|reflexivity].
  unfold ParseBench.build_report in E.
  apply bind_ok in E. destruct E as (divan_text & _ & E).
  apply bind_ok in E. destruct E as (dd & Hdd & E).
  apply bind_ok in E. destruct E as (gungraun_text & _ & E).
  apply bind_ok in E. destruct E as (gd & _ & E).
  apply bind_ok in E. destruct E as (head & Hhead & E).
  apply bind_ok in E. destruct E as (sections & Hsec & E).
  injection E as <- <-.
  unfold ParseBench.generate_html_report in Hhead.
  apply bind_ok in Hhead. destruct Hhead as (legend & _ & Hhead).
  injection Hhead as <-.
  rewrite !tables_app.
  change (Report.tables [Html.ReportHead _ _ _ _]) with 0.
  change (Report.tables [Html.InteractiveJs; Html.Footer]) with 0.
  rewrite Nat.add_0_r. cbn [Nat.add].
  apply (@sections_tables _ _ _ (@parse_divan_nodup _ _ Hdd) Hsec).
Qed.

Lemma X14_witness :
  exists deser ser,
    Proc.stdout (ParseBench.main Sample.argv_divan_gungraun
                   (Proc.with_file "divan.txt"
                      (Proc.Regular Sample.scenario_text) Proc.no_files)
                   "2026-01-01 00:00:00" None)
    = [ "✅ Report generated: bench-report.html";
        "   Benchmarks: " ++ Num.format_int (N.of_nat deser)
          ++ " deserialize, " ++ Num.format_int (N.of_nat ser)
          ++ " serialize" ]
    /\ deser + ser = 1.
Proof.
  assert (E : exists html,
             Proc.written
               (ParseBench.main Sample.argv_divan_gungraun
                  (Proc.with_file "divan.txt"
                     (Proc.Regular Sample.scenario_text) Proc.no_files)
                  "2026-01-01 00:00:00" None)
             = [("bench-report.html", html)] /\ Report.tables html = 1)
    by (vm_compute; eexists; split; reflexivity).
  destruct E as (html & E & Ht).
  destruct (@X14_summary_counts_the_tables _ _ _ _ _ _ E)
    as (deser & ser & H1 & H2 & _).
  exists deser, ser. split; [exact H1|]. now rewrite <- H2.
Defined.

(** ** How a run ends *)







(** ** The earlier script never reports *)

Lemma legacy_ratio_to_fastest_total t f :
  exists r, ParseBenchLegacy.ratio_to_fastest t f = Ok r.
Proof.
  unfold ParseBenchLegacy.ratio_to_fastest.
  destruct (Num.Qltb 0 f) eqn:L; [|eauto].
  apply Qltb_lt in L. rewrite (ratio_to_fastest_ok t L) || idtac.
  assert (Z : Qeq_bool f 0 = false).
  { destruct (Qeq_bool f 0) eqn:Z; [|reflexivity].
    apply Qeq_bool_iff in Z. rewrite Z in L. now apply Qlt_irrefl in L. }
  rewrite (py_div_ok _ _ Z). cbn [bind]. eauto.
Qed.

Lemma legacy_table_rows_total fastest serde_time items :
  exists rows, ParseBenchLegacy.table_rows fastest serde_time items = Ok rows.
Proof.
  induction items as [|[target t] items [rows IH]]; simpl; [eauto|].
  destruct (legacy_ratio_to_fastest_total t fastest) as [vf ->]. cbn [bind].
  destruct (ratio_to_baseline_total t serde_time) as [vs ->]. cbn [bind].
  rewrite IH. cbn [bind]. eauto.
Qed.

Lemma legacy_category_tables_total divan_data benchmarks :
  exists h, ParseBenchLegacy.category_tables divan_data benchmarks = Ok h.
Proof.
  induction benchmarks as [|b bs [t IH]]; simpl; [eauto|].
  rewrite IH.
  destruct (Dict.get b divan_data) as [[|[k v] data]|];
    cbn [Dict.nonempty negb bind]; [eauto| |eauto].
  unfold ParseBenchLegacy.benchmark_table.
  cbn [Dict.values map snd Num.py_min bind].
  destruct (legacy_table_rows_total
              (Num.min_from v (map snd data))
              (ParseBenchLegacy.serde_time_of ((k, v) :: data))
              (Num.sorted_by_value (Dict.items ((k, v) :: data))))
    as [rows ->].
  cbn [bind]. eauto.
Qed.

Lemma legacy_report_raises now divan_data gungraun_data git_info :
  ParseBenchLegacy.generate_html_report now divan_data gungraun_data git_info
  = Raise NameError.
Proof.
  unfold ParseBenchLegacy.generate_html_report,
    ParseBenchLegacy.wall_clock_tables.
  destruct (legacy_category_tables_total divan_data
              ParseBenchLegacy.micro_benchmarks) as [m ->].
  destruct (legacy_category_tables_total divan_data
              ParseBenchLegacy.realistic_benchmarks) as [r ->].
  reflexivity.
Qed.

(** X16. The earlier script [parse-bench.py] never writes a report.  Every
    run ends with status 1 and no file written; with fewer than two paths
    that is the usage exit, with two paths an uncaught error.  When the
    inputs can be read (or are missing), both texts parse and git can be
    started, the error is the NameError of [generate_html_report], whatever
    the measurements are. *)
Theorem X16_earlier_script_never_reports :
  forall argv fs now git,
    Proc.exit_code (ParseBenchLegacy.main argv fs now git) = 1%Z
    /\ Proc.written (ParseBenchLegacy.main argv fs now git) = []
    /\ (Proc.traceback (ParseBenchLegacy.main argv fs now git) = None
        <-> List.length argv < 3)
    /\ forall divan_text gungraun_text divan_data gungraun_data info,
         3 <= List.length argv ->
         (if Proc.path_exists fs (Proc.arg 1 argv)
          then Proc.read_text fs (Proc.arg 1 argv) else Ok "")
         = Ok divan_text ->
         (if Proc.path_exists fs (Proc.arg 2 argv)
          then Proc.read_text fs (Proc.arg 2 argv) else Ok "")
         = Ok gungraun_text ->
         ParseBenchLegacy.parse_divan_output divan_text = Ok divan_data ->
         ParseBenchLegacy.parse_gungraun_output gungraun_text
         = Ok gungraun_data ->
         git = Some info ->
         ParseBenchLegacy.main argv fs now git = Proc.crash NameError.
Proof.
  intros argv fs now git. unfold ParseBenchLegacy.main.
  destruct (Nat.ltb (List.length argv) 3) eqn:L.
  - apply Nat.ltb_lt in L. repeat split; auto; intros; lia.
  - apply Nat.ltb_ge in L.
    match goal with
    | |- context [match ?run with Ok _ => _ | Raise _ => _ end] =>
        destruct run as [[[html n] k]|err] eqn:E
    end.
    + exfalso.
      do 5 (apply bind_ok in E; destruct E as (? & _ & E)).
      apply bind_ok in E. destruct E as (? & E & _).
      rewrite legacy_report_raises in E. discriminate.
    + split; [reflexivity|]. split; [reflexivity|]. split.
      * split; [discriminate|intros; lia].
      * intros divan_text gungraun_text divan_data gungraun_data info _
               E1 E2 E3 E4 ->.
        rewrite E1, E2 in E. cbn [bind] in E.
        rewrite E3 in E. cbn [bind] in E.
        rewrite E4 in E. cbn [bind] in E.
        rewrite legacy_report_raises in E. cbn [bind] in E.
        now injection E as <-.
Qed.

Lemma X16_witness :
  ParseBenchLegacy.main Sample.argv_divan_gungraun
    (Proc.with_file "divan.txt" (Proc.Regular Sample.scenario_text)
       Proc.no_files)
    "2026-01-01 00:00:00" (Some ("abc1234", "main"))
  = Proc.crash NameError.
Proof.
  destruct (@X16_earlier_script_never_reports
              Sample.argv_divan_gungraun
              (Proc.with_file "divan.txt" (Proc.Regular Sample.scenario_text)
                 Proc.no_files)
              "2026-01-01 00:00:00" (Some ("abc1234", "main")))
    as (_ & _ & _ & H).
  assert (E : exists d,
             ParseBenchLegacy.parse_divan_output Sample.scenario_text = Ok d)
    by (vm_compute; eexists; reflexivity).
  destruct E as [d E].
  apply (H Sample.scenario_text "" d [] ("abc1234", "main"));
    [simpl; lia | reflexivity | reflexivity | exact E | reflexivity
     | reflexivity].
Defined.

(** ** The two scripts read the same benchmarks *)

Lemma keys_get_none {V W} (d : Dict.t V) (d' : Dict.t W) k :
  Dict.keys d = Dict.keys d' ->
  Dict.get k d = None -> Dict.get k d' = None.
Proof.
  revert d'. induction d as [|[k0 v0] d IH]; intros [|[k1 v1] d'] Hk;
    try discriminate; [reflexivity|].
  injection Hk as -> Hk. simpl.
  destruct (String.eqb k1 k); [discriminate|]. now apply IH.
Qed.

Lemma keys_set_congr {V W} (d : Dict.t V) (d' : Dict.t W) k v v' :
  Dict.keys d = Dict.keys d' ->
  Dict.keys (Dict.set k v d) = Dict.keys (Dict.set k v' d').
Proof.
  revert d'. induction d as [|[k0 v0] d IH]; intros [|[k1 v1] d'] Hk;
    try discriminate; [reflexivity|].
  injection Hk as -> Hk. simpl.
  destruct (String.eqb k1 k); simpl; [now rewrite Hk|].
  f_equal. now apply IH.
Qed.

Lemma operation_eq_dec (op op' : ParseBench.operation) :
  {op = op'} + {op <> op'}.
Proof. decide equality. Qed.

Lemma entry_get_set_elsewhere op op' target value e :
  op' <> op ->
  ParseBench.entry_get op' (ParseBench.entry_set op target value e)
  = ParseBench.entry_get op' e.
Proof. destruct op, op'; simpl; congruence. Qed.

(** Filing the same measurement in both scripts keeps their entries in
    step. *)
Lemma entries_agree_set e targets name v :
  Versions.entries_agree e targets ->
  Versions.entries_agree
    (ParseBench.entry_set (ParseBench.operation_of name)
       (ParseBench.target_base_of name) v e)
    (Dict.set name v targets).
Proof.
  intros [H1 H2]. split.
  - intros name' v' Hget.
    destruct (operation_eq_dec (ParseBench.operation_of name')
                               (ParseBench.operation_of name)) as [Eo|No].
    + rewrite Eo. unfold Dict.mem.
      destruct (string_dec (ParseBench.target_base_of name')
                           (ParseBench.target_base_of name)) as [Eb|Nb].
      * rewrite Eb. now rewrite entry_get_set.
      * rewrite entry_get_set_other by assumption.
        destruct (string_dec name name') as [->|Nn]; [congruence|].
        rewrite get_set_other in Hget by assumption.
        specialize (H1 _ _ Hget). rewrite Eo in H1. exact H1.
    + rewrite entry_get_set_elsewhere by assumption.
      destruct (string_dec name name') as [->|Nn]; [congruence|].
      rewrite get_set_other in Hget by assumption.
      now apply (H1 _ _ Hget).
  - intros op base v' Hget.
    destruct (operation_eq_dec op (ParseBench.operation_of name))
      as [->|No].
    + destruct (string_dec base (ParseBench.target_base_of name))
        as [->|Nb].
      * rewrite entry_get_set in Hget. injection Hget as <-.
        exists name. now rewrite get_set_same.
      * rewrite entry_get_set_other in Hget by assumption.
        destruct (H2 _ _ _ Hget) as (name' & G & Eo & Eb).
        exists name'. split; [|now split].
        rewrite get_set_other; [exact G|]. intros ->. congruence.
    + rewrite entry_get_set_elsewhere in Hget by assumption.
      destruct (H2 _ _ _ Hget) as (name' & G & Eo & Eb).
      exists name'. split; [|now split].
      rewrite get_set_other; [exact G|]. intros ->. congruence.
Qed.

Lemma models_agree_set d d' b e targets :
  Versions.models_agree d d' ->
  Versions.entries_agree e targets ->
  Versions.models_agree (Dict.set b e d) (Dict.set b targets d').
Proof.
  intros [Hk He] Hnew. split; [now apply keys_set_congr|].
  intros b0 e0 t0 G G'.
  destruct (string_dec b b0) as [->|Nb].
  - rewrite get_set_same in G. rewrite get_set_same in G'.
    injection G as <-. injection G' as <-. exact Hnew.
  - rewrite get_set_other in G by assumption.
    rewrite get_set_other in G' by assumption. now apply (He b0).
Qed.

Lemma entries_agree_empty :
  Versions.entries_agree ParseBench.empty_entry Dict.empty.
Proof.
  split.
  - intros name v H. discriminate.
  - intros [] base v H; discriminate.
Qed.

(** One line, read by both scripts from states in step. *)
Lemma lines_in_step r r' c line :
  Versions.models_agree r r' ->
  match ParseBench.divan_line (r, c) line,
        ParseBenchLegacy.divan_line (r', c) line with
  | Ok (r1, c1), Ok (r1', c1') => c1 = c1' /\ Versions.models_agree r1 r1'
  | Raise e, Raise e' => e = e'
  | _, _ => False
  end.
Proof.
  intros Hm.
  destruct (classify c line) as [b Em|cur n l u Em Ec Ea Er|Em Eo].
  - rewrite (divan_line_section _ _ _ Em), (legacy_line_section _ _ _ Em).
    split; [reflexivity|].
    apply models_agree_set; [assumption|apply entries_agree_empty].
  - subst c.
    rewrite (divan_line_measure _ _ Em Ea Er),
      (legacy_line_measure _ _ Em Ea Er).
    destruct (Num.py_float l) as [v|e]; cbn [bind]; [|reflexivity].
    unfold ParseBench.subscript.
    destruct (Dict.get cur r) as [e|] eqn:G.
    + destruct (Dict.get cur r') as [t|] eqn:G'.
      * cbn [bind]. split; [reflexivity|].
        apply models_agree_set; [assumption|].
        apply entries_agree_set. now apply (proj2 Hm cur).
      * apply (@keys_get_none _ _ r' r cur (eq_sym (proj1 Hm))) in G'.
        congruence.
    + rewrite (@keys_get_none _ _ r r' cur (proj1 Hm) G). reflexivity.
  - rewrite (divan_line_other _ _ _ Em Eo), (legacy_line_other _ _ _ Em Eo).
    now split.
Qed.

Lemma texts_in_step lines : forall r r' c,
  Versions.models_agree r r' ->
  match ParseBench.for_lines ParseBench.divan_line (r, c) lines,
        ParseBench.for_lines ParseBenchLegacy.divan_line (r', c) lines with
  | Ok (r1, c1), Ok (r1', c1') => c1 = c1' /\ Versions.models_agree r1 r1'
  | Raise e, Raise e' => e = e'
  | _, _ => False
  end.
Proof.
  induction lines as [|l lines IH]; intros r r' c Hm;
    cbn [ParseBench.for_lines]; [now split|].
  pose proof (@lines_in_step r r' c l Hm) as H.
  destruct (ParseBench.divan_line (r, c) l) as [[r1 c1]|e],
    (ParseBenchLegacy.divan_line (r', c) l) as [[r1' c1']|e'];
    cbn [bind]; try contradiction; [|exact H].
  destruct H as [<- H]. now apply IH.
Qed.

Lemma same_outcome_of_states (a : res ParseBench.divan_state)
      (b : res ParseBenchLegacy.divan_state) :
  match a, b with
  | Ok (r1, c1), Ok (r1', c1') => c1 = c1' /\ Versions.models_agree r1 r1'
  | Raise e, Raise e' => e = e'
  | _, _ => False
  end ->
  Versions.same_outcome (st <- a ;; Ok (fst st)) (st <- b ;; Ok (fst st)).
Proof.
  destruct a as [[r1 c1]|e], b as [[r1' c1']|e']; simpl; tauto.
Qed.

(** X17. The two scripts read a wall-clock text alike.  Either both raise
    the same error, or both give a model, with the same benchmarks in the
    same order; for every benchmark, each name the earlier script keeps has
    its cell (operation and target) in the entry of [parse_bench.py], and
    each duration in that entry is the duration the earlier script keeps
    for a name of that cell. *)
Theorem X17_both_scripts_read_the_same_benchmarks :
  forall text,
    Versions.same_outcome (ParseBench.parse_divan_output text)
                          (ParseBenchLegacy.parse_divan_output text).
Proof.
  intros text.
  apply (@same_outcome_of_states
           (ParseBench.for_lines ParseBench.divan_line (Dict.empty, None)
              (Str.split ParseBench.newline text))
           (ParseBench.for_lines ParseBenchLegacy.divan_line
              (Dict.empty, None) (Str.split ParseBench.newline text))).
  apply texts_in_step.
  split; [reflexivity|]. intros b e t H. discriminate.
Qed.

(** ** The class of the baseline cell *)



Lemma vs_serde_of_unusable t serde_time :
  serde_time = None \/ (exists s, serde_time = Some s /\ (s <= 0)%Q) ->
  ParseBench.vs_serde_of t serde_time = Ok 0%Q.
Proof.
  intros [->|(s & -> & Hs)]; [reflexivity|].
  unfold ParseBench.vs_serde_of, Num.Qltb.
  apply Qle_bool_iff in Hs. rewrite Hs. cbn [negb].
  now rewrite andb_false_r.
Qed.



Lemma table_row_baseline bench_name gungraun_data serde_time fastest_time
      item row :
  ParseBench.table_row_of bench_name gungraun_data serde_time fastest_time item
  = Ok (Some row) ->
  exists q, ParseBench.vs_serde_of (snd item) serde_time = Ok q
            /\ Html.vs_serde_class row = ParseBench.vs_serde_class_of q
            /\ Html.vs_serde_str row = ParseBench.vs_serde_cell q.
Proof.
  destruct item as [target time_ns]. cbn [snd].
  unfold ParseBench.table_row_of.
  destruct (Dict.mem target ParseBench.TARGETS); cbn [negb];
    [|discriminate].
  destruct (ParseBench.subscript target ParseBench.TARGETS) as [config|];
    [|discriminate].
  cbn [bind].
  destruct (ParseBench.vs_serde_of time_ns serde_time) as [q|];
    [|discriminate].
  cbn [bind]. intros H. injection H as <-. exists q.
  split; [reflexivity|split; reflexivity].
Qed.



(** ** The baseline cell of every row *)

(** C8. [generate_benchmark_section] never raises: an empty group gives
    nothing, and any other group gives its table, with one row for each
    measurement of a registry target.  In each of these rows the baseline
    cell is "-" when serde_json is missing from the group or its duration
    is zero (or below); a cell other than "-" is there only when serde_json
    is in the group with a positive duration. *)
Theorem C8_baseline_ratio_absent_without_baseline :
  forall bench_name operation divan_data gungraun_data bench_id,
    (divan_data = [] ->
     ParseBench.generate_benchmark_section bench_name operation divan_data
       gungraun_data bench_id = Ok [])
    /\ (divan_data <> [] ->
        exists title rows c,
          ParseBench.generate_benchmark_section bench_name operation
            divan_data gungraun_data bench_id
          = Ok [Html.BenchmarkItem bench_id title rows c]
          /\ Forall2
               (fun item row =>
                  Html.data_target row = fst item
                  /\ (Dict.get "serde_json" divan_data = None
                      \/ (exists s,
                             Dict.get "serde_json" divan_data = Some s
                             /\ (s <= 0)%Q) ->
                      Html.vs_serde_str row = "-")
                  /\ (Html.vs_serde_str row <> "-" ->
                      exists s,
                        Dict.get "serde_json" divan_data = Some s
                        /\ (0 < s)%Q))
               (Report.shown divan_data) rows).
Proof.
  intros bench_name operation divan_data gungraun_data bench_id.
  destruct (generate_benchmark_section_cases bench_name operation divan_data
              gungraun_data bench_id)
    as [(E0 & E)|(Hne & f & rows & c & title & _ & Hr & E)].
  - split; [intros _; exact E|intros H; contradiction].
  - split; [intros H; contradiction|intros _].
    exists title, rows, c. split; [exact E|].
    apply table_rows_shown in Hr.
    eapply Forall2_impl; [|exact Hr].
    intros [target t] row Hrow. cbn [fst snd].
    pose proof (@table_row_fields _ _ _ _ _ _ _ Hrow)
      as (config & _ & Htarget & _).
    apply table_row_baseline in Hrow. cbn [snd] in Hrow.
    destruct Hrow as (q & Hq & _ & Hcell).
    split; [exact Htarget|]. split.
    + intros Hu. rewrite (vs_serde_of_unusable t Hu) in Hq.
      injection Hq as <-. rewrite Hcell. reflexivity.
    + intros Hshown.
      destruct (@vs_serde_of_cases _ _ _ Hq) as [->|(s & Hs & Hpos & _)].
      * rewrite Hcell in Hshown. now elim Hshown.
      * now exists s.
Qed.

Lemma C8_witness :
  exists title rows c,
    ParseBench.generate_benchmark_section "simple_struct" "deserialize"
      Inputs.no_baseline [] "simple_struct_deser"
    = Ok [Html.BenchmarkItem "simple_struct_deser" title rows c]
    /\ map Html.data_target rows = ["facet_format_jit"; "facet_json"]
    /\ map Html.vs_serde_str rows = ["-"; "-"].
Proof.
  destruct (proj2 (C8_baseline_ratio_absent_without_baseline
                     "simple_struct" "deserialize" Inputs.no_baseline []
                     "simple_struct_deser"))
    as (title & rows & c & E & _); [discriminate|].
  exists title, rows, c. split; [exact E|].
  vm_compute in E. injection E as <- <- <-. split; reflexivity.
Defined.

(** ** The fastest rows of a group *)

(** C3, as the code has it.  In a group of one operation of one benchmark
    that has rows, every duration is at least the smallest one, which
    [generate_benchmark_section] takes as the fastest time.  When that is
    positive, the ratio of a row to the fastest, its duration divided by
    the smallest, is at least 1, and it is 1 exactly for the rows whose
    duration is the smallest: at least one row, and every row that ties with
    it.  The rows are sorted by duration, rows of equal duration in
    first-seen order, so the first row is the first-seen row of smallest
    duration.  The script stores no ratio: it marks the rows of registry
    targets whose duration equals the fastest time as fastest. *)
Theorem C3_ratio_to_fastest_with_ties :
  forall bench_name operation divan_data gungraun_data bench_id,
    divan_data <> [] ->
    exists fastest_time title rows c,
      Num.py_min (Dict.values divan_data) = Ok fastest_time
      /\ ParseBench.generate_benchmark_section bench_name operation
           divan_data gungraun_data bench_id
         = Ok [Html.BenchmarkItem bench_id title rows c]
      /\ (forall target time_ns,
             In (target, time_ns) (Dict.items divan_data) ->
             (fastest_time <= time_ns)%Q
             /\ ((0 < fastest_time)%Q ->
                 (1 <= time_ns / fastest_time)%Q
                 /\ ((time_ns / fastest_time == 1)%Q
                     <-> (time_ns == fastest_time)%Q)))
      /\ Permutation (Dict.items divan_data)
                     (Num.sorted_by_value (Dict.items divan_data))
      /\ StronglySorted Spec.value_le
                        (Num.sorted_by_value (Dict.items divan_data))
      /\ (forall v,
             filter (Spec.has_value v)
                    (Num.sorted_by_value (Dict.items divan_data))
             = filter (Spec.has_value v) (Dict.items divan_data))
      /\ (exists first,
             hd_error (Num.sorted_by_value (Dict.items divan_data))
             = Some first
             /\ (snd first == fastest_time)%Q
             /\ hd_error (filter (Spec.has_value fastest_time)
                                 (Dict.items divan_data))
                = Some first
             /\ ((0 < fastest_time)%Q ->
                 (1 <= List.length
                         (Spec.ratio_one_rows divan_data fastest_time))%nat))
      /\ Forall2 (fun item row =>
                    Html.data_target row = fst item
                    /\ (Html.row_class row = "fastest"
                        <-> (snd item == fastest_time)%Q))
                 (Report.shown divan_data) rows.
Proof.
  intros bench_name operation divan_data gungraun_data bench_id Hne.
  destruct (generate_benchmark_section_cases bench_name operation divan_data
              gungraun_data bench_id)
    as [(E0 & _)|(_ & fastest & rows & c & title & Hmin & Hr & E)];
    [contradiction|].
  exists fastest, title, rows, c.
  assert (Hspec : In fastest (Dict.values divan_data)
                  /\ forall x, In x (Dict.values divan_data) ->
                               (fastest <= x)%Q).
  { destruct divan_data as [|[k v] d]; [discriminate|].
    simpl in Hmin. injection Hmin as <-. apply min_from_spec. }
  destruct Hspec as [Hin Hle].
  assert (Hitem : forall item,
             In item (Dict.items divan_data) -> (fastest <= snd item)%Q).
  { intros item Hi. apply Hle. unfold Dict.values. now apply in_map. }
  split; [exact Hmin|]. split; [exact E|]. split; [|split; [|split; [|split;
                                                  [|split]]]].
  - intros target time_ns Hi. pose proof (Hitem _ Hi) as Ht. cbn [snd] in Ht.
    split; [exact Ht|]. intros Hpos.
    split; [now apply ratio_at_least_one|now apply ratio_one_iff].
  - apply sorted_perm.
  - apply sorted_sorted.
  - intros v. apply sorted_stable.
  - unfold Dict.values in Hin. apply in_map_iff in Hin.
    destruct Hin as (witness & Hw & Hwin).
    apply (Permutation_in _ (sorted_perm (Dict.items divan_data))) in Hwin.
    pose proof (sorted_sorted (Dict.items divan_data)) as Hs.
    pose proof (sorted_stable fastest (Dict.items divan_data)) as Hst.
    assert (Hrow : forall item,
               In item (Num.sorted_by_value (Dict.items divan_data)) ->
               (fastest <= snd item)%Q).
    { intros item Hi. apply Hitem.
      now apply (Permutation_in _ (Permutation_sym (sorted_perm _))). }
    unfold Spec.ratio_one_rows.
    remember (Num.sorted_by_value (Dict.items divan_data)) as sorted eqn:Es.
    clear Es. destruct sorted as [|first rest]; [destruct Hwin|].
    assert (Hfirst : (snd first == fastest)%Q).
    { apply Qle_antisym.
      - apply StronglySorted_inv in Hs. destruct Hs as [_ Hall].
        destruct Hwin as [Ew|Hwin]; [rewrite Ew, Hw; apply Qle_refl|].
        rewrite Forall_forall in Hall. rewrite <- Hw. now apply Hall.
      - apply Hrow. now left. }
    exists first. split; [reflexivity|]. split; [exact Hfirst|]. split.
    + rewrite <- Hst. simpl. unfold Spec.has_value at 1.
      apply Qeq_bool_iff in Hfirst. now rewrite Hfirst.
    + intros Hpos.
      assert (Hone : (snd first / fastest == 1)%Q)
        by now apply ratio_one_iff.
      simpl. apply Qeq_bool_iff in Hone. rewrite Hone. simpl. lia.
  - apply table_rows_shown in Hr.
    eapply Forall2_impl; [|exact Hr].
    intros [target t] row Hrow. cbn [fst snd].
    apply table_row_fields in Hrow.
    destruct Hrow as (config & _ & Htarget & _ & _ & _ & Hc & _).
    split; [exact Htarget|]. rewrite Hc. apply row_class_fastest.
Qed.

(** C3, as the claim has it, fails: two targets of one operation measured
    at 5 ns both have ratio 1, and both rows are marked fastest. *)
Lemma C3_counterexample :
  ParseBench.parse_divan_output Sample.tie_text
  = Ok [("simple_struct",
         {| ParseBench.deserialize := Inputs.tie;
            ParseBench.serialize := [] |})]
  /\ Num.py_min (Dict.values Inputs.tie) = Ok 5%Q
  /\ Spec.ratio_one_rows Inputs.tie 5%Q = Inputs.tie
  /\ List.length (Spec.ratio_one_rows Inputs.tie 5%Q) = 2%nat
  /\ exists title rows c,
       ParseBench.generate_benchmark_section "simple_struct" "deserialize"
         Inputs.tie [] "simple_struct_deser"
       = Ok [Html.BenchmarkItem "simple_struct_deser" title rows c]
       /\ map Html.data_target rows = ["facet_json"; "serde_json"]
       /\ map Html.row_class rows = ["fastest"; "fastest"].
Proof.
  split; [vm_compute; reflexivity|].
  split; [vm_compute; reflexivity|].
  split; [vm_compute; reflexivity|].
  split; [vm_compute; reflexivity|].
  vm_compute. do 3 eexists. split; [reflexivity|]. split; reflexivity.
Qed.

Lemma C3_witness :
  exists fastest_time first,
    Num.py_min (Dict.values Inputs.group) = Ok fastest_time
    /\ hd_error (Num.sorted_by_value (Dict.items Inputs.group)) = Some first
    /\ (snd first == fastest_time)%Q
    /\ (1 <= 2500 / fastest_time)%Q.
Proof.
  destruct (@C3_ratio_to_fastest_with_ties "simple_struct" "deserialize"
              Inputs.group [] "simple_struct_deser")
    as (fastest_time & title & rows & c & Hmin & _ & Hall & _ & _ & _
        & (first & Hhd & Hfirst & _) & _); [discriminate|].
  exists fastest_time, first.
  split; [exact Hmin|]. split; [exact Hhd|]. split; [exact Hfirst|].
  destruct (Hall "serde_json" 2500%Q) as [_ H]; [now left|].
  apply H. vm_compute in Hmin. injection Hmin as <-. reflexivity.
Defined.
